(** * minidump: the container model of [minidump/minidumpfile.py]

    A shallow embedding of [MinidumpFile]: the header and directory pass, the
    stream dispatch of [__parse_directories], the per-thread register-context
    pass, the PEB walk (bitness inference, length-prefixed UTF-16 strings, the
    environment block) and the [__str__] renderer.

    Python values are modelled as they are used by the module: unbounded
    integers as [Z], [bytes] as [list byte], [str] as a list of Unicode code
    points, [None]-able attributes as [option], exceptions as an outcome
    type.  Code of the package that lives in other modules (the stream
    decoders, the reader, the offset tables) is taken through the interface
    classes [Shapes] and [Package]. *)

From Stdlib Require Import ZArith NArith List String Ascii Bool Lia.
From Stdlib Require Import Init.Byte.
Import ListNotations.
Open Scope Z_scope.

(** ** Exceptions and outcomes *)

(** The exception classes that the module can see: the builtin ones that
    its own statements raise, and the failure kinds of the collaborating
    modules. *)
Inductive exn : Type :=
| AttributeError          (* attribute access on [None] *)
| IndexError              (* list index out of range *)
| KeyError
| TypeError
| ValueError              (* [BytesIO.seek] with a negative offset *)
| UnicodeDecodeError      (* [bytes.decode("utf-16")] on malformed data *)
| ContainerFormatError
| AddressSpaceError
| UnmappedAddressError
| TruncatedReadError
| OtherError (name : string).

(** What a call produces: a value, a raised exception, or (only for the
    model of the [while] loop of the environment scan) exhausted fuel. *)
Inductive outcome (A : Type) : Type :=
| Return (a : A)
| Raise (e : exn)
| OutOfFuel.

Arguments Return {A} a.
Arguments Raise {A} e.
Arguments OutOfFuel {A}.

(** ** Python builtins used by the module *)

Definition bytes := list byte.

(** [int.from_bytes(b, "little")] *)
Definition byte_value (b : byte) : Z := Z.of_N (Byte.to_N b).

Fixpoint int_from_bytes_little (b : bytes) : Z :=
  match b with
  | [] => 0
  | x :: rest => byte_value x + 256 * int_from_bytes_little rest
  end.

(** [len(x)] *)
Definition len {A : Type} (l : list A) : Z := Z.of_nat (List.length l).

(** [b[:n]] and [b[n:]] with Python's treatment of negative and oversized
    bounds. *)
Definition slice_to {A : Type} (n : Z) (l : list A) : list A :=
  if n <? 0 then firstn (Z.to_nat (len l + n)) l else firstn (Z.to_nat n) l.

Definition slice_from {A : Type} (n : Z) (l : list A) : list A :=
  if n <? 0 then skipn (Z.to_nat (len l + n)) l else skipn (Z.to_nat n) l.

(** [b.find(sub)]: the lowest index at which [sub] occurs, or [-1]. *)
Fixpoint startswith (sub b : bytes) : bool :=
  match sub, b with
  | [], _ => true
  | _ :: _, [] => false
  | x :: sub', y :: b' => Byte.eqb x y && startswith sub' b'
  end.

Fixpoint find_from (sub b : bytes) (i : Z) : Z :=
  if startswith sub b then i
  else match b with
       | [] => -1
       | _ :: b' => find_from sub b' (i + 1)
       end.

Definition bytes_find (b sub : bytes) : Z := find_from sub b 0.

(** A Python [str]: a sequence of Unicode code points. *)
Definition str := list N.

Definition str_of_string (s : string) : str :=
  map N_of_ascii (list_ascii_of_string s).

Arguments str_of_string s%_string.

(** [s.split(sep)] for a one-character separator: the pieces between the
    occurrences of [sep]; there is always at least one piece. *)
Fixpoint str_split (sep : N) (s : str) : list str :=
  match s with
  | [] => [[]]
  | c :: rest =>
      if N.eqb c sep then [] :: str_split sep rest
      else match str_split sep rest with
           | piece :: more => (c :: piece) :: more
           | [] => [[c]]
           end
  end.

(** [l[i]] for a non-negative literal index. *)
Definition getitem {A : Type} (l : list A) (i : nat) : outcome A :=
  match nth_error l i with
  | Some x => Return x
  | None => Raise IndexError
  end.

(** [b.decode("utf-16")] on a little-endian host.  A leading byte-order mark
    selects the byte order and is dropped; without one the native order is
    used.  A trailing odd byte, a lone surrogate or a high surrogate that is
    not followed by a low one raise [UnicodeDecodeError]. *)
Fixpoint utf16_units (big_endian : bool) (b : bytes) : outcome (list N) :=
  match b with
  | [] => Return []
  | [_] => Raise UnicodeDecodeError
  | b0 :: b1 :: rest =>
      let unit :=
        if big_endian then (Byte.to_N b0 * 256 + Byte.to_N b1)%N
        else (Byte.to_N b0 + Byte.to_N b1 * 256)%N in
      match utf16_units big_endian rest with
      | Return us => Return (unit :: us)
      | Raise e => Raise e
      | OutOfFuel => OutOfFuel
      end
  end.

Definition is_high_surrogate (c : N) : bool := ((0xD800 <=? c) && (c <=? 0xDBFF))%N.
Definition is_low_surrogate (c : N) : bool := ((0xDC00 <=? c) && (c <=? 0xDFFF))%N.

Fixpoint utf16_code_points (us : list N) : outcome str :=
  match us with
  | [] => Return []
  | c :: rest =>
      if is_high_surrogate c then
        match rest with
        | d :: rest' =>
            if is_low_surrogate d then
              match utf16_code_points rest' with
              | Return s =>
                  Return ((0x10000 + (c - 0xD800) * 0x400 + (d - 0xDC00))%N :: s)
              | other => other
              end
            else Raise UnicodeDecodeError
        | [] => Raise UnicodeDecodeError
        end
      else if is_low_surrogate c then Raise UnicodeDecodeError
      else match utf16_code_points rest with
           | Return s => Return (c :: s)
           | other => other
           end
  end.

Definition decode_utf16 (b : bytes) : outcome str :=
  let '(big_endian, payload) :=
    match b with
    | xff :: xfe :: rest => (false, rest)
    | xfe :: xff :: rest => (true, rest)
    | _ => (false, b)
    end in
  match utf16_units big_endian payload with
  | Return us => utf16_code_points us
  | Raise e => Raise e
  | OutOfFuel => OutOfFuel
  end.

(** [s.encode("utf-16-le")] of an ASCII string *)
Definition utf16le (s : string) : bytes :=
  flat_map (fun c => [byte_of_ascii c; x00]) (list_ascii_of_string s).
Arguments utf16le s%_string.

(** [s.encode("utf-16-le")]: a code point of the basic plane is one code
    unit, a code point above it is a surrogate pair; each unit is written
    low byte first. *)
Definition byte_of_N (n : N) : byte :=
  match Byte.of_N n with
  | Some b => b
  | None => x00
  end.

Definition utf16_unit_bytes (u : N) : bytes :=
  [byte_of_N (u mod 256); byte_of_N (u / 256)].

Definition utf16_code_units (c : N) : list N :=
  if (c <? 0x10000)%N then [c]
  else [ (0xD800 + (c - 0x10000) / 0x400)%N; (0xDC00 + (c - 0x10000) mod 0x400)%N ].

Definition encode_utf16le (s : str) : bytes :=
  flat_map utf16_unit_bytes (flat_map utf16_code_units s).

(** A Unicode scalar value: a code point up to [U+10FFFF] that is not a
    surrogate.  These are the code points that [encode] accepts. *)
Definition is_scalar (c : N) : bool :=
  (c <? 0x110000)%N && negb (is_high_surrogate c) && negb (is_low_surrogate c).

(** The text starts with [U+FEFF] or [U+FFFE], whose bytes
    [decode("utf-16")] takes for a byte-order mark. *)
Definition starts_with_mark (s : str) : bool :=
  match s with
  | c :: _ => (c =? 0xFEFF)%N || (c =? 0xFFFE)%N
  | [] => false
  end.

(** The environment block of the scenario: [A=1] and [B=22] in UTF-16, each
    NUL-terminated, and the NUL that ends the block. *)
Definition environment_block : bytes :=
  utf16le "A=1" ++ [x00; x00] ++ utf16le "B=22" ++ [x00; x00] ++ [x00; x00].

(** The text [s] does not contain the character [c]. *)
Definition lacks (c : ascii) (s : string) : bool :=
  forallb (fun x => negb (Ascii.eqb x c)) (list_ascii_of_string s).

(** The text of an environment entry: [KEY=VALUE]. *)
Definition entry_text (p : string * string) : string :=
  (fst p ++ "=" ++ snd p)%string.

(** An environment block: its entries in UTF-16, each NUL-terminated, and
    the NUL that ends the block. *)
Fixpoint environment_block_of (pairs : list (string * string)) : bytes :=
  match pairs with
  | [] => [x00; x00]
  | p :: rest => utf16le (entry_text p) ++ [x00; x00] ++ environment_block_of rest
  end.

(** A key and a value that the scan is shown to give back: texts of the
    characters [U+0001] to [U+00FF] (the characters of a [string]) without
    [=]. *)
Definition plain_pair (p : string * string) : bool :=
  lacks zero (fst p) && lacks "=" (fst p) && lacks zero (snd p) && lacks "=" (snd p).

(** ** [io.BytesIO]: the byte source behind [parse_bytes] *)

Record BytesIO : Type := mkBytesIO {
  getvalue : bytes;   (* the buffer *)
  tell : Z            (* the cursor *)
}.

(** [f.seek(offset)] / [f.seek(offset, 0)] *)
Definition seek (offset : Z) (f : BytesIO) : outcome Z * BytesIO :=
  if offset <? 0 then (Raise ValueError, f)
  else (Return offset, mkBytesIO (getvalue f) offset).

(** [f.read(size)]: at most [size] bytes from the cursor, which advances by
    the number of bytes returned; a negative [size] reads to the end. *)
Definition read (size : Z) (f : BytesIO) : bytes * BytesIO :=
  let avail := Z.max 0 (len (getvalue f) - tell f) in
  let n := if size <? 0 then avail else Z.min size avail in
  (firstn (Z.to_nat n) (skipn (Z.to_nat (tell f)) (getvalue f)),
   mkBytesIO (getvalue f) (tell f + n)).

(** ** State and exceptions

    A method that mutates [self] (or a file handle) and may raise is a function
    from the state to an outcome and the state it leaves behind: what was
    assigned before an exception stays assigned. *)

Definition M (S A : Type) : Type := S -> outcome A * S.

Definition ret {S A : Type} (a : A) : M S A := fun s => (Return a, s).

Definition raise {S A : Type} (e : exn) : M S A := fun s => (Raise e, s).

Definition bind {S A B : Type} (m : M S A) (k : A -> M S B) : M S B :=
  fun s =>
    match m s with
    | (Return a, s') => k a s'
    | (Raise e, s') => (Raise e, s')
    | (OutOfFuel, s') => (OutOfFuel, s')
    end.

Declare Scope py_scope.
Delimit Scope py_scope with py.
Notation "x <- m ;; k" := (bind m (fun x => k))
  (at level 61, m at next level, right associativity) : py_scope.
Notation "m ;; k" := (bind m (fun _ => k))
  (at level 61, right associativity) : py_scope.

(** [try: m except Exception: pass] (the handler of the module only logs). *)
Definition try_except {S : Type} (m : M S unit) : M S unit :=
  fun s =>
    match m s with
    | (Raise _, s') => (Return tt, s')
    | other => other
    end.

(** [for x in l: body(x)], left to right; an exception leaves the loop. *)
Fixpoint for_each {S A : Type} (l : list A) (body : A -> M S unit) : M S unit :=
  match l with
  | [] => ret tt
  | x :: rest => bind (body x) (fun _ => for_each rest body)
  end.

(** ** Enumerations of [minidump.constants] and [SystemInfoStream] *)

(** The members of [MINIDUMP_STREAM_TYPE] that the module names, and a
    constructor for the remaining members of the enumeration. *)
Module MINIDUMP_STREAM_TYPE.
Inductive t : Type :=
| UnusedStream | ReservedStream0 | ReservedStream1
| ThreadListStream | ModuleListStream | MemoryListStream
| ExceptionStream | SystemInfoStream | ThreadExListStream
| Memory64ListStream | CommentStreamA | CommentStreamW
| HandleDataStream | FunctionTableStream | UnloadedModuleListStream
| MiscInfoStream | MemoryInfoListStream | ThreadInfoListStream
| HandleOperationListStream | TokenStream | JavaScriptDataStream
| SystemMemoryInfoStream | ProcessVmCountersStream | LastReservedStream
| Other (value : Z).
End MINIDUMP_STREAM_TYPE.

(** The members of [PROCESSOR_ARCHITECTURE] that the module names, and a
    constructor for the remaining tags. *)
Module PROCESSOR_ARCHITECTURE.
Inductive t : Type :=
| AMD64
| INTEL
| Other (value : Z).
End PROCESSOR_ARCHITECTURE.

(** The keys of the per-bitness tables of [OFFSETS]. *)
Inductive offset_key : Type :=
| peb | being_debugged_key | image_base_address_key | process_parameters
| image_path_key | command_line_key | window_title_key | dll_path_key
| current_directory_key | standard_input_key | standard_output_key
| standard_error_key | environment_variables_key | buffer.

(** ** Records of the collaborating modules

    Only the attributes that [minidumpfile.py] reads or writes are kept. *)

Record MINIDUMP_LOCATION_DESCRIPTOR : Type := {
  DataSize : Z;
  Rva : Z
}.

Record MINIDUMP_DIRECTORY : Type := {
  StreamType : MINIDUMP_STREAM_TYPE.t;
  Location : MINIDUMP_LOCATION_DESCRIPTOR
}.

Record MinidumpHeader : Type := {
  NumberOfStreams : Z;
  StreamDirectoryRva : Z
}.

Record MinidumpSystemInfo : Type := {
  ProcessorArchitecture : PROCESSOR_ARCHITECTURE.t
}.

(** A region of the 32-bit list: its start address and where its bytes
    are in the file. *)
Record MinidumpMemorySegment : Type := {
  start_virtual_address : Z;
  Memory : MINIDUMP_LOCATION_DESCRIPTOR
}.

(** Modelled from the spec: the 32-bit memory list of
    [minidump/streams/MemoryListStream.py], an ordered list of regions;
    [for mem in self.memory_segments] runs over these regions. *)
Record MinidumpMemoryList : Type := {
  MemoryList_memory_segments : list MinidumpMemorySegment
}.

(** A region of the 64-bit list: its bytes follow those of the regions
    before it, from [BaseRva] on. *)
Record MinidumpMemory64Segment : Type := {
  StartOfMemoryRange : Z;
  Memory64_DataSize : Z
}.

Record MinidumpMemory64List : Type := {
  BaseRva : Z;
  Memory64List_memory_segments : list MinidumpMemory64Segment
}.

(** A decoder of a collaborating module: it reads from the file handle and
    leaves its cursor somewhere; the buffer itself is never written. *)
Definition decoder (A : Type) : Type := BytesIO -> outcome A * Z.

Definition call_decoder {A : Type} (d : decoder A) : M BytesIO A :=
  fun f => let '(o, p) := d f in (o, mkBytesIO (getvalue f) p).

(** The classes whose instances the module only stores, passes on or
    renders. *)
Class Shapes : Type := {
  CONTEXT : Type;
  WOW64_CONTEXT : Type;
  MinidumpModule : Type;
  MinidumpThreadExList : Type;
  CommentStreamA : Type;
  CommentStreamW : Type;
  ExceptionList : Type;
  MinidumpHandleDataStream : Type;
  MinidumpUnloadedModuleList : Type;
  MinidumpMiscInfo : Type;
  MinidumpMemoryInfoList : Type;
  MinidumpThreadInfoList : Type;
  BufferedReader : Type
}.

Section Model.

Context {shapes : Shapes}.

(** The register context attached to a thread: one of the two shapes. *)
Inductive context_object : Type :=
| Context64 (c : CONTEXT)
| ContextWow64 (c : WOW64_CONTEXT).

Record MINIDUMP_THREAD : Type := {
  Teb : Z;
  ThreadContext : MINIDUMP_LOCATION_DESCRIPTOR;
  ContextObject : option context_object
}.

(** [thread.ContextObject = c] *)
Definition set_ContextObject (c : option context_object) (thread : MINIDUMP_THREAD)
  : MINIDUMP_THREAD :=
  {| Teb := Teb thread; ThreadContext := ThreadContext thread; ContextObject := c |}.

Record MinidumpThreadList : Type := {
  ThreadList_threads : list MINIDUMP_THREAD
}.

Record MinidumpModuleList : Type := {
  ModuleList_modules : list MinidumpModule
}.

(** The value of the expression assigned to [self.x64]: a [bool], or what
    the [and] passes through when its left operand is falsy ([None], or the
    memory list itself). *)
Inductive flag_value : Type :=
| PyBool (b : bool)
| PyNone
| PyMemoryList (ml : MinidumpMemoryList).

(** One [{"name": ..., "value": ...}] entry of [environment_variables]. *)
Record EnvironmentVariable : Type := {
  name : str;
  value : str
}.

(** The attributes of a [MinidumpFile].  Those of [__init__] start as
    [None] (or the empty list); those that [__parse_peb] creates are [None]
    here until they are assigned. *)
Record MinidumpFile : Type := {
  filename : option str;
  file_handle : option BytesIO;
  header : option MinidumpHeader;
  directories : list MINIDUMP_DIRECTORY;
  threads_ex : option MinidumpThreadExList;
  threads : option MinidumpThreadList;
  modules : option MinidumpModuleList;
  memory_segments : option MinidumpMemoryList;
  memory_segments_64 : option MinidumpMemory64List;
  sysinfo : option MinidumpSystemInfo;
  comment_a : option CommentStreamA;
  comment_w : option CommentStreamW;
  exception : option ExceptionList;
  handles : option MinidumpHandleDataStream;
  unloaded_modules : option MinidumpUnloadedModuleList;
  misc_info : option MinidumpMiscInfo;
  memory_info : option MinidumpMemoryInfoList;
  thread_info : option MinidumpThreadInfoList;
  x64 : option flag_value;
  peb_address : option Z;
  being_debugged : option Z;
  image_base_address : option Z;
  image_path : option str;
  command_line : option str;
  window_title : option str;
  dll_path : option str;
  current_directory : option str;
  standard_input : option Z;
  standard_output : option Z;
  standard_error : option Z;
  environment_variables : option (list EnvironmentVariable)
}.

(** [self.attr = v], one definition per attribute. *)
Definition set_filename (v : option str) (self : MinidumpFile) : MinidumpFile :=
  Build_MinidumpFile v (file_handle self) (header self) (directories self)
    (threads_ex self) (threads self) (modules self) (memory_segments self)
    (memory_segments_64 self) (sysinfo self) (comment_a self) (comment_w
    self) (exception self) (handles self) (unloaded_modules self) (misc_info
    self) (memory_info self) (thread_info self) (x64 self) (peb_address
    self) (being_debugged self) (image_base_address self) (image_path self)
    (command_line self) (window_title self) (dll_path self)
    (current_directory self) (standard_input self) (standard_output self)
    (standard_error self) (environment_variables self).

Definition set_file_handle (v : option BytesIO) (self : MinidumpFile) : MinidumpFile :=
  Build_MinidumpFile (filename self) v (header self) (directories self)
    (threads_ex self) (threads self) (modules self) (memory_segments self)
    (memory_segments_64 self) (sysinfo self) (comment_a self) (comment_w
    self) (exception self) (handles self) (unloaded_modules self) (misc_info
    self) (memory_info self) (thread_info self) (x64 self) (peb_address
    self) (being_debugged self) (image_base_address self) (image_path self)
    (command_line self) (window_title self) (dll_path self)
    (current_directory self) (standard_input self) (standard_output self)
    (standard_error self) (environment_variables self).

Definition set_header (v : option MinidumpHeader) (self : MinidumpFile) : MinidumpFile :=
  Build_MinidumpFile (filename self) (file_handle self) v (directories self)
    (threads_ex self) (threads self) (modules self) (memory_segments self)
    (memory_segments_64 self) (sysinfo self) (comment_a self) (comment_w
    self) (exception self) (handles self) (unloaded_modules self) (misc_info
    self) (memory_info self) (thread_info self) (x64 self) (peb_address
    self) (being_debugged self) (image_base_address self) (image_path self)
    (command_line self) (window_title self) (dll_path self)
    (current_directory self) (standard_input self) (standard_output self)
    (standard_error self) (environment_variables self).

Definition set_directories (v : list MINIDUMP_DIRECTORY) (self : MinidumpFile) : MinidumpFile :=
  Build_MinidumpFile (filename self) (file_handle self) (header self) v
    (threads_ex self) (threads self) (modules self) (memory_segments self)
    (memory_segments_64 self) (sysinfo self) (comment_a self) (comment_w
    self) (exception self) (handles self) (unloaded_modules self) (misc_info
    self) (memory_info self) (thread_info self) (x64 self) (peb_address
    self) (being_debugged self) (image_base_address self) (image_path self)
    (command_line self) (window_title self) (dll_path self)
    (current_directory self) (standard_input self) (standard_output self)
    (standard_error self) (environment_variables self).

Definition set_threads_ex (v : option MinidumpThreadExList) (self : MinidumpFile) : MinidumpFile :=
  Build_MinidumpFile (filename self) (file_handle self) (header self)
    (directories self) v (threads self) (modules self) (memory_segments
    self) (memory_segments_64 self) (sysinfo self) (comment_a self)
    (comment_w self) (exception self) (handles self) (unloaded_modules self)
    (misc_info self) (memory_info self) (thread_info self) (x64 self)
    (peb_address self) (being_debugged self) (image_base_address self)
    (image_path self) (command_line self) (window_title self) (dll_path
    self) (current_directory self) (standard_input self) (standard_output
    self) (standard_error self) (environment_variables self).

Definition set_threads (v : option MinidumpThreadList) (self : MinidumpFile) : MinidumpFile :=
  Build_MinidumpFile (filename self) (file_handle self) (header self)
    (directories self) (threads_ex self) v (modules self) (memory_segments
    self) (memory_segments_64 self) (sysinfo self) (comment_a self)
    (comment_w self) (exception self) (handles self) (unloaded_modules self)
    (misc_info self) (memory_info self) (thread_info self) (x64 self)
    (peb_address self) (being_debugged self) (image_base_address self)
    (image_path self) (command_line self) (window_title self) (dll_path
    self) (current_directory self) (standard_input self) (standard_output
    self) (standard_error self) (environment_variables self).

Definition set_modules (v : option MinidumpModuleList) (self : MinidumpFile) : MinidumpFile :=
  Build_MinidumpFile (filename self) (file_handle self) (header self)
    (directories self) (threads_ex self) (threads self) v (memory_segments
    self) (memory_segments_64 self) (sysinfo self) (comment_a self)
    (comment_w self) (exception self) (handles self) (unloaded_modules self)
    (misc_info self) (memory_info self) (thread_info self) (x64 self)
    (peb_address self) (being_debugged self) (image_base_address self)
    (image_path self) (command_line self) (window_title self) (dll_path
    self) (current_directory self) (standard_input self) (standard_output
    self) (standard_error self) (environment_variables self).

Definition set_memory_segments (v : option MinidumpMemoryList) (self : MinidumpFile) : MinidumpFile :=
  Build_MinidumpFile (filename self) (file_handle self) (header self)
    (directories self) (threads_ex self) (threads self) (modules self) v
    (memory_segments_64 self) (sysinfo self) (comment_a self) (comment_w
    self) (exception self) (handles self) (unloaded_modules self) (misc_info
    self) (memory_info self) (thread_info self) (x64 self) (peb_address
    self) (being_debugged self) (image_base_address self) (image_path self)
    (command_line self) (window_title self) (dll_path self)
    (current_directory self) (standard_input self) (standard_output self)
    (standard_error self) (environment_variables self).

Definition set_memory_segments_64 (v : option MinidumpMemory64List) (self : MinidumpFile) : MinidumpFile :=
  Build_MinidumpFile (filename self) (file_handle self) (header self)
    (directories self) (threads_ex self) (threads self) (modules self)
    (memory_segments self) v (sysinfo self) (comment_a self) (comment_w
    self) (exception self) (handles self) (unloaded_modules self) (misc_info
    self) (memory_info self) (thread_info self) (x64 self) (peb_address
    self) (being_debugged self) (image_base_address self) (image_path self)
    (command_line self) (window_title self) (dll_path self)
    (current_directory self) (standard_input self) (standard_output self)
    (standard_error self) (environment_variables self).

Definition set_sysinfo (v : option MinidumpSystemInfo) (self : MinidumpFile) : MinidumpFile :=
  Build_MinidumpFile (filename self) (file_handle self) (header self)
    (directories self) (threads_ex self) (threads self) (modules self)
    (memory_segments self) (memory_segments_64 self) v (comment_a self)
    (comment_w self) (exception self) (handles self) (unloaded_modules self)
    (misc_info self) (memory_info self) (thread_info self) (x64 self)
    (peb_address self) (being_debugged self) (image_base_address self)
    (image_path self) (command_line self) (window_title self) (dll_path
    self) (current_directory self) (standard_input self) (standard_output
    self) (standard_error self) (environment_variables self).

Definition set_comment_a (v : option CommentStreamA) (self : MinidumpFile) : MinidumpFile :=
  Build_MinidumpFile (filename self) (file_handle self) (header self)
    (directories self) (threads_ex self) (threads self) (modules self)
    (memory_segments self) (memory_segments_64 self) (sysinfo self) v
    (comment_w self) (exception self) (handles self) (unloaded_modules self)
    (misc_info self) (memory_info self) (thread_info self) (x64 self)
    (peb_address self) (being_debugged self) (image_base_address self)
    (image_path self) (command_line self) (window_title self) (dll_path
    self) (current_directory self) (standard_input self) (standard_output
    self) (standard_error self) (environment_variables self).

Definition set_comment_w (v : option CommentStreamW) (self : MinidumpFile) : MinidumpFile :=
  Build_MinidumpFile (filename self) (file_handle self) (header self)
    (directories self) (threads_ex self) (threads self) (modules self)
    (memory_segments self) (memory_segments_64 self) (sysinfo self)
    (comment_a self) v (exception self) (handles self) (unloaded_modules
    self) (misc_info self) (memory_info self) (thread_info self) (x64 self)
    (peb_address self) (being_debugged self) (image_base_address self)
    (image_path self) (command_line self) (window_title self) (dll_path
    self) (current_directory self) (standard_input self) (standard_output
    self) (standard_error self) (environment_variables self).

Definition set_exception (v : option ExceptionList) (self : MinidumpFile) : MinidumpFile :=
  Build_MinidumpFile (filename self) (file_handle self) (header self)
    (directories self) (threads_ex self) (threads self) (modules self)
    (memory_segments self) (memory_segments_64 self) (sysinfo self)
    (comment_a self) (comment_w self) v (handles self) (unloaded_modules
    self) (misc_info self) (memory_info self) (thread_info self) (x64 self)
    (peb_address self) (being_debugged self) (image_base_address self)
    (image_path self) (command_line self) (window_title self) (dll_path
    self) (current_directory self) (standard_input self) (standard_output
    self) (standard_error self) (environment_variables self).

Definition set_handles (v : option MinidumpHandleDataStream) (self : MinidumpFile) : MinidumpFile :=
  Build_MinidumpFile (filename self) (file_handle self) (header self)
    (directories self) (threads_ex self) (threads self) (modules self)
    (memory_segments self) (memory_segments_64 self) (sysinfo self)
    (comment_a self) (comment_w self) (exception self) v (unloaded_modules
    self) (misc_info self) (memory_info self) (thread_info self) (x64 self)
    (peb_address self) (being_debugged self) (image_base_address self)
    (image_path self) (command_line self) (window_title self) (dll_path
    self) (current_directory self) (standard_input self) (standard_output
    self) (standard_error self) (environment_variables self).

Definition set_unloaded_modules (v : option MinidumpUnloadedModuleList) (self : MinidumpFile) : MinidumpFile :=
  Build_MinidumpFile (filename self) (file_handle self) (header self)
    (directories self) (threads_ex self) (threads self) (modules self)
    (memory_segments self) (memory_segments_64 self) (sysinfo self)
    (comment_a self) (comment_w self) (exception self) (handles self) v
    (misc_info self) (memory_info self) (thread_info self) (x64 self)
    (peb_address self) (being_debugged self) (image_base_address self)
    (image_path self) (command_line self) (window_title self) (dll_path
    self) (current_directory self) (standard_input self) (standard_output
    self) (standard_error self) (environment_variables self).

Definition set_misc_info (v : option MinidumpMiscInfo) (self : MinidumpFile) : MinidumpFile :=
  Build_MinidumpFile (filename self) (file_handle self) (header self)
    (directories self) (threads_ex self) (threads self) (modules self)
    (memory_segments self) (memory_segments_64 self) (sysinfo self)
    (comment_a self) (comment_w self) (exception self) (handles self)
    (unloaded_modules self) v (memory_info self) (thread_info self) (x64
    self) (peb_address self) (being_debugged self) (image_base_address self)
    (image_path self) (command_line self) (window_title self) (dll_path
    self) (current_directory self) (standard_input self) (standard_output
    self) (standard_error self) (environment_variables self).

Definition set_memory_info (v : option MinidumpMemoryInfoList) (self : MinidumpFile) : MinidumpFile :=
  Build_MinidumpFile (filename self) (file_handle self) (header self)
    (directories self) (threads_ex self) (threads self) (modules self)
    (memory_segments self) (memory_segments_64 self) (sysinfo self)
    (comment_a self) (comment_w self) (exception self) (handles self)
    (unloaded_modules self) (misc_info self) v (thread_info self) (x64 self)
    (peb_address self) (being_debugged self) (image_base_address self)
    (image_path self) (command_line self) (window_title self) (dll_path
    self) (current_directory self) (standard_input self) (standard_output
    self) (standard_error self) (environment_variables self).

Definition set_thread_info (v : option MinidumpThreadInfoList) (self : MinidumpFile) : MinidumpFile :=
  Build_MinidumpFile (filename self) (file_handle self) (header self)
    (directories self) (threads_ex self) (threads self) (modules self)
    (memory_segments self) (memory_segments_64 self) (sysinfo self)
    (comment_a self) (comment_w self) (exception self) (handles self)
    (unloaded_modules self) (misc_info self) (memory_info self) v (x64 self)
    (peb_address self) (being_debugged self) (image_base_address self)
    (image_path self) (command_line self) (window_title self) (dll_path
    self) (current_directory self) (standard_input self) (standard_output
    self) (standard_error self) (environment_variables self).

Definition set_x64 (v : option flag_value) (self : MinidumpFile) : MinidumpFile :=
  Build_MinidumpFile (filename self) (file_handle self) (header self)
    (directories self) (threads_ex self) (threads self) (modules self)
    (memory_segments self) (memory_segments_64 self) (sysinfo self)
    (comment_a self) (comment_w self) (exception self) (handles self)
    (unloaded_modules self) (misc_info self) (memory_info self) (thread_info
    self) v (peb_address self) (being_debugged self) (image_base_address
    self) (image_path self) (command_line self) (window_title self)
    (dll_path self) (current_directory self) (standard_input self)
    (standard_output self) (standard_error self) (environment_variables
    self).

Definition set_peb_address (v : option Z) (self : MinidumpFile) : MinidumpFile :=
  Build_MinidumpFile (filename self) (file_handle self) (header self)
    (directories self) (threads_ex self) (threads self) (modules self)
    (memory_segments self) (memory_segments_64 self) (sysinfo self)
    (comment_a self) (comment_w self) (exception self) (handles self)
    (unloaded_modules self) (misc_info self) (memory_info self) (thread_info
    self) (x64 self) v (being_debugged self) (image_base_address self)
    (image_path self) (command_line self) (window_title self) (dll_path
    self) (current_directory self) (standard_input self) (standard_output
    self) (standard_error self) (environment_variables self).

Definition set_being_debugged (v : option Z) (self : MinidumpFile) : MinidumpFile :=
  Build_MinidumpFile (filename self) (file_handle self) (header self)
    (directories self) (threads_ex self) (threads self) (modules self)
    (memory_segments self) (memory_segments_64 self) (sysinfo self)
    (comment_a self) (comment_w self) (exception self) (handles self)
    (unloaded_modules self) (misc_info self) (memory_info self) (thread_info
    self) (x64 self) (peb_address self) v (image_base_address self)
    (image_path self) (command_line self) (window_title self) (dll_path
    self) (current_directory self) (standard_input self) (standard_output
    self) (standard_error self) (environment_variables self).

Definition set_image_base_address (v : option Z) (self : MinidumpFile) : MinidumpFile :=
  Build_MinidumpFile (filename self) (file_handle self) (header self)
    (directories self) (threads_ex self) (threads self) (modules self)
    (memory_segments self) (memory_segments_64 self) (sysinfo self)
    (comment_a self) (comment_w self) (exception self) (handles self)
    (unloaded_modules self) (misc_info self) (memory_info self) (thread_info
    self) (x64 self) (peb_address self) (being_debugged self) v (image_path
    self) (command_line self) (window_title self) (dll_path self)
    (current_directory self) (standard_input self) (standard_output self)
    (standard_error self) (environment_variables self).

Definition set_image_path (v : option str) (self : MinidumpFile) : MinidumpFile :=
  Build_MinidumpFile (filename self) (file_handle self) (header self)
    (directories self) (threads_ex self) (threads self) (modules self)
    (memory_segments self) (memory_segments_64 self) (sysinfo self)
    (comment_a self) (comment_w self) (exception self) (handles self)
    (unloaded_modules self) (misc_info self) (memory_info self) (thread_info
    self) (x64 self) (peb_address self) (being_debugged self)
    (image_base_address self) v (command_line self) (window_title self)
    (dll_path self) (current_directory self) (standard_input self)
    (standard_output self) (standard_error self) (environment_variables
    self).

Definition set_command_line (v : option str) (self : MinidumpFile) : MinidumpFile :=
  Build_MinidumpFile (filename self) (file_handle self) (header self)
    (directories self) (threads_ex self) (threads self) (modules self)
    (memory_segments self) (memory_segments_64 self) (sysinfo self)
    (comment_a self) (comment_w self) (exception self) (handles self)
    (unloaded_modules self) (misc_info self) (memory_info self) (thread_info
    self) (x64 self) (peb_address self) (being_debugged self)
    (image_base_address self) (image_path self) v (window_title self)
    (dll_path self) (current_directory self) (standard_input self)
    (standard_output self) (standard_error self) (environment_variables
    self).

Definition set_window_title (v : option str) (self : MinidumpFile) : MinidumpFile :=
  Build_MinidumpFile (filename self) (file_handle self) (header self)
    (directories self) (threads_ex self) (threads self) (modules self)
    (memory_segments self) (memory_segments_64 self) (sysinfo self)
    (comment_a self) (comment_w self) (exception self) (handles self)
    (unloaded_modules self) (misc_info self) (memory_info self) (thread_info
    self) (x64 self) (peb_address self) (being_debugged self)
    (image_base_address self) (image_path self) (command_line self) v
    (dll_path self) (current_directory self) (standard_input self)
    (standard_output self) (standard_error self) (environment_variables
    self).

Definition set_dll_path (v : option str) (self : MinidumpFile) : MinidumpFile :=
  Build_MinidumpFile (filename self) (file_handle self) (header self)
    (directories self) (threads_ex self) (threads self) (modules self)
    (memory_segments self) (memory_segments_64 self) (sysinfo self)
    (comment_a self) (comment_w self) (exception self) (handles self)
    (unloaded_modules self) (misc_info self) (memory_info self) (thread_info
    self) (x64 self) (peb_address self) (being_debugged self)
    (image_base_address self) (image_path self) (command_line self)
    (window_title self) v (current_directory self) (standard_input self)
    (standard_output self) (standard_error self) (environment_variables
    self).

Definition set_current_directory (v : option str) (self : MinidumpFile) : MinidumpFile :=
  Build_MinidumpFile (filename self) (file_handle self) (header self)
    (directories self) (threads_ex self) (threads self) (modules self)
    (memory_segments self) (memory_segments_64 self) (sysinfo self)
    (comment_a self) (comment_w self) (exception self) (handles self)
    (unloaded_modules self) (misc_info self) (memory_info self) (thread_info
    self) (x64 self) (peb_address self) (being_debugged self)
    (image_base_address self) (image_path self) (command_line self)
    (window_title self) (dll_path self) v (standard_input self)
    (standard_output self) (standard_error self) (environment_variables
    self).

Definition set_standard_input (v : option Z) (self : MinidumpFile) : MinidumpFile :=
  Build_MinidumpFile (filename self) (file_handle self) (header self)
    (directories self) (threads_ex self) (threads self) (modules self)
    (memory_segments self) (memory_segments_64 self) (sysinfo self)
    (comment_a self) (comment_w self) (exception self) (handles self)
    (unloaded_modules self) (misc_info self) (memory_info self) (thread_info
    self) (x64 self) (peb_address self) (being_debugged self)
    (image_base_address self) (image_path self) (command_line self)
    (window_title self) (dll_path self) (current_directory self) v
    (standard_output self) (standard_error self) (environment_variables
    self).

Definition set_standard_output (v : option Z) (self : MinidumpFile) : MinidumpFile :=
  Build_MinidumpFile (filename self) (file_handle self) (header self)
    (directories self) (threads_ex self) (threads self) (modules self)
    (memory_segments self) (memory_segments_64 self) (sysinfo self)
    (comment_a self) (comment_w self) (exception self) (handles self)
    (unloaded_modules self) (misc_info self) (memory_info self) (thread_info
    self) (x64 self) (peb_address self) (being_debugged self)
    (image_base_address self) (image_path self) (command_line self)
    (window_title self) (dll_path self) (current_directory self)
    (standard_input self) v (standard_error self) (environment_variables
    self).

Definition set_standard_error (v : option Z) (self : MinidumpFile) : MinidumpFile :=
  Build_MinidumpFile (filename self) (file_handle self) (header self)
    (directories self) (threads_ex self) (threads self) (modules self)
    (memory_segments self) (memory_segments_64 self) (sysinfo self)
    (comment_a self) (comment_w self) (exception self) (handles self)
    (unloaded_modules self) (misc_info self) (memory_info self) (thread_info
    self) (x64 self) (peb_address self) (being_debugged self)
    (image_base_address self) (image_path self) (command_line self)
    (window_title self) (dll_path self) (current_directory self)
    (standard_input self) (standard_output self) v (environment_variables
    self).

Definition set_environment_variables (v : option (list EnvironmentVariable)) (self : MinidumpFile) : MinidumpFile :=
  Build_MinidumpFile (filename self) (file_handle self) (header self)
    (directories self) (threads_ex self) (threads self) (modules self)
    (memory_segments self) (memory_segments_64 self) (sysinfo self)
    (comment_a self) (comment_w self) (exception self) (handles self)
    (unloaded_modules self) (misc_info self) (memory_info self) (thread_info
    self) (x64 self) (peb_address self) (being_debugged self)
    (image_base_address self) (image_path self) (command_line self)
    (window_title self) (dll_path self) (current_directory self)
    (standard_input self) (standard_output self) (standard_error self) v.

(** [MinidumpFile()] *)
Definition MinidumpFile__init__ : MinidumpFile :=
  {| filename := None; file_handle := None; header := None; directories := [];
     threads_ex := None; threads := None; modules := None;
     memory_segments := None; memory_segments_64 := None; sysinfo := None;
     comment_a := None; comment_w := None; exception := None; handles := None;
     unloaded_modules := None; misc_info := None; memory_info := None;
     thread_info := None;
     x64 := None; peb_address := None; being_debugged := None;
     image_base_address := None; image_path := None; command_line := None;
     window_title := None; dll_path := None; current_directory := None;
     standard_input := None; standard_output := None; standard_error := None;
     environment_variables := None |}.

(** The functions of the collaborating modules.  The stream decoders take the
    directory entry and the file handle; the reader is the buffered reader
    over the address space of the dump, made from the parsed file; [OFFSETS]
    and [POINTER_SIZE] are the per-bitness tables, indexed by [False] and
    [True], and [table_index_error] is what they raise for another index. *)
Class Package : Type := {
  MinidumpHeader_parse : decoder MinidumpHeader;
  MINIDUMP_DIRECTORY_parse : decoder (option MINIDUMP_DIRECTORY);
  MINIDUMP_DIRECTORY_get_stream_type_value : decoder Z;
  MinidumpThreadList_parse : MINIDUMP_DIRECTORY -> decoder MinidumpThreadList;
  MinidumpModuleList_parse : MINIDUMP_DIRECTORY -> decoder MinidumpModuleList;
  MinidumpMemoryList_parse : MINIDUMP_DIRECTORY -> decoder MinidumpMemoryList;
  MinidumpSystemInfo_parse : MINIDUMP_DIRECTORY -> decoder MinidumpSystemInfo;
  MinidumpThreadExList_parse : MINIDUMP_DIRECTORY -> decoder MinidumpThreadExList;
  MinidumpMemory64List_parse : MINIDUMP_DIRECTORY -> decoder MinidumpMemory64List;
  CommentStreamA_parse : MINIDUMP_DIRECTORY -> decoder CommentStreamA;
  CommentStreamW_parse : MINIDUMP_DIRECTORY -> decoder CommentStreamW;
  ExceptionList_parse : MINIDUMP_DIRECTORY -> decoder ExceptionList;
  MinidumpHandleDataStream_parse : MINIDUMP_DIRECTORY -> decoder MinidumpHandleDataStream;
  MinidumpUnloadedModuleList_parse :
    MINIDUMP_DIRECTORY -> decoder MinidumpUnloadedModuleList;
  MinidumpMiscInfo_parse : MINIDUMP_DIRECTORY -> decoder MinidumpMiscInfo;
  MinidumpMemoryInfoList_parse : MINIDUMP_DIRECTORY -> decoder MinidumpMemoryInfoList;
  MinidumpThreadInfoList_parse : MINIDUMP_DIRECTORY -> decoder MinidumpThreadInfoList;
  CONTEXT_parse : decoder CONTEXT;
  WOW64_CONTEXT_parse : decoder WOW64_CONTEXT;

  (* the truth value of a memory list; a list that holds regions is truthy *)
  MinidumpMemoryList_bool : MinidumpMemoryList -> bool;
  MinidumpMemoryList_bool_regions :
    forall ml, MinidumpMemoryList_bool ml = false -> MemoryList_memory_segments ml = [];

  (* [self.get_reader().get_buffered_reader()] and the reader's methods *)
  get_buffered_reader : MinidumpFile -> outcome BufferedReader;
  BufferedReader_move : Z -> M BufferedReader unit;
  BufferedReader_read : Z -> M BufferedReader bytes;
  current_segment_end_address : BufferedReader -> outcome Z;
  current_position : BufferedReader -> Z;

  OFFSETS : bool -> offset_key -> Z;
  POINTER_SIZE : bool -> Z;
  table_index_error : exn;

  (* [str(x)] of the rendered objects *)
  MinidumpHeader_str : MinidumpHeader -> str;
  MinidumpSystemInfo_str : MinidumpSystemInfo -> str;
  MINIDUMP_DIRECTORY_str : MINIDUMP_DIRECTORY -> str;
  MinidumpModule_str : MinidumpModule -> str;
  MinidumpMemorySegment_str : MinidumpMemorySegment -> str;
  MinidumpMemory64Segment_str : MinidumpMemory64Segment -> str
}.

Context {package : Package}.

Local Open Scope py_scope.

(** A method call on [self.file_handle]. *)
Definition on_file_handle {A : Type} (op : M BytesIO A) : M MinidumpFile A :=
  fun self =>
    match file_handle self with
    | None => (Raise AttributeError, self)
    | Some f => let '(o, f') := op f in (o, set_file_handle (Some f') self)
    end.

(** [self.attr = v] as a statement. *)
Definition assign (f : MinidumpFile -> MinidumpFile) : M MinidumpFile unit :=
  fun self => (Return tt, f self).

(** [range(0, n)] *)
Definition range0 (n : Z) : list Z := map Z.of_nat (seq 0 (Z.to_nat n)).

(** *** [__parse_header] *)

(** The body of the loop over the directory table. *)
Definition parse_header_entry (h : MinidumpHeader) (i : Z) : M MinidumpFile unit :=
  on_file_handle (seek (StreamDirectoryRva h + i * 12)) ;;
  minidump_dir <- on_file_handle (call_decoder MINIDUMP_DIRECTORY_parse) ;;
  match minidump_dir with
  | Some d => assign (fun self => set_directories (directories self ++ [d]) self)
  | None =>
      on_file_handle (seek (StreamDirectoryRva h + i * 12)) ;;
      user_stream_type_value <-
        on_file_handle (call_decoder MINIDUMP_DIRECTORY_get_stream_type_value) ;;
      ret tt
  end.

Definition __parse_header : M MinidumpFile unit :=
  h <- on_file_handle (call_decoder MinidumpHeader_parse) ;;
  assign (set_header (Some h)) ;;
  for_each (range0 (NumberOfStreams h)) (parse_header_entry h).

(** *** [__parse_thread_context] *)

(** The body of the loop over the threads: seek to the context record, then
    decode by the architecture tag of the system info. *)
Definition decode_thread_context (si : MinidumpSystemInfo) (thread : MINIDUMP_THREAD)
  : M BytesIO MINIDUMP_THREAD :=
  seek (Rva (ThreadContext thread)) ;;
  match ProcessorArchitecture si with
  | PROCESSOR_ARCHITECTURE.AMD64 =>
      c <- call_decoder CONTEXT_parse ;;
      ret (set_ContextObject (Some (Context64 c)) thread)
  | PROCESSOR_ARCHITECTURE.INTEL =>
      c <- call_decoder WOW64_CONTEXT_parse ;;
      ret (set_ContextObject (Some (ContextWow64 c)) thread)
  | PROCESSOR_ARCHITECTURE.Other _ => ret thread
  end.

(** The loop: the threads are updated in place, so the list it returns is
    the list as the loop leaves it, also when a thread raises. *)
Fixpoint thread_context_loop (si : MinidumpSystemInfo) (todo : list MINIDUMP_THREAD)
  (f : BytesIO) : outcome unit * list MINIDUMP_THREAD * BytesIO :=
  match todo with
  | [] => (Return tt, [], f)
  | thread :: rest =>
      match decode_thread_context si thread f with
      | (Return thread', f') =>
          let '(o, rest', f'') := thread_context_loop si rest f' in
          (o, thread' :: rest', f'')
      | (Raise e, f') => (Raise e, thread :: rest, f')
      | (OutOfFuel, f') => (OutOfFuel, thread :: rest, f')
      end
  end.

(** [not self.sysinfo] and [not self.threads] are read as tests for [None]:
    a system-info record is truthy, and a thread list that would be falsy
    has no thread to loop over. *)
Definition __parse_thread_context : M MinidumpFile unit :=
  fun self =>
    match sysinfo self, threads self with
    | Some si, Some tl =>
        match ThreadList_threads tl, file_handle self with
        | [], _ => (Return tt, self)
        | _ :: _, None => (Raise AttributeError, self)
        | todo, Some f =>
            let '(o, done, f') := thread_context_loop si todo f in
            (o, set_file_handle (Some f')
                  (set_threads (Some {| ThreadList_threads := done |}) self))
        end
    | _, _ => (Return tt, self)
    end.

(** *** [__parse_directories] *)

(** [self.attr = Decoder.parse(dir, self.file_handle)] *)
Definition decode_into {A : Type} (parse : decoder A)
  (set : option A -> MinidumpFile -> MinidumpFile) : M MinidumpFile unit :=
  v <- on_file_handle (call_decoder parse) ;;
  assign (set (Some v)).

(** The body of the loop over [self.directories]; the branches that only
    log do nothing to the model. *)
Definition dispatch_directory (dir : MINIDUMP_DIRECTORY) : M MinidumpFile unit :=
  match StreamType dir with
  | MINIDUMP_STREAM_TYPE.UnusedStream => ret tt
  | MINIDUMP_STREAM_TYPE.ReservedStream0 => ret tt
  | MINIDUMP_STREAM_TYPE.ReservedStream1 => ret tt
  | MINIDUMP_STREAM_TYPE.ThreadListStream =>
      decode_into (MinidumpThreadList_parse dir) set_threads
  | MINIDUMP_STREAM_TYPE.ModuleListStream =>
      decode_into (MinidumpModuleList_parse dir) set_modules
  | MINIDUMP_STREAM_TYPE.MemoryListStream =>
      decode_into (MinidumpMemoryList_parse dir) set_memory_segments
  | MINIDUMP_STREAM_TYPE.SystemInfoStream =>
      decode_into (MinidumpSystemInfo_parse dir) set_sysinfo
  | MINIDUMP_STREAM_TYPE.ThreadExListStream =>
      decode_into (MinidumpThreadExList_parse dir) set_threads_ex
  | MINIDUMP_STREAM_TYPE.Memory64ListStream =>
      decode_into (MinidumpMemory64List_parse dir) set_memory_segments_64
  | MINIDUMP_STREAM_TYPE.CommentStreamA =>
      decode_into (CommentStreamA_parse dir) set_comment_a
  | MINIDUMP_STREAM_TYPE.CommentStreamW =>
      decode_into (CommentStreamW_parse dir) set_comment_w
  | MINIDUMP_STREAM_TYPE.ExceptionStream =>
      decode_into (ExceptionList_parse dir) set_exception
  | MINIDUMP_STREAM_TYPE.HandleDataStream =>
      decode_into (MinidumpHandleDataStream_parse dir) set_handles
  | MINIDUMP_STREAM_TYPE.FunctionTableStream => ret tt
  | MINIDUMP_STREAM_TYPE.UnloadedModuleListStream =>
      decode_into (MinidumpUnloadedModuleList_parse dir) set_unloaded_modules
  | MINIDUMP_STREAM_TYPE.MiscInfoStream =>
      decode_into (MinidumpMiscInfo_parse dir) set_misc_info
  | MINIDUMP_STREAM_TYPE.MemoryInfoListStream =>
      decode_into (MinidumpMemoryInfoList_parse dir) set_memory_info
  | MINIDUMP_STREAM_TYPE.ThreadInfoListStream =>
      decode_into (MinidumpThreadInfoList_parse dir) set_thread_info
  | MINIDUMP_STREAM_TYPE.SystemMemoryInfoStream => ret tt
  | MINIDUMP_STREAM_TYPE.JavaScriptDataStream => ret tt
  | MINIDUMP_STREAM_TYPE.ProcessVmCountersStream => ret tt
  | MINIDUMP_STREAM_TYPE.TokenStream => ret tt
  | _ => ret tt
  end.

(** The [for] loop of [__parse_directories] over a directory table. *)
Definition directory_loop (dirs : list MINIDUMP_DIRECTORY) : M MinidumpFile unit :=
  for_each dirs dispatch_directory.

Definition __parse_directories : M MinidumpFile unit :=
  (fun self => directory_loop (directories self) self) ;;
  try_except __parse_thread_context.

(** *** The PEB walk

    The statements of [__parse_peb] after the reader is made, as a tree of the
    calls they make on the buffered reader and of the assignments to
    [self]. *)
Inductive Walk (A : Type) : Type :=
| Done (a : A)
| Fail (e : exn)
| Spin                                                  (* fuel exhausted *)
| Assign (f : MinidumpFile -> MinidumpFile) (k : Walk A) (* self.attr = v *)
| Move (addr : Z) (k : Walk A)                          (* buff_reader.move(addr) *)
| Read (size : Z) (k : bytes -> Walk A)                 (* buff_reader.read(size) *)
| EndAddress (k : Z -> Walk A)       (* buff_reader.current_segment.end_address *)
| CurrentPosition (k : Z -> Walk A). (* buff_reader.current_position *)

Arguments Done {A} a.
Arguments Fail {A} e.
Arguments Spin {A}.
Arguments Assign {A} f k.
Arguments Move {A} addr k.
Arguments Read {A} size k.
Arguments EndAddress {A} k.
Arguments CurrentPosition {A} k.

Fixpoint walk_bind {A B : Type} (w : Walk A) (k : A -> Walk B) : Walk B :=
  match w with
  | Done a => k a
  | Fail e => Fail e
  | Spin => Spin
  | Assign f w' => Assign f (walk_bind w' k)
  | Move addr w' => Move addr (walk_bind w' k)
  | Read size c => Read size (fun b => walk_bind (c b) k)
  | EndAddress c => EndAddress (fun e => walk_bind (c e) k)
  | CurrentPosition c => CurrentPosition (fun p => walk_bind (c p) k)
  end.

Declare Scope walk_scope.
Delimit Scope walk_scope with walk.
Notation "x <- w ;; k" := (walk_bind w (fun x => k))
  (at level 61, w at next level, right associativity) : walk_scope.
Notation "w ;; k" := (walk_bind w (fun _ => k))
  (at level 61, right associativity) : walk_scope.

Definition move (addr : Z) : Walk unit := Move addr (Done tt).
Definition read_bytes (size : Z) : Walk bytes := Read size (fun b => Done b).
Definition self_assign (f : MinidumpFile -> MinidumpFile) : Walk unit :=
  Assign f (Done tt).

Definition lift {A : Type} (o : outcome A) : Walk A :=
  match o with
  | Return a => Done a
  | Raise e => Fail e
  | OutOfFuel => Spin
  end.

(** [int.from_bytes(buff_reader.read(size), "little")] *)
Definition read_int (size : Z) : Walk Z :=
  Read size (fun b => Done (int_from_bytes_little b)).

(** [buff_reader.read(buff_reader.current_segment.end_address -
    buff_reader.current_position)] *)
Definition read_rest_of_segment : Walk bytes :=
  EndAddress (fun end_address =>
  CurrentPosition (fun position =>
  Read (end_address - position) (fun b => Done b))).

(** The calls of a walk on the reader, in the order they are made. *)
Inductive reader_call : Type :=
| call_move (addr : Z)
| call_read (size : Z)
| call_end_address
| call_current_position.

Record walk_state : Type := {
  walk_self : MinidumpFile;
  walk_reader : BufferedReader;
  walk_calls : list reader_call
}.

Definition logged (c : reader_call) (self : MinidumpFile) (rd : BufferedReader)
  (calls : list reader_call) : walk_state :=
  {| walk_self := self; walk_reader := rd; walk_calls := calls ++ [c] |}.

(** Running a walk against the reader of the package. *)
Fixpoint run {A : Type} (w : Walk A) : M walk_state A :=
  fun st =>
    let '(Build_walk_state self rd calls) := st in
    match w with
    | Done a => (Return a, st)
    | Fail e => (Raise e, st)
    | Spin => (OutOfFuel, st)
    | Assign f k => run k (Build_walk_state (f self) rd calls)
    | Move addr k =>
        match BufferedReader_move addr rd with
        | (Return _, rd') => run k (logged (call_move addr) self rd' calls)
        | (Raise e, rd') => (Raise e, logged (call_move addr) self rd' calls)
        | (OutOfFuel, rd') => (OutOfFuel, logged (call_move addr) self rd' calls)
        end
    | Read size k =>
        match BufferedReader_read size rd with
        | (Return b, rd') => run (k b) (logged (call_read size) self rd' calls)
        | (Raise e, rd') => (Raise e, logged (call_read size) self rd' calls)
        | (OutOfFuel, rd') => (OutOfFuel, logged (call_read size) self rd' calls)
        end
    | EndAddress k =>
        match current_segment_end_address rd with
        | Return e => run (k e) (logged call_end_address self rd calls)
        | Raise e => (Raise e, logged call_end_address self rd calls)
        | OutOfFuel => (OutOfFuel, logged call_end_address self rd calls)
        end
    | CurrentPosition k =>
        run (k (current_position rd)) (logged call_current_position self rd calls)
    end.

Local Open Scope walk_scope.

(** [__read_unicode_string_property(buff_reader, addr, x64)] *)
Definition __read_unicode_string_property (addr : Z) (x64 : bool) : Walk str :=
  move addr ;;
  string_length <- read_int 2 ;;
  if string_length =? 0 then Done []
  else
    move (addr + OFFSETS x64 buffer) ;;
    buff_va <- read_int (POINTER_SIZE x64) ;;
    move buff_va ;;
    b <- read_bytes string_length ;;
    lift (decode_utf16 b).

(** The value assigned to [self.x64]:
    [(self.memory_segments_64 is not None) or (self.memory_segments and
    any(mem.start_virtual_address > 0xFFFFFFFF for mem in
    self.memory_segments))], the memory list iterating over its regions. *)
Definition infer_x64 (self : MinidumpFile) : flag_value :=
  match memory_segments_64 self with
  | Some _ => PyBool true
  | None =>
      match memory_segments self with
      | None => PyNone
      | Some ml =>
          if MinidumpMemoryList_bool ml
          then PyBool (existsb (fun mem => 0xFFFFFFFF <? start_virtual_address mem)
                         (MemoryList_memory_segments ml))
          else PyMemoryList ml
      end
  end.


(** [OFFSETS[v]] and [POINTER_SIZE[v]]: the tables have the entries
    [False] and [True]. *)
Definition table_index (v : flag_value) : outcome bool :=
  match v with
  | PyBool b => Return b
  | _ => Raise table_index_error
  end.

(** [self.threads.threads[0].Teb] *)
Definition first_teb (self : MinidumpFile) : outcome Z :=
  match threads self with
  | None => Raise AttributeError
  | Some tl =>
      match getitem (ThreadList_threads tl) 0 with
      | Return thread => Return (Teb thread)
      | Raise e => Raise e
      | OutOfFuel => OutOfFuel
      end
  end.

(** The [while] loop of the environment scan.  [fuel] bounds the number of
    iterations. *)
Fixpoint environment_loop (fuel : nat) (env_buffer : bytes) (environment_va : Z)
  : Walk unit :=
  let env_len := bytes_find env_buffer [x00; x00] in
  if negb (env_len =? 0) && negb (env_len =? -1) then
    match fuel with
    | O => Spin
    | S fuel' =>
        decoded_env <- lift (decode_utf16 (slice_to env_len env_buffer ++ [x00])) ;;
        name <- lift (getitem (str_split 61 decoded_env) 0) ;;
        value <- lift (getitem (str_split 61 decoded_env) 1) ;;
        self_assign (fun self =>
          set_environment_variables
            (option_map (fun l => l ++ [{| name := name; value := value |}])
               (environment_variables self)) self) ;;
        let environment_va := environment_va + (len decoded_env + 1) * 2 in
        move environment_va ;;
        env_buffer <- read_rest_of_segment ;;
        environment_loop fuel' env_buffer environment_va
    end
  else Done tt.

(** The environment scan: the last statements of [__parse_peb]. *)
Definition parse_environment (fuel : nat) (x64 : bool) (process_parameters : Z)
  : Walk unit :=
  self_assign (set_environment_variables (Some [])) ;;
  move (process_parameters + OFFSETS x64 environment_variables_key) ;;
  environment_va <- read_int (POINTER_SIZE x64) ;;
  move environment_va ;;
  env_buffer <- read_rest_of_segment ;;
  environment_loop fuel env_buffer environment_va.

(** The statements of [__parse_peb] from the first [move] on.  The index
    [offset_index] is the value of [self.x64]; once [OFFSETS[offset_index]]
    has been found, it is the [bool] [x64]. *)
Definition peb_walk (fuel : nat) (self : MinidumpFile) (offset_index : flag_value)
  : Walk unit :=
  teb <- lift (first_teb self) ;;
  x64 <- lift (table_index offset_index) ;;
  move (teb + OFFSETS x64 peb) ;;
  peb_address <- read_int (POINTER_SIZE x64) ;;
  self_assign (set_peb_address (Some peb_address)) ;;
  move (peb_address + OFFSETS x64 being_debugged_key) ;;
  being_debugged <- read_int 1 ;;
  self_assign (set_being_debugged (Some being_debugged)) ;;
  move (peb_address + OFFSETS x64 image_base_address_key) ;;
  image_base_address <- read_int (POINTER_SIZE x64) ;;
  self_assign (set_image_base_address (Some image_base_address)) ;;
  move (peb_address + OFFSETS x64 process_parameters) ;;
  process_parameters <- read_int (POINTER_SIZE x64) ;;
  image_path <-
    __read_unicode_string_property (process_parameters + OFFSETS x64 image_path_key) x64 ;;
  self_assign (set_image_path (Some image_path)) ;;
  command_line <-
    __read_unicode_string_property (process_parameters + OFFSETS x64 command_line_key) x64 ;;
  self_assign (set_command_line (Some command_line)) ;;
  window_title <-
    __read_unicode_string_property (process_parameters + OFFSETS x64 window_title_key) x64 ;;
  self_assign (set_window_title (Some window_title)) ;;
  dll_path <-
    __read_unicode_string_property (process_parameters + OFFSETS x64 dll_path_key) x64 ;;
  self_assign (set_dll_path (Some dll_path)) ;;
  current_directory <-
    __read_unicode_string_property
      (process_parameters + OFFSETS x64 current_directory_key) x64 ;;
  self_assign (set_current_directory (Some current_directory)) ;;
  move (process_parameters + OFFSETS x64 standard_input_key) ;;
  standard_input <- read_int (POINTER_SIZE x64) ;;
  self_assign (set_standard_input (Some standard_input)) ;;
  move (process_parameters + OFFSETS x64 standard_output_key) ;;
  standard_output <- read_int (POINTER_SIZE x64) ;;
  self_assign (set_standard_output (Some standard_output)) ;;
  move (process_parameters + OFFSETS x64 standard_error_key) ;;
  standard_error <- read_int (POINTER_SIZE x64) ;;
  self_assign (set_standard_error (Some standard_error)) ;;
  parse_environment fuel x64 process_parameters.

Local Close Scope walk_scope.

(** [__parse_peb]: the bitness flag, the reader, then the walk. *)
Definition __parse_peb (fuel : nat) : M MinidumpFile unit :=
  fun self =>
    let offset_index := infer_x64 self in
    let self := set_x64 (Some offset_index) self in
    match get_buffered_reader self with
    | Return buff_reader =>
        let '(o, st) :=
          run (peb_walk fuel self offset_index)
            {| walk_self := self; walk_reader := buff_reader; walk_calls := [] |} in
        (o, walk_self st)
    | Raise e => (Raise e, self)
    | OutOfFuel => (OutOfFuel, self)
    end.

(** *** The entry points *)

Definition _parse (fuel : nat) : M MinidumpFile unit :=
  __parse_header ;; __parse_directories ;; __parse_peb fuel.

(** [parse_buff(buffer)]: the model is returned when [_parse] returns; an
    exception of [_parse] reaches the caller instead. *)
Definition parse_buff (fuel : nat) (buffer : BytesIO) : outcome MinidumpFile :=
  let mf := set_file_handle (Some buffer) MinidumpFile__init__ in
  match _parse fuel mf with
  | (Return _, mf') => Return mf'
  | (Raise e, _) => Raise e
  | (OutOfFuel, _) => OutOfFuel
  end.

(** [parse_external(file_handle, filename)] on a [BytesIO] handle *)
Definition parse_external (fuel : nat) (handle : BytesIO) (file_name : str)
  : outcome MinidumpFile :=
  let mf := set_file_handle (Some handle)
              (set_filename (Some file_name) MinidumpFile__init__) in
  match _parse fuel mf with
  | (Return _, mf') => Return mf'
  | (Raise e, _) => Raise e
  | (OutOfFuel, _) => OutOfFuel
  end.

(** [parse_bytes(data)] = [parse_buff(io.BytesIO(data))] *)
Definition parse_bytes (fuel : nat) (data : bytes) : outcome MinidumpFile :=
  parse_buff fuel (mkBytesIO data 0).

(** *** [__str__] *)

(** [str(x)] of an attribute that may be [None]. *)
Definition str_or_None {A : Type} (render : A -> str) (x : option A) : str :=
  match x with
  | Some a => render a
  | None => str_of_string "None"
  end.

Definition newline : str := [10%N].

(** [for x in l: t += str(x) + '\n'] *)
Definition render_lines {A : Type} (render : A -> str) (l : list A) (t : str) : str :=
  fold_left (fun t x => t ++ render x ++ newline) l t.

Definition __str__ (self : MinidumpFile) : outcome str :=
  let t := str_of_string "== Minidump File ==" ++ newline in
  let t := t ++ str_or_None MinidumpHeader_str (header self) in
  let t := t ++ str_or_None MinidumpSystemInfo_str (sysinfo self) in
  let t := render_lines MINIDUMP_DIRECTORY_str (directories self) t in
  match modules self with
  | None => Raise AttributeError
  | Some ml =>
      let t := render_lines MinidumpModule_str (ModuleList_modules ml) t in
      let t :=
        match memory_segments self with
        | Some l => render_lines MinidumpMemorySegment_str (MemoryList_memory_segments l) t
        | None => t
        end in
      let t :=
        match memory_segments_64 self with
        | Some l =>
            render_lines MinidumpMemory64Segment_str (Memory64List_memory_segments l) t
        | None => t
        end in
      Return t
  end.

(** *** Vocabulary of the statements *)

(** A walk keeps a view [proj] of [self] when none of its assignments
    changes it. *)
Fixpoint keeps {A B : Type} (proj : MinidumpFile -> B) (w : Walk A) : Prop :=
  match w with
  | Done _ | Fail _ | Spin => True
  | Assign f k => (forall self, proj (f self) = proj self) /\ keeps proj k
  | Move _ k => keeps proj k
  | Read _ k => forall b, keeps proj (k b)
  | EndAddress k => forall e, keeps proj (k e)
  | CurrentPosition k => forall p, keeps proj (k p)
  end.

(** What holds of the result and of [self] when a walk from [self]
    returns, whatever the reader answers. *)
Fixpoint establishes {A : Type} (w : Walk A) (post : A -> MinidumpFile -> Prop)
  (self : MinidumpFile) : Prop :=
  match w with
  | Done a => post a self
  | Fail _ | Spin => True
  | Assign f k => establishes k post (f self)
  | Move _ k => establishes k post self
  | Read _ k => forall b, establishes (k b) post self
  | EndAddress k => forall e, establishes (k e) post self
  | CurrentPosition k => forall p, establishes (k p) post self
  end.

(** The reader serves the bytes [data] at the address [va]: in every state
    of [I], a [move] to an address of the block, then the read of the rest
    of the current segment, return the bytes of [data] from that address on
    and leave a state of [I]. *)
Definition serves (I : BufferedReader -> Prop) (va : Z) (data : bytes) : Prop :=
  forall (rd : BufferedReader) (k : nat),
    I rd -> (k < List.length data)%nat ->
    exists rd1 e rd2,
      BufferedReader_move (va + Z.of_nat k) rd = (Return tt, rd1) /\
      current_segment_end_address rd1 = Return e /\
      BufferedReader_read (e - current_position rd1) rd1
        = (Return (skipn k data), rd2) /\
      I rd2.

(** Every attribute that [__parse_peb] creates exists. *)
Definition peb_attributes_defined (self : MinidumpFile) : Prop :=
  x64 self <> None /\ peb_address self <> None /\ being_debugged self <> None /\
  image_base_address self <> None /\ image_path self <> None /\
  command_line self <> None /\ window_title self <> None /\
  dll_path self <> None /\ current_directory self <> None /\
  standard_input self <> None /\ standard_output self <> None /\
  standard_error self <> None /\ environment_variables self <> None.

(** A method keeps a view of [self] when the state it leaves behind has the
    same view, whatever its outcome. *)
Definition preserves {A B : Type} (proj : MinidumpFile -> B) (m : M MinidumpFile A)
  : Prop :=
  forall self, proj (snd (m self)) = proj self.

(** The attributes that [__init__] creates, the file handle apart. *)
Definition container_view (self : MinidumpFile) :=
  (filename self, header self, directories self,
   (threads_ex self, threads self, modules self, memory_segments self,
    memory_segments_64 self, sysinfo self),
   (comment_a self, comment_w self, exception self, handles self,
    unloaded_modules self, misc_info self, memory_info self, thread_info self)).

(** The attributes that hold the decoded streams. *)
Definition streams_view (self : MinidumpFile) :=
  (threads_ex self, threads self, modules self, memory_segments self,
   memory_segments_64 self, sysinfo self,
   (comment_a self, comment_w self, exception self, handles self,
    unloaded_modules self, misc_info self, memory_info self, thread_info self)).

(** What the walk of the PEB leaves alone: everything that is assigned
    before the first [move]. *)
Definition walk_frame (self : MinidumpFile) :=
  (file_handle self, container_view self, x64 self).

(** A decoded stream, tagged by the attribute that holds it. *)
Inductive stream_value : Type :=
| threads_value (v : MinidumpThreadList)
| modules_value (v : MinidumpModuleList)
| memory_segments_value (v : MinidumpMemoryList)
| sysinfo_value (v : MinidumpSystemInfo)
| threads_ex_value (v : MinidumpThreadExList)
| memory_segments_64_value (v : MinidumpMemory64List)
| comment_a_value (v : CommentStreamA)
| comment_w_value (v : CommentStreamW)
| exception_value (v : ExceptionList)
| handles_value (v : MinidumpHandleDataStream)
| unloaded_modules_value (v : MinidumpUnloadedModuleList)
| misc_info_value (v : MinidumpMiscInfo)
| memory_info_value (v : MinidumpMemoryInfoList)
| thread_info_value (v : MinidumpThreadInfoList).

Definition decoder_map {A B : Type} (g : A -> B) (d : decoder A) : decoder B :=
  fun f =>
    match d f with
    | (Return a, p) => (Return (g a), p)
    | (Raise e, p) => (Raise e, p)
    | (OutOfFuel, p) => (OutOfFuel, p)
    end.

(** The decoder that the dispatch calls for a directory entry, for the
    stream types that have one. *)
Definition stream_decoder (dir : MINIDUMP_DIRECTORY) : option (decoder stream_value) :=
  match StreamType dir with
  | MINIDUMP_STREAM_TYPE.ThreadListStream =>
      Some (decoder_map threads_value (MinidumpThreadList_parse dir))
  | MINIDUMP_STREAM_TYPE.ModuleListStream =>
      Some (decoder_map modules_value (MinidumpModuleList_parse dir))
  | MINIDUMP_STREAM_TYPE.MemoryListStream =>
      Some (decoder_map memory_segments_value (MinidumpMemoryList_parse dir))
  | MINIDUMP_STREAM_TYPE.SystemInfoStream =>
      Some (decoder_map sysinfo_value (MinidumpSystemInfo_parse dir))
  | MINIDUMP_STREAM_TYPE.ThreadExListStream =>
      Some (decoder_map threads_ex_value (MinidumpThreadExList_parse dir))
  | MINIDUMP_STREAM_TYPE.Memory64ListStream =>
      Some (decoder_map memory_segments_64_value (MinidumpMemory64List_parse dir))
  | MINIDUMP_STREAM_TYPE.CommentStreamA =>
      Some (decoder_map comment_a_value (CommentStreamA_parse dir))
  | MINIDUMP_STREAM_TYPE.CommentStreamW =>
      Some (decoder_map comment_w_value (CommentStreamW_parse dir))
  | MINIDUMP_STREAM_TYPE.ExceptionStream =>
      Some (decoder_map exception_value (ExceptionList_parse dir))
  | MINIDUMP_STREAM_TYPE.HandleDataStream =>
      Some (decoder_map handles_value (MinidumpHandleDataStream_parse dir))
  | MINIDUMP_STREAM_TYPE.UnloadedModuleListStream =>
      Some (decoder_map unloaded_modules_value (MinidumpUnloadedModuleList_parse dir))
  | MINIDUMP_STREAM_TYPE.MiscInfoStream =>
      Some (decoder_map misc_info_value (MinidumpMiscInfo_parse dir))
  | MINIDUMP_STREAM_TYPE.MemoryInfoListStream =>
      Some (decoder_map memory_info_value (MinidumpMemoryInfoList_parse dir))
  | MINIDUMP_STREAM_TYPE.ThreadInfoListStream =>
      Some (decoder_map thread_info_value (MinidumpThreadInfoList_parse dir))
  | _ => None
  end.

(** The model field of a stream type, for the stream types that have one. *)
Definition stream_field (t : MINIDUMP_STREAM_TYPE.t) (self : MinidumpFile)
  : option stream_value :=
  match t with
  | MINIDUMP_STREAM_TYPE.ThreadListStream => option_map threads_value (threads self)
  | MINIDUMP_STREAM_TYPE.ModuleListStream => option_map modules_value (modules self)
  | MINIDUMP_STREAM_TYPE.MemoryListStream =>
      option_map memory_segments_value (memory_segments self)
  | MINIDUMP_STREAM_TYPE.SystemInfoStream => option_map sysinfo_value (sysinfo self)
  | MINIDUMP_STREAM_TYPE.ThreadExListStream =>
      option_map threads_ex_value (threads_ex self)
  | MINIDUMP_STREAM_TYPE.Memory64ListStream =>
      option_map memory_segments_64_value (memory_segments_64 self)
  | MINIDUMP_STREAM_TYPE.CommentStreamA => option_map comment_a_value (comment_a self)
  | MINIDUMP_STREAM_TYPE.CommentStreamW => option_map comment_w_value (comment_w self)
  | MINIDUMP_STREAM_TYPE.ExceptionStream => option_map exception_value (exception self)
  | MINIDUMP_STREAM_TYPE.HandleDataStream => option_map handles_value (handles self)
  | MINIDUMP_STREAM_TYPE.UnloadedModuleListStream =>
      option_map unloaded_modules_value (unloaded_modules self)
  | MINIDUMP_STREAM_TYPE.MiscInfoStream => option_map misc_info_value (misc_info self)
  | MINIDUMP_STREAM_TYPE.MemoryInfoListStream =>
      option_map memory_info_value (memory_info self)
  | MINIDUMP_STREAM_TYPE.ThreadInfoListStream =>
      option_map thread_info_value (thread_info self)
  | _ => None
  end.

(** Two threads are the same descriptor: the context pass may have filled
    the context slot of the second. *)
Definition same_descriptor (a b : MINIDUMP_THREAD) : Prop :=
  Teb b = Teb a /\ ThreadContext b = ThreadContext a.

(** A field holds a decoded stream: it is the decoded object, in which
    nothing but the context slots of the threads has been written since. *)
Definition holds_decoded (field : option stream_value) (decoded : stream_value) : Prop :=
  match decoded, field with
  | threads_value a, Some (threads_value b) =>
      Forall2 same_descriptor (ThreadList_threads a) (ThreadList_threads b)
  | threads_value _, _ => False
  | _, _ => field = Some decoded
  end.

(** The file handle of a thread's context record: the cursor is at the RVA
    of the record. *)
Definition at_context_record (f : BytesIO) (thread : MINIDUMP_THREAD) : BytesIO :=
  mkBytesIO (getvalue f) (Rva (ThreadContext thread)).

(** A thread after a successful decode of its context by a decoder: its
    [ContextObject] is the context the decoder returned with the file handle
    at the record, in the shape of the architecture, and its TEB address and
    the location of its record are as before. *)
Definition decoded_with {C : Type} (parse : decoder C) (shape : C -> context_object)
  (f : BytesIO) (before after : MINIDUMP_THREAD) : Prop :=
  exists c p, parse (at_context_record f before) = (Return c, p) /\
              ContextObject after = Some (shape c) /\
              Teb after = Teb before /\
              ThreadContext after = ThreadContext before.

(** The entry that the directory decoder returns with the file handle at
    the [i]-th slot of the directory table, when it returns one. *)
Definition directory_entry_at (content : bytes) (h : MinidumpHeader) (i : Z)
  : list MINIDUMP_DIRECTORY :=
  match MINIDUMP_DIRECTORY_parse (mkBytesIO content (StreamDirectoryRva h + i * 12)) with
  | (Return (Some d), _) => [d]
  | _ => []
  end.

(** The entries of the directory table, in table order. *)
Definition recorded_entries (content : bytes) (h : MinidumpHeader)
  : list MINIDUMP_DIRECTORY :=
  flat_map (directory_entry_at content h) (range0 (NumberOfStreams h)).

(** The stream type of the entry has a decoder. *)
Definition has_decoder (dir : MINIDUMP_DIRECTORY) : bool :=
  match stream_decoder dir with
  | Some _ => true
  | None => false
  end.

(** The [{"name": ..., "value": ...}] entry of a key and a value. *)
Definition environment_entry (p : string * string) : EnvironmentVariable :=
  {| name := str_of_string (fst p); value := str_of_string (snd p) |}.

(** The header and the directory table of the model. *)
Definition table_view (self : MinidumpFile) :=
  (filename self, header self, directories self).

(** The state in which [parse_buff] calls [_parse]. *)
Definition fresh (buffer : BytesIO) : MinidumpFile :=
  set_file_handle (Some buffer) MinidumpFile__init__.

End Model.

Arguments Done {shapes A} a.
Arguments Fail {shapes A} e.
Arguments Spin {shapes A}.
Arguments Assign {shapes A} f k.
Arguments Move {shapes A} addr k.
Arguments Read {shapes A} size k.
Arguments EndAddress {shapes A} k.
Arguments CurrentPosition {shapes A} k.

(** * A reference package

    The collaborating modules, for the container layout of Microsoft's
    minidump format and for the address space and the reader of the design.
    It is the package at which the statements below are instantiated. *)

Module Reference.

Local Open Scope py_scope.

(** ** Little-endian fields *)

(** A read of exactly [n] bytes; the physical end of the byte source gives
    [TruncatedReadError]. *)
Definition read_exact (n : Z) : M BytesIO bytes :=
  fun f =>
    let '(b, f') := read n f in
    if len b =? n then (Return b, f') else (Raise TruncatedReadError, f').

Definition read_uint (n : Z) : M BytesIO Z :=
  b <- read_exact n ;; ret (int_from_bytes_little b).

Definition as_decoder {A : Type} (m : M BytesIO A) : decoder A :=
  fun f => let '(o, f') := m f in (o, tell f').

Fixpoint read_many {A : Type} (n : nat) (m : M BytesIO A) : M BytesIO (list A) :=
  match n with
  | O => ret []
  | S n' => x <- m ;; rest <- read_many n' m ;; ret (x :: rest)
  end.

(** ** The address space and its reader *)

(** A mapped region: its virtual addresses [region_start, region_end) and
    the file offset of its first byte. *)
Record region : Type := {
  region_start : Z;
  region_size : Z;
  region_file_offset : Z
}.

Definition region_end (r : region) : Z := region_start r + region_size r.

Record reader : Type := {
  reader_regions : list region;      (* ordered by start address *)
  reader_file : bytes;               (* the bytes of the dump *)
  current_segment : option region;
  current_position : Z
}.

Definition shapes : Shapes := {|
  CONTEXT := bytes;
  WOW64_CONTEXT := bytes;
  MinidumpModule := bytes;
  MinidumpThreadExList := bytes;
  CommentStreamA := bytes;
  CommentStreamW := bytes;
  ExceptionList := bytes;
  MinidumpHandleDataStream := bytes;
  MinidumpUnloadedModuleList := bytes;
  MinidumpMiscInfo := bytes;
  MinidumpMemoryInfoList := bytes;
  MinidumpThreadInfoList := bytes;
  BufferedReader := reader
|}.

#[local] Existing Instance shapes.

(** Modelled from the spec: the Address Space Builder (section 4.2), which
    is in [minidump/minidumpreader.py].  The regions of a 64-bit list get
    their file offsets by a running sum from the base offset of the list, in
    list order; the regions of a 32-bit list carry their own. *)
Fixpoint regions_of_memory64 (offset : Z) (l : list MinidumpMemory64Segment)
  : list region :=
  match l with
  | [] => []
  | s :: rest =>
      {| region_start := StartOfMemoryRange s;
         region_size := Memory64_DataSize s;
         region_file_offset := offset |}
      :: regions_of_memory64 (offset + Memory64_DataSize s) rest
  end.

Definition region_of_memory (s : MinidumpMemorySegment) : region :=
  {| region_start := start_virtual_address s;
     region_size := DataSize (Memory s);
     region_file_offset := Rva (Memory s) |}.

(** The index ordered by start address. *)
Fixpoint insert_region (r : region) (l : list region) : list region :=
  match l with
  | [] => [r]
  | r' :: rest =>
      if region_start r <=? region_start r' then r :: l
      else r' :: insert_region r rest
  end.

Definition sort_regions (l : list region) : list region :=
  fold_right insert_region [] l.

Fixpoint overlapping (l : list region) : bool :=
  match l with
  | r :: ((r' :: _) as rest) => (region_start r' <? region_end r) || overlapping rest
  | _ => false
  end.

(** Modelled from the spec: construction of the address space, which fails
    with [AddressSpaceError] when two regions overlap; a present 64-bit list
    takes precedence over the 32-bit list. *)
Definition build_address_space (self : MinidumpFile) : outcome (list region) :=
  let regions :=
    match memory_segments_64 self, memory_segments self with
    | Some l64, _ => regions_of_memory64 (BaseRva l64) (Memory64List_memory_segments l64)
    | None, Some l => map region_of_memory (MemoryList_memory_segments l)
    | None, None => []
    end in
  let index := sort_regions regions in
  if overlapping index then Raise AddressSpaceError else Return index.

(** Modelled from the spec: the lookup of section 4.2, the region that
    contains a virtual address. *)
Definition lookup (regions : list region) (addr : Z) : option region :=
  find (fun r => (region_start r <=? addr) && (addr <? region_end r)) regions.

(** Modelled from the spec: the Address-Space Reader (section 4.3) of
    [minidump/minidumpreader.py], a cursor over the address space built from
    the parsed file. *)
Definition get_buffered_reader (self : MinidumpFile) : outcome reader :=
  match build_address_space self, file_handle self with
  | Return regions, Some f =>
      Return {| reader_regions := regions; reader_file := getvalue f;
                current_segment := None; current_position := 0 |}
  | Return _, None => Raise AttributeError
  | Raise e, _ => Raise e
  | OutOfFuel, _ => OutOfFuel
  end.

(** Modelled from the spec: [seek(virtualAddress)] of the reader of
    [minidump/minidumpreader.py], which fails with [UnmappedAddressError]
    when no region contains the address. *)
Definition reader_move (addr : Z) : M reader unit :=
  fun rd =>
    match lookup (reader_regions rd) addr with
    | Some r =>
        (Return tt,
         {| reader_regions := reader_regions rd; reader_file := reader_file rd;
            current_segment := Some r; current_position := addr |})
    | None => (Raise UnmappedAddressError, rd)
    end.

(** Modelled from the spec: [read(n)] of the reader: up to [n] bytes from
    the current position, never past the end of the current region; bytes
    that the file does not have are a [TruncatedReadError]. *)
Definition reader_read (size : Z) : M reader bytes :=
  fun rd =>
    match current_segment rd with
    | None => (Raise UnmappedAddressError, rd)
    | Some r =>
        let n := Z.max 0 (Z.min size (region_end r - current_position rd)) in
        let offset := region_file_offset r + (current_position rd - region_start r) in
        let b := firstn (Z.to_nat n) (skipn (Z.to_nat offset) (reader_file rd)) in
        if len b =? n then
          (Return b,
           {| reader_regions := reader_regions rd; reader_file := reader_file rd;
              current_segment := Some r; current_position := current_position rd + n |})
        else (Raise TruncatedReadError, rd)
    end.

(** Modelled from the spec: the [currentRegionEnd] accessor of the
    reader. *)
Definition reader_end_address (rd : reader) : outcome Z :=
  match current_segment rd with
  | Some r => Return (region_end r)
  | None => Raise AttributeError
  end.

(** The bytes of a region from the address [va] to its end are [data]. *)
Definition region_holds (file : bytes) (r : region) (va : Z) (data : bytes) : Prop :=
  region_start r <= va /\ 0 <= region_file_offset r /\
  va + len data = region_end r /\
  firstn (List.length data)
    (skipn (Z.to_nat (region_file_offset r + (va - region_start r))) file) = data.

(** The reader after [move(addr)] into the region [r]. *)
Definition moved_to (rd : reader) (r : region) (addr : Z) : reader :=
  {| reader_regions := reader_regions rd; reader_file := reader_file rd;
     current_segment := Some r; current_position := addr |}.

(** ** The container layout *)

Definition MDMP : bytes := [x4d; x44; x4d; x50].

Fixpoint bytes_eqb (a b : bytes) : bool :=
  match a, b with
  | [], [] => true
  | x :: a', y :: b' => Byte.eqb x y && bytes_eqb a' b'
  | _, _ => false
  end.

(** Modelled from the spec: the header (section 4.1), in
    [minidump/header.py]: magic signature, version, stream count, directory
    offset, checksum, time stamp and flags; a wrong signature is a
    [ContainerFormatError]. *)
Definition MinidumpHeader_parse : decoder MinidumpHeader :=
  as_decoder (
    signature <- read_exact 4 ;;
    if bytes_eqb signature MDMP then
      _version <- read_uint 4 ;;
      number_of_streams <- read_uint 4 ;;
      stream_directory_rva <- read_uint 4 ;;
      _checksum <- read_uint 4 ;;
      _time_date_stamp <- read_uint 4 ;;
      _flags <- read_uint 8 ;;
      ret {| NumberOfStreams := number_of_streams;
             StreamDirectoryRva := stream_directory_rva |}
    else raise ContainerFormatError).

Definition stream_type_of_value (v : Z) : MINIDUMP_STREAM_TYPE.t :=
  match v with
  | 0 => MINIDUMP_STREAM_TYPE.UnusedStream
  | 1 => MINIDUMP_STREAM_TYPE.ReservedStream0
  | 2 => MINIDUMP_STREAM_TYPE.ReservedStream1
  | 3 => MINIDUMP_STREAM_TYPE.ThreadListStream
  | 4 => MINIDUMP_STREAM_TYPE.ModuleListStream
  | 5 => MINIDUMP_STREAM_TYPE.MemoryListStream
  | 6 => MINIDUMP_STREAM_TYPE.ExceptionStream
  | 7 => MINIDUMP_STREAM_TYPE.SystemInfoStream
  | 8 => MINIDUMP_STREAM_TYPE.ThreadExListStream
  | 9 => MINIDUMP_STREAM_TYPE.Memory64ListStream
  | 10 => MINIDUMP_STREAM_TYPE.CommentStreamA
  | 11 => MINIDUMP_STREAM_TYPE.CommentStreamW
  | 12 => MINIDUMP_STREAM_TYPE.HandleDataStream
  | 13 => MINIDUMP_STREAM_TYPE.FunctionTableStream
  | 14 => MINIDUMP_STREAM_TYPE.UnloadedModuleListStream
  | 15 => MINIDUMP_STREAM_TYPE.MiscInfoStream
  | 16 => MINIDUMP_STREAM_TYPE.MemoryInfoListStream
  | 17 => MINIDUMP_STREAM_TYPE.ThreadInfoListStream
  | 18 => MINIDUMP_STREAM_TYPE.HandleOperationListStream
  | 19 => MINIDUMP_STREAM_TYPE.TokenStream
  | 20 => MINIDUMP_STREAM_TYPE.JavaScriptDataStream
  | 21 => MINIDUMP_STREAM_TYPE.SystemMemoryInfoStream
  | 22 => MINIDUMP_STREAM_TYPE.ProcessVmCountersStream
  | 0xffff => MINIDUMP_STREAM_TYPE.LastReservedStream
  | _ => MINIDUMP_STREAM_TYPE.Other v
  end.

Definition read_location : M BytesIO MINIDUMP_LOCATION_DESCRIPTOR :=
  data_size <- read_uint 4 ;;
  rva <- read_uint 4 ;;
  ret {| DataSize := data_size; Rva := rva |}.

(** Modelled from the spec: a directory entry (section 4.1), in
    [minidump/directory.py]: a 4-byte stream-type tag and an 8-byte location
    descriptor; a tag above the last reserved one is a user-defined stream,
    for which no entry is made. *)
Definition MINIDUMP_DIRECTORY_parse : decoder (option MINIDUMP_DIRECTORY) :=
  as_decoder (
    tag <- read_uint 4 ;;
    if 0xffff <? tag then ret None
    else
      location <- read_location ;;
      ret (Some {| StreamType := stream_type_of_value tag; Location := location |})).

Definition MINIDUMP_DIRECTORY_get_stream_type_value : decoder Z :=
  as_decoder (read_uint 4).

(** Every stream decoder starts at the location of its directory entry. *)
Definition at_stream {A : Type} (dir : MINIDUMP_DIRECTORY) (m : M BytesIO A) : decoder A :=
  as_decoder (seek (Rva (Location dir)) ;; m).

(** Modelled from the spec: the thread list (section 6), in
    [minidump/streams/ThreadListStream.py]: a count and the thread records,
    each with its TEB pointer and the location of its context record; the
    slot of the decoded context starts empty. *)
Definition read_thread : M BytesIO MINIDUMP_THREAD :=
  _thread_id <- read_uint 4 ;;
  _suspend_count <- read_uint 4 ;;
  _priority_class <- read_uint 4 ;;
  _priority <- read_uint 4 ;;
  teb <- read_uint 8 ;;
  _stack_start <- read_uint 8 ;;
  _stack <- read_location ;;
  thread_context <- read_location ;;
  ret {| Teb := teb; ThreadContext := thread_context; ContextObject := None |}.

Definition MinidumpThreadList_parse (dir : MINIDUMP_DIRECTORY)
  : decoder MinidumpThreadList :=
  at_stream dir (
    n <- read_uint 4 ;;
    l <- read_many (Z.to_nat n) read_thread ;;
    ret {| ThreadList_threads := l |}).

(** Modelled from the spec: the 32-bit memory list (section 6), in
    [minidump/streams/MemoryListStream.py]. *)
Definition read_memory_descriptor : M BytesIO MinidumpMemorySegment :=
  start <- read_uint 8 ;;
  location <- read_location ;;
  ret {| start_virtual_address := start; Memory := location |}.

Definition MinidumpMemoryList_parse (dir : MINIDUMP_DIRECTORY)
  : decoder MinidumpMemoryList :=
  at_stream dir (
    n <- read_uint 4 ;;
    l <- read_many (Z.to_nat n) read_memory_descriptor ;;
    ret {| MemoryList_memory_segments := l |}).

(** Modelled from the spec: the 64-bit memory list (section 6), in
    [minidump/streams/Memory64ListStream.py]. *)
Definition read_memory_descriptor64 : M BytesIO MinidumpMemory64Segment :=
  start <- read_uint 8 ;;
  data_size <- read_uint 8 ;;
  ret {| StartOfMemoryRange := start; Memory64_DataSize := data_size |}.

Definition MinidumpMemory64List_parse (dir : MINIDUMP_DIRECTORY)
  : decoder MinidumpMemory64List :=
  at_stream dir (
    n <- read_uint 8 ;;
    base_rva <- read_uint 8 ;;
    l <- read_many (Z.to_nat n) read_memory_descriptor64 ;;
    ret {| BaseRva := base_rva; Memory64List_memory_segments := l |}).

(** Modelled from the spec: the system info record (section 6), in
    [minidump/streams/SystemInfoStream.py]; it starts with the
    processor-architecture tag. *)
Definition architecture_of_value (v : Z) : PROCESSOR_ARCHITECTURE.t :=
  match v with
  | 9 => PROCESSOR_ARCHITECTURE.AMD64
  | 0 => PROCESSOR_ARCHITECTURE.INTEL
  | _ => PROCESSOR_ARCHITECTURE.Other v
  end.

Definition MinidumpSystemInfo_parse (dir : MINIDUMP_DIRECTORY)
  : decoder MinidumpSystemInfo :=
  at_stream dir (
    tag <- read_uint 2 ;;
    ret {| ProcessorArchitecture := architecture_of_value tag |}).

(** Modelled from the spec: the module list, in
    [minidump/streams/ModuleListStream.py]: a count and fixed-size records,
    kept as their bytes. *)
Definition MinidumpModuleList_parse (dir : MINIDUMP_DIRECTORY)
  : decoder MinidumpModuleList :=
  at_stream dir (
    n <- read_uint 4 ;;
    l <- read_many (Z.to_nat n) (read_exact 108) ;;
    ret {| ModuleList_modules := l |}).

(** Modelled from the spec: the remaining stream decoders, which the module
    only stores: the bytes of the stream. *)
Definition raw_stream (dir : MINIDUMP_DIRECTORY) : decoder bytes :=
  at_stream dir (read_exact (DataSize (Location dir))).

(** Modelled from the spec: the register contexts (section 4.5), in
    [minidump/streams/ContextStream.py]: fixed-layout records, kept as their
    bytes. *)
Definition CONTEXT_parse : decoder bytes := as_decoder (read_exact 1232).
Definition WOW64_CONTEXT_parse : decoder bytes := as_decoder (read_exact 716).

(** Modelled from the spec: the bitness-indexed tables of
    [minidump/constants.py], with the field offsets of the TEB, the PEB, the
    process parameters and the string descriptor of 32-bit and 64-bit
    Windows. *)
Definition OFFSETS (x64 : bool) (k : offset_key) : Z :=
  if x64 then
    match k with
    | peb => 0x60 | being_debugged_key => 0x2 | image_base_address_key => 0x10
    | process_parameters => 0x20 | image_path_key => 0x60
    | command_line_key => 0x70 | window_title_key => 0xB0 | dll_path_key => 0x50
    | current_directory_key => 0x38 | standard_input_key => 0x20
    | standard_output_key => 0x28 | standard_error_key => 0x30
    | environment_variables_key => 0x80 | buffer => 0x8
    end
  else
    match k with
    | peb => 0x30 | being_debugged_key => 0x2 | image_base_address_key => 0x8
    | process_parameters => 0x10 | image_path_key => 0x38
    | command_line_key => 0x40 | window_title_key => 0x70 | dll_path_key => 0x30
    | current_directory_key => 0x24 | standard_input_key => 0x18
    | standard_output_key => 0x1C | standard_error_key => 0x20
    | environment_variables_key => 0x48 | buffer => 0x4
    end.

Definition POINTER_SIZE (x64 : bool) : Z := if x64 then 8 else 4.

(** Modelled from the spec: the renderers of the summary (section 6),
    whose text is not part of the contract: a module is rendered as its
    bytes, the other objects as the name of their class. *)
Definition render_bytes (b : bytes) : str := map Byte.to_N b.

(** A memory list is an ordinary object: it is truthy. *)
Definition MinidumpMemoryList_bool (ml : MinidumpMemoryList) : bool := true.

Definition package : Package :=
  Build_Package
    MinidumpHeader_parse MINIDUMP_DIRECTORY_parse
    MINIDUMP_DIRECTORY_get_stream_type_value
    MinidumpThreadList_parse MinidumpModuleList_parse MinidumpMemoryList_parse
    MinidumpSystemInfo_parse raw_stream MinidumpMemory64List_parse
    raw_stream raw_stream raw_stream raw_stream raw_stream raw_stream
    raw_stream raw_stream
    CONTEXT_parse WOW64_CONTEXT_parse
    MinidumpMemoryList_bool
    (fun ml (H : MinidumpMemoryList_bool ml = false) =>
       False_ind _ (Bool.diff_true_false H))
    get_buffered_reader reader_move reader_read reader_end_address current_position
    OFFSETS POINTER_SIZE KeyError
    (fun h => str_of_string "MinidumpHeader")
    (fun si => str_of_string "MinidumpSystemInfo")
    (fun d => str_of_string "MINIDUMP_DIRECTORY")
    render_bytes
    (fun s => str_of_string "MinidumpMemorySegment")
    (fun s => str_of_string "MinidumpMemorySegment").

#[local] Existing Instance package.

End Reference.

(** * Dump files used as concrete inputs *)

Module Dumps.

Import Reference.
#[local] Existing Instance Reference.shapes.
#[local] Existing Instance Reference.package.

(** [v.to_bytes(n, "little")] *)
Fixpoint le (n : nat) (v : Z) : bytes :=
  match n with
  | O => []
  | S n' =>
      match Byte.of_N (Z.to_N (v mod 256)) with
      | Some b => b
      | None => x00
      end :: le n' (v / 256)
  end.

Definition ascii_bytes (s : string) : bytes :=
  map byte_of_ascii (list_ascii_of_string s).
Arguments ascii_bytes s%_string.

(** [buf[at:at+len(data)] = data] *)
Definition patch (buf : bytes) (piece : Z * bytes) : bytes :=
  let '(at_, data) := piece in
  firstn (Z.to_nat at_) buf ++ data
    ++ skipn (Z.to_nat at_ + List.length data) buf.

(** A zero-filled buffer of [size] bytes with the [pieces] written into it. *)
Definition assemble (size : Z) (pieces : list (Z * bytes)) : bytes :=
  fold_left patch pieces (repeat x00 (Z.to_nat size)).

Definition header_bytes (number_of_streams stream_directory_rva : Z) : bytes :=
  MDMP ++ le 4 0xa793 ++ le 4 number_of_streams ++ le 4 stream_directory_rva
    ++ le 4 0 ++ le 4 0 ++ le 8 0.

Definition directory_bytes (tag data_size rva : Z) : bytes :=
  le 4 tag ++ le 4 data_size ++ le 4 rva.

Definition thread_bytes (thread_id teb context_size context_rva : Z) : bytes :=
  le 4 thread_id ++ le 4 0 ++ le 4 0 ++ le 4 0 ++ le 8 teb
    ++ le 8 0 ++ le 4 0 ++ le 4 0 ++ le 4 context_size ++ le 4 context_rva.

(** A length-prefixed string descriptor of a 32-bit process. *)
Definition unicode_string32 (length buffer_va : Z) : bytes :=
  le 2 length ++ le 2 length ++ le 4 buffer_va.

(** The captured memory of a 32-bit process, mapped at [0x1000]: the TEB, the
    PEB at [0x1040], the process parameters at [0x1060], the strings and the
    environment block at [0x1110]. *)
Definition process_memory (environment : bytes) : bytes :=
  assemble 0x140
    [ (0x30, le 4 0x1040);                      (* TEB: pointer to the PEB *)
      (0x42, [x01]);                            (* PEB: BeingDebugged *)
      (0x48, le 4 0x400000);                    (* PEB: ImageBaseAddress *)
      (0x50, le 4 0x1060);                      (* PEB: ProcessParameters *)
      (0x78, le 4 0x0c);                        (* StandardInput *)
      (0x7c, le 4 0x10);                        (* StandardOutput *)
      (0x80, le 4 0x14);                        (* StandardError *)
      (0x84, unicode_string32 6 0x1100);        (* CurrentDirectory *)
      (0x90, unicode_string32 0 0);             (* DllPath *)
      (0x98, unicode_string32 10 0x10e0);       (* ImagePathName *)
      (0xa0, unicode_string32 16 0x10f0);       (* CommandLine *)
      (0xa8, le 4 0x1110);                      (* Environment *)
      (0xd0, unicode_string32 0 0);             (* WindowTitle *)
      (0xe0, utf16le "a.exe");
      (0xf0, utf16le "a.exe -v");
      (0x100, utf16le "C:\");
      (0x110, environment) ].

(** A dump of a 32-bit process with the given thread records: thread list,
    32-bit memory list, system info (INTEL) and two ANSI comment streams,
    then the captured memory and, after it, one register context. *)
Definition dump_with (threads : list bytes) (environment : bytes) : bytes :=
  let n := len threads in
  let memory_list := 0x64 + 48 * n in
  let system_info := memory_list + 0x14 in
  let comments := system_info + 0x38 in
  let memory := comments + 8 in
  assemble (memory + 0x140 + 716)
    [ (0, header_bytes 5 0x20);
      (0x20, directory_bytes 3 (4 + 48 * n) 0x60);
      (0x2c, directory_bytes 5 0x14 memory_list);
      (0x38, directory_bytes 7 0x38 system_info);
      (0x44, directory_bytes 10 3 comments);
      (0x50, directory_bytes 10 3 (comments + 4));
      (0x60, le 4 n ++ List.concat threads);
      (memory_list, le 4 1 ++ le 8 0x1000 ++ le 4 0x140 ++ le 4 memory);
      (system_info, le 2 0);
      (comments, ascii_bytes "one");
      (comments + 4, ascii_bytes "two");
      (memory, process_memory environment) ].

(** One thread, with its TEB in the captured memory and its context
    record at the end of the file. *)
Definition dump32 : bytes :=
  dump_with [thread_bytes 1 0x1000 716 0x228] environment_block.

(** Two threads: the context record of the first lies past the end of the
    file, that of the second is in the file. *)
Definition dump_bad_context : bytes :=
  dump_with [thread_bytes 1 0x1000 716 0x10000; thread_bytes 2 0x1000 716 0x258]
    environment_block.

(** A thread whose TEB is not in the captured memory. *)
Definition dump_unmapped_teb : bytes :=
  dump_with [thread_bytes 1 0x7ffd0000 716 0x228] environment_block.

(** An environment block whose only entry has a second [=] in its value. *)
Definition dump_two_equals : bytes :=
  dump_with [thread_bytes 1 0x1000 716 0x228]
    (utf16le "A=b=c" ++ [x00; x00] ++ [x00; x00]).

(** [dump32] with a module list of no modules in the place of the second
    comment stream. *)
Definition dump_with_modules : bytes :=
  patch dump32 (0x50, directory_bytes 4 4 0xb0).

(** [dump32] with the thread list stream located past the end of the
    file. *)
Definition dump_truncated_stream : bytes :=
  patch dump32 (0x20, directory_bytes 3 52 0x10000).

(** [dump32] with an unused stream in the place of the system info. *)
Definition dump_without_sysinfo : bytes :=
  patch dump32 (0x38, directory_bytes 0 0 0).

(** [dump32] with the environment entry [PATH], which has no [=]. *)
Definition dump_no_equals : bytes :=
  dump_with [thread_bytes 1 0x1000 716 0x228]
    (utf16le "PATH" ++ [x00; x00] ++ [x00; x00]).

(** [dump32] with an image path of two ideographs, a character above the
    basic plane and a letter: five code units, as many as [a.exe]. *)
Definition unicode_path : str := [0x65E5; 0x672C; 0x1F600; 0x61]%N.

Definition dump_unicode_path : bytes :=
  patch dump32 (0xe8 + 0xe0, encode_utf16le unicode_path).

(** [dump32] with the environment entry [X=] followed by two ideographs. *)
Definition dump_unicode_environment : bytes :=
  dump_with [thread_bytes 1 0x1000 716 0x228]
    (encode_utf16le [0x58; 0x3D; 0x65E5; 0x672C]%N ++ [x00; x00] ++ [x00; x00]).

(** A dump with a header and an empty directory table. *)
Definition dump_no_streams : bytes := header_bytes 0 0x20.

(** The model of a dump after the header pass, and after the loop over the
    directory table. *)
Definition after_header (data : bytes) : MinidumpFile :=
  snd (__parse_header (fresh (mkBytesIO data 0))).

Definition after_directory_loop (data : bytes) : MinidumpFile :=
  let self := after_header data in snd (directory_loop (directories self) self).

(** The region of the captured memory of [dump32], and the reader over
    it. *)
Definition dump32_region : region :=
  {| region_start := 0x1000; region_size := 0x140; region_file_offset := 0xe8 |}.

Definition dump32_reader : reader :=
  {| reader_regions := [dump32_region]; reader_file := dump32;
     current_segment := None; current_position := 0 |}.

(** The reader over the captured memory of [dump_unicode_path]. *)
Definition unicode_reader : reader :=
  {| reader_regions := [dump32_region]; reader_file := dump_unicode_path;
     current_segment := None; current_position := 0 |}.

(** A walk over that reader that has made no call yet. *)
Definition dump32_walk (rd : reader) (calls : list reader_call) : walk_state :=
  @Build_walk_state shapes MinidumpFile__init__ rd calls.

(** The directory table of [dump32]: the entries before the second comment
    stream, and that entry. *)
Definition dump32_first_entries : list MINIDUMP_DIRECTORY :=
  [ {| StreamType := MINIDUMP_STREAM_TYPE.ThreadListStream;
       Location := {| DataSize := 52; Rva := 0x60 |} |};
    {| StreamType := MINIDUMP_STREAM_TYPE.MemoryListStream;
       Location := {| DataSize := 20; Rva := 0x94 |} |};
    {| StreamType := MINIDUMP_STREAM_TYPE.SystemInfoStream;
       Location := {| DataSize := 56; Rva := 0xa8 |} |};
    {| StreamType := MINIDUMP_STREAM_TYPE.CommentStreamA;
       Location := {| DataSize := 3; Rva := 0xe0 |} |} ].

Definition dump32_last_entry : MINIDUMP_DIRECTORY :=
  {| StreamType := MINIDUMP_STREAM_TYPE.CommentStreamA;
     Location := {| DataSize := 3; Rva := 0xe4 |} |}.

(** The two threads of [dump_bad_context] as the thread list decoder
    returns them. *)
Definition bad_thread : MINIDUMP_THREAD :=
  {| Teb := 0x1000; ThreadContext := {| DataSize := 716; Rva := 0x10000 |};
     ContextObject := None |}.

Definition good_thread : MINIDUMP_THREAD :=
  {| Teb := 0x1000; ThreadContext := {| DataSize := 716; Rva := 0x258 |};
     ContextObject := None |}.

(** The model that a parse returns. *)
Definition model_of (fuel : nat) (data : bytes) : MinidumpFile :=
  match parse_bytes fuel data with
  | Return self => self
  | _ => MinidumpFile__init__
  end.

End Dumps.


(** * Properties *)

Section Properties.

Context {shapes : Shapes} {package : Package}.

(** ** Frames: what a walk and a method leave alone *)

Lemma keeps_bind {A B C : Type} (proj : MinidumpFile -> C) (w : Walk A)
  (k : A -> Walk B) :
  keeps proj w -> (forall a, keeps proj (k a)) -> keeps proj (walk_bind w k).
Proof.
  intros Hw Hk. induction w; simpl in *; auto.
  - destruct Hw; split; auto.
Qed.

Lemma keeps_lift {A C : Type} (proj : MinidumpFile -> C) (o : outcome A) :
  keeps proj (lift o).
Proof. destruct o; exact I. Qed.

Lemma run_keeps {A C : Type} (proj : MinidumpFile -> C) (w : Walk A) :
  keeps proj w ->
  forall st, proj (walk_self (snd (run w st))) = proj (walk_self st).
Proof.
  induction w; simpl; intros Hk [self rd calls]; simpl; auto.
  - destruct Hk as [Hf Hk]. rewrite (IHw Hk). simpl. apply Hf.
  - destruct (BufferedReader_move addr rd) as [[u|e|] rd']; simpl; auto.
  - destruct (BufferedReader_read size rd) as [[b|e|] rd']; simpl; auto.
  - destruct (current_segment_end_address rd) as [e|e|]; simpl; auto.
Qed.

Lemma keeps_read_unicode_string {C : Type} (proj : MinidumpFile -> C) addr x64 :
  keeps proj (__read_unicode_string_property addr x64).
Proof.
  unfold __read_unicode_string_property. simpl. intros b.
  destruct (int_from_bytes_little b =? 0); simpl; auto.
  intros b1 b2. apply keeps_lift.
Qed.

(** The environment loop assigns [environment_variables] only. *)
Lemma keeps_environment_loop {C : Type} (proj : MinidumpFile -> C) :
  (forall v self, proj (set_environment_variables v self) = proj self) ->
  forall fuel env_buffer environment_va,
    keeps proj (environment_loop fuel env_buffer environment_va).
Proof.
  intros Hset. induction fuel as [|fuel IH]; intros env_buffer environment_va; simpl.
  - destruct (negb _ && negb _); exact I.
  - destruct (negb _ && negb _); [|exact I].
    apply keeps_bind; [apply keeps_lift|]. intros decoded_env.
    apply keeps_bind; [apply keeps_lift|]. intros name0.
    apply keeps_bind; [apply keeps_lift|]. intros value0.
    simpl. split; [intros self; apply Hset|].
    intros e p b. apply IH.
Qed.

Ltac keeps_step :=
  first [ exact I
        | apply keeps_lift
        | apply keeps_read_unicode_string
        | apply keeps_environment_loop; reflexivity
        | apply keeps_bind; [|intros ?]
        | split; [intros ?; reflexivity|]
        | progress (simpl; intros) ].

Lemma keeps_peb_walk fuel self offset_index :
  keeps walk_frame (peb_walk fuel self offset_index).
Proof. unfold peb_walk, parse_environment. repeat keeps_step. Qed.

(** [__parse_peb] assigns [x64] and then only the attributes of the walk. *)
Lemma parse_peb_frame fuel self :
  walk_frame (snd (__parse_peb fuel self)) =
  (file_handle self, container_view self, Some (infer_x64 self)).
Proof.
  unfold __parse_peb.
  destruct (get_buffered_reader _) as [rd|e|]; try reflexivity.
  match goal with
  | |- context [run ?w ?st] =>
      pose proof (run_keeps walk_frame w (keeps_peb_walk _ _ _) st) as H;
      destruct (run w st) as [o st']
  end.
  simpl in *. rewrite H. reflexivity.
Qed.

(** ** Methods: sequencing and frames *)

Lemma bind_returns {S A B : Type} (m : M S A) (k : A -> M S B) s b s' :
  bind m k s = (Return b, s') ->
  exists a s1, m s = (Return a, s1) /\ k a s1 = (Return b, s').
Proof.
  unfold bind. destruct (m s) as [[a|e|] s1]; intros H; try discriminate.
  exists a, s1. auto.
Qed.

Lemma bind_raises {S A B : Type} (m : M S A) (k : A -> M S B) s e s' :
  m s = (Raise e, s') -> bind m k s = (Raise e, s').
Proof. unfold bind. intros ->. reflexivity. Qed.

Lemma for_each_app {S A : Type} (l1 l2 : list A) (body : A -> M S unit) s :
  for_each (l1 ++ l2) body s =
  bind (for_each l1 body) (fun _ => for_each l2 body) s.
Proof.
  revert s. induction l1 as [|x l1 IH]; intros s; simpl.
  - reflexivity.
  - unfold bind. destruct (body x s) as [[u|e|] s1]; auto.
Qed.

Lemma preserves_ret {A B : Type} (proj : MinidumpFile -> B) (a : A) :
  preserves proj (ret a).
Proof. intros self. reflexivity. Qed.

Lemma preserves_bind {A B C : Type} (proj : MinidumpFile -> C)
  (m : M MinidumpFile A) (k : A -> M MinidumpFile B) :
  preserves proj m -> (forall a, preserves proj (k a)) -> preserves proj (bind m k).
Proof.
  intros Hm Hk self. unfold bind. specialize (Hm self).
  destruct (m self) as [[a|e|] s1]; simpl in *; auto.
  rewrite Hk. exact Hm.
Qed.

Lemma preserves_for_each {A C : Type} (proj : MinidumpFile -> C) (l : list A)
  (body : A -> M MinidumpFile unit) :
  (forall x, In x l -> preserves proj (body x)) -> preserves proj (for_each l body).
Proof.
  induction l as [|x l IH]; intros Hbody; simpl.
  - apply preserves_ret.
  - apply preserves_bind.
    + apply Hbody. left. reflexivity.
    + intros _. apply IH. intros y Hy. apply Hbody. right. exact Hy.
Qed.

Lemma preserves_on_file_handle {A C : Type} (proj : MinidumpFile -> C)
  (op : M BytesIO A) :
  (forall v self, proj (set_file_handle v self) = proj self) ->
  preserves proj (on_file_handle op).
Proof.
  intros Hset self. unfold on_file_handle.
  destruct (file_handle self) as [f|]; [|reflexivity].
  destruct (op f) as [o f']. simpl. apply Hset.
Qed.

Lemma preserves_assign {C : Type} (proj : MinidumpFile -> C)
  (f : MinidumpFile -> MinidumpFile) :
  (forall self, proj (f self) = proj self) -> preserves proj (assign f).
Proof. intros Hf self. simpl. apply Hf. Qed.

Lemma preserves_decode_into {A C : Type} (proj : MinidumpFile -> C)
  (parse : decoder A) (set : option A -> MinidumpFile -> MinidumpFile) :
  (forall v self, proj (set_file_handle v self) = proj self) ->
  (forall v self, proj (set v self) = proj self) ->
  preserves proj (decode_into parse set).
Proof.
  intros Hfile Hset. unfold decode_into. apply preserves_bind.
  - apply preserves_on_file_handle. exact Hfile.
  - intros v. apply preserves_assign. intros self. apply Hset.
Qed.

Lemma preserves_try_except {C : Type} (proj : MinidumpFile -> C)
  (m : M MinidumpFile unit) :
  preserves proj m -> preserves proj (try_except m).
Proof.
  intros Hm self. unfold try_except. specialize (Hm self).
  destruct (m self) as [[u|e|] s1]; exact Hm.
Qed.

(** [try: ... except Exception] never lets an exception out. *)
Lemma try_except_never_raises {S : Type} (m : M S unit) s e s' :
  try_except m s <> (Raise e, s').
Proof.
  unfold try_except. destruct (m s) as [[u|e'|] s1]; discriminate.
Qed.

(** ** The header pass *)

(** [__parse_header] assigns [header] and [directories] and uses the file
    handle; the stream attributes are as [__init__] left them. *)
Lemma parse_header_frame : preserves streams_view __parse_header.
Proof.
  unfold __parse_header.
  apply preserves_bind; [apply preserves_on_file_handle; reflexivity|]. intros h.
  apply preserves_bind; [apply preserves_assign; reflexivity|]. intros _.
  apply preserves_for_each. intros i _. unfold parse_header_entry.
  apply preserves_bind; [apply preserves_on_file_handle; reflexivity|]. intros _.
  apply preserves_bind; [apply preserves_on_file_handle; reflexivity|].
  intros [d|].
  - apply preserves_assign. reflexivity.
  - apply preserves_bind; [apply preserves_on_file_handle; reflexivity|]. intros _.
    apply preserves_bind; [apply preserves_on_file_handle; reflexivity|]. intros _.
    apply preserves_ret.
Qed.

(** ** The directory pass *)

Lemma stream_field_file_handle t v self :
  stream_field t (set_file_handle v self) = stream_field t self.
Proof. destruct t; reflexivity. Qed.

(** An entry of another stream type leaves the field of [t] alone. *)
Lemma dispatch_frame (dir : MINIDUMP_DIRECTORY) (t : MINIDUMP_STREAM_TYPE.t) :
  StreamType dir <> t -> preserves (stream_field t) (dispatch_directory dir).
Proof.
  intros Hne. unfold dispatch_directory.
  destruct (StreamType dir); try apply preserves_ret;
    (apply preserves_decode_into;
     [ intros v self; apply stream_field_file_handle
     | intros v self; destruct t; try reflexivity; congruence ]).
Qed.

Lemma directory_loop_frame (dirs : list MINIDUMP_DIRECTORY) (t : MINIDUMP_STREAM_TYPE.t) :
  (forall d, In d dirs -> StreamType d <> t) ->
  preserves (stream_field t) (directory_loop dirs).
Proof.
  intros Hne. apply preserves_for_each. intros d Hd. apply dispatch_frame. auto.
Qed.

(** An entry of a stream type with a decoder: when the dispatch returns, the
    decoder has returned a value on the file handle as it was, and the field
    of the stream type holds that value. *)
Lemma dispatch_stores (dir : MINIDUMP_DIRECTORY) (dec : decoder stream_value) self self' :
  stream_decoder dir = Some dec ->
  dispatch_directory dir self = (Return tt, self') ->
  exists f v p,
    file_handle self = Some f /\ dec f = (Return v, p) /\
    stream_field (StreamType dir) self' = Some v.
Proof.
  unfold stream_decoder, dispatch_directory, decode_into, bind, on_file_handle,
    call_decoder, assign, decoder_map.
  destruct (StreamType dir); try discriminate;
    intros Hdec; injection Hdec as <-;
    (destruct (file_handle self) as [f|]; [|discriminate]);
    match goal with
    | |- context [?parse dir f] => destruct (parse dir f) as [[v|e|] p] eqn:E
    end; try discriminate;
    intros Hrun; injection Hrun as <-; eexists _, _, _;
    (split; [reflexivity|]); (split; [rewrite E; reflexivity | reflexivity]).
Qed.

Lemma directory_loop_split pre dir post self self' :
  directory_loop (pre ++ dir :: post) self = (Return tt, self') ->
  exists self1 self2,
    directory_loop pre self = (Return tt, self1) /\
    dispatch_directory dir self1 = (Return tt, self2) /\
    directory_loop post self2 = (Return tt, self').
Proof.
  unfold directory_loop. rewrite for_each_app. intros H.
  apply bind_returns in H. destruct H as [[] [self1 [Hpre H]]].
  simpl in H. apply bind_returns in H. destruct H as [[] [self2 [Hdir Hpost]]].
  exists self1, self2. auto.
Qed.

(** ** The context pass *)

Lemma decode_thread_context_descriptor si thread f thread' f' :
  decode_thread_context si thread f = (Return thread', f') ->
  same_descriptor thread thread'.
Proof.
  unfold decode_thread_context, bind, call_decoder, ret, seek.
  destruct (_ <? 0); [discriminate|].
  destruct (ProcessorArchitecture si).
  - destruct (CONTEXT_parse _) as [[c|e|] p]; intros H; try discriminate.
    injection H as <- _. split; reflexivity.
  - destruct (WOW64_CONTEXT_parse _) as [[c|e|] p]; intros H; try discriminate.
    injection H as <- _. split; reflexivity.
  - intros H. injection H as <- _. split; reflexivity.
Qed.

Lemma same_descriptor_refl thread : same_descriptor thread thread.
Proof. split; reflexivity. Qed.

Lemma Forall2_same_descriptor_refl l : Forall2 same_descriptor l l.
Proof. induction l; constructor; auto using same_descriptor_refl. Qed.

(** The loop leaves the threads in place: it writes context slots only. *)
Lemma thread_context_loop_descriptors si todo :
  forall f o done f',
    thread_context_loop si todo f = (o, done, f') ->
    Forall2 same_descriptor todo done.
Proof.
  induction todo as [|thread rest IH]; simpl; intros f o done f' H.
  - injection H as _ <- _. constructor.
  - destruct (decode_thread_context si thread f) as [[thread'|e|] f1] eqn:Hd.
    + destruct (thread_context_loop si rest f1) as [[o1 rest'] f2] eqn:Hl.
      injection H as _ <- _. constructor.
      * eapply decode_thread_context_descriptor. exact Hd.
      * eapply IH. exact Hl.
    + injection H as _ <- _. apply Forall2_same_descriptor_refl.
    + injection H as _ <- _. apply Forall2_same_descriptor_refl.
Qed.

(** The context pass writes [threads] (and moves the file handle). *)
Lemma parse_thread_context_frame (t : MINIDUMP_STREAM_TYPE.t) :
  t <> MINIDUMP_STREAM_TYPE.ThreadListStream ->
  preserves (stream_field t) __parse_thread_context.
Proof.
  intros Hne self. unfold __parse_thread_context.
  destruct (sysinfo self) as [si|]; [|reflexivity].
  destruct (threads self) as [tl|]; [|reflexivity].
  destruct (ThreadList_threads tl) as [|thread rest]; [reflexivity|].
  destruct (file_handle self) as [f|]; [|reflexivity].
  destruct (thread_context_loop _ _ _) as [[o done] f'].
  destruct t; try reflexivity. congruence.
Qed.

Lemma parse_thread_context_threads self :
  match threads self, threads (snd (__parse_thread_context self)) with
  | Some tl, Some tl' =>
      Forall2 same_descriptor (ThreadList_threads tl) (ThreadList_threads tl')
  | None, None => True
  | _, _ => False
  end.
Proof.
  unfold __parse_thread_context.
  destruct (threads self) as [tl|] eqn:Ht.
  - destruct (sysinfo self) as [si|];
      [|cbn [snd]; rewrite Ht; apply Forall2_same_descriptor_refl].
    destruct (ThreadList_threads tl) as [|thread rest] eqn:Hl.
    + cbn [snd]. rewrite Ht, Hl. constructor.
    + destruct (file_handle self) as [f|].
      * destruct (thread_context_loop si (thread :: rest) f)
          as [[o done] f'] eqn:Hloop.
        simpl. eapply thread_context_loop_descriptors. exact Hloop.
      * cbn [snd]. rewrite Ht, Hl. apply Forall2_same_descriptor_refl.
  - destruct (sysinfo self); cbn [snd]; rewrite Ht; exact I.
Qed.

(** The body of the loop, for a context record at a non-negative RVA: the
    decoder chosen by the architecture tag runs on the file handle with its
    cursor at the RVA. *)
Lemma decode_thread_context_at si thread f :
  0 <= Rva (ThreadContext thread) ->
  decode_thread_context si thread f =
  match ProcessorArchitecture si with
  | PROCESSOR_ARCHITECTURE.AMD64 =>
      match CONTEXT_parse (at_context_record f thread) with
      | (Return c, p) =>
          (Return (set_ContextObject (Some (Context64 c)) thread),
           mkBytesIO (getvalue f) p)
      | (Raise e, p) => (Raise e, mkBytesIO (getvalue f) p)
      | (OutOfFuel, p) => (OutOfFuel, mkBytesIO (getvalue f) p)
      end
  | PROCESSOR_ARCHITECTURE.INTEL =>
      match WOW64_CONTEXT_parse (at_context_record f thread) with
      | (Return c, p) =>
          (Return (set_ContextObject (Some (ContextWow64 c)) thread),
           mkBytesIO (getvalue f) p)
      | (Raise e, p) => (Raise e, mkBytesIO (getvalue f) p)
      | (OutOfFuel, p) => (OutOfFuel, mkBytesIO (getvalue f) p)
      end
  | PROCESSOR_ARCHITECTURE.Other _ => (Return thread, at_context_record f thread)
  end.
Proof.
  intros Hrva. unfold decode_thread_context, bind, call_decoder, ret, seek,
    at_context_record.
  destruct (Z.ltb_spec (Rva (ThreadContext thread)) 0) as [Hneg|_]; [lia|].
  simpl. destruct (ProcessorArchitecture si); try reflexivity.
  - destruct (CONTEXT_parse _) as [[c|e|] p]; reflexivity.
  - destruct (WOW64_CONTEXT_parse _) as [[c|e|] p]; reflexivity.
Qed.

Lemma decode_thread_context_getvalue si thread f o f' :
  decode_thread_context si thread f = (o, f') -> getvalue f' = getvalue f.
Proof.
  unfold decode_thread_context, bind, call_decoder, ret, seek.
  destruct (_ <? 0); [intros H; injection H as _ <-; reflexivity|].
  destruct (ProcessorArchitecture si).
  - destruct (CONTEXT_parse _) as [[c|e|] p]; intros H; injection H as _ <-;
      reflexivity.
  - destruct (WOW64_CONTEXT_parse _) as [[c|e|] p]; intros H; injection H as _ <-;
      reflexivity.
  - intros H; injection H as _ <-; reflexivity.
Qed.

Lemma at_context_record_getvalue f f' thread :
  getvalue f' = getvalue f -> at_context_record f' thread = at_context_record f thread.
Proof. unfold at_context_record. intros ->. reflexivity. Qed.

(** The loop over threads whose contexts all decode: every thread gets its
    context, decoded at its own record. *)
Lemma thread_context_loop_all {C : Type} (parse : decoder C)
  (shape : C -> context_object) si :
  (forall thread f,
     0 <= Rva (ThreadContext thread) ->
     forall c p, parse (at_context_record f thread) = (Return c, p) ->
     decode_thread_context si thread f =
     (Return (set_ContextObject (Some (shape c)) thread), mkBytesIO (getvalue f) p)) ->
  forall todo f0 f,
    getvalue f = getvalue f0 ->
    (forall t, In t todo -> 0 <= Rva (ThreadContext t)) ->
    (forall t, In t todo ->
       exists c p, parse (at_context_record f0 t) = (Return c, p)) ->
    exists done f',
      thread_context_loop si todo f = (Return tt, done, f') /\
      Forall2 (decoded_with parse shape f0) todo done.
Proof.
  intros Hstep. induction todo as [|thread rest IH]; intros f0 f Hf Hrva Hdec.
  - exists [], f. split; [reflexivity | constructor].
  - destruct (Hdec thread (or_introl eq_refl)) as [c [p Hc]].
    pose proof Hc as Hc'.
    rewrite <- (at_context_record_getvalue f0 f thread Hf) in Hc'.
    pose proof (Hstep thread f (Hrva thread (or_introl eq_refl)) c p Hc') as Hd.
    destruct (IH f0 (mkBytesIO (getvalue f) p)) as [done [f' [Hloop Hall]]].
    + exact Hf.
    + intros t Ht. apply Hrva. right. exact Ht.
    + intros t Ht. apply Hdec. right. exact Ht.
    + exists (set_ContextObject (Some (shape c)) thread :: done), f'.
      simpl. rewrite Hd, Hloop. split; [reflexivity|].
      constructor; [|exact Hall]. exists c, p. repeat split; auto.
Qed.

Lemma thread_context_loop_other si v :
  ProcessorArchitecture si = PROCESSOR_ARCHITECTURE.Other v ->
  forall todo f,
    (forall t, In t todo -> 0 <= Rva (ThreadContext t)) ->
    exists f', thread_context_loop si todo f = (Return tt, todo, f').
Proof.
  intros Harch. induction todo as [|thread rest IH]; intros f Hrva.
  - exists f. reflexivity.
  - simpl. rewrite decode_thread_context_at by (apply Hrva; left; reflexivity).
    rewrite Harch.
    destruct (IH (at_context_record f thread)) as [f' Hloop].
    + intros t Ht. apply Hrva. right. exact Ht.
    + exists f'. rewrite Hloop. reflexivity.
Qed.

(** The context pass on a model with system info, threads and a file
    handle. *)
Lemma parse_thread_context_loop self si tl f :
  sysinfo self = Some si -> threads self = Some tl -> file_handle self = Some f ->
  forall o done f',
    thread_context_loop si (ThreadList_threads tl) f = (o, done, f') ->
    exists self',
      __parse_thread_context self = (o, self') /\
      threads self' = Some {| ThreadList_threads := done |}.
Proof.
  intros Hsi Htl Hf o done f' Hloop. unfold __parse_thread_context.
  rewrite Hsi, Htl, Hf.
  destruct tl as [l]. cbn [ThreadList_threads] in *.
  destruct l as [|thread rest].
  - simpl in Hloop. injection Hloop as <- <- _.
    exists self. rewrite Htl. auto.
  - rewrite Hloop. eexists. split; reflexivity.
Qed.

(** C4. On a model with system info and threads whose context records are
    at non-negative RVAs: under the AMD64 tag, when the 64-bit decoder
    returns at every record, the pass returns and the [ContextObject] of
    every thread is the 64-bit context decoded with the file handle at its
    RVA, its TEB address and the location of its record being unchanged;
    under the INTEL tag the same holds with the 32-bit (WOW64) decoder and
    shape; under any other tag the pass returns without an error and leaves
    the threads as they were. *)
Theorem context_dispatch (self : MinidumpFile) (si : MinidumpSystemInfo)
  (tl : MinidumpThreadList) (f : BytesIO) :
  sysinfo self = Some si ->
  threads self = Some tl ->
  file_handle self = Some f ->
  (forall t, In t (ThreadList_threads tl) -> 0 <= Rva (ThreadContext t)) ->
  match ProcessorArchitecture si with
  | PROCESSOR_ARCHITECTURE.AMD64 =>
      (forall t, In t (ThreadList_threads tl) ->
         exists c p, CONTEXT_parse (at_context_record f t) = (Return c, p)) ->
      exists self' tl',
        __parse_thread_context self = (Return tt, self') /\
        threads self' = Some tl' /\
        Forall2 (decoded_with CONTEXT_parse Context64 f)
          (ThreadList_threads tl) (ThreadList_threads tl')
  | PROCESSOR_ARCHITECTURE.INTEL =>
      (forall t, In t (ThreadList_threads tl) ->
         exists c p, WOW64_CONTEXT_parse (at_context_record f t) = (Return c, p)) ->
      exists self' tl',
        __parse_thread_context self = (Return tt, self') /\
        threads self' = Some tl' /\
        Forall2 (decoded_with WOW64_CONTEXT_parse ContextWow64 f)
          (ThreadList_threads tl) (ThreadList_threads tl')
  | PROCESSOR_ARCHITECTURE.Other _ =>
      exists self',
        __parse_thread_context self = (Return tt, self') /\
        threads self' = Some tl
  end.
Proof.
  intros Hsi Htl Hf Hrva.
  destruct (ProcessorArchitecture si) eqn:Harch.
  - intros Hdec.
    destruct (thread_context_loop_all CONTEXT_parse Context64 si) with
      (todo := ThreadList_threads tl) (f0 := f) (f := f)
      as [done [f' [Hloop Hall]]]; auto.
    { intros thread f1 Hr c p Hc. rewrite decode_thread_context_at by exact Hr.
      rewrite Harch, Hc. reflexivity. }
    destruct (parse_thread_context_loop self si tl f Hsi Htl Hf _ _ _ Hloop) as [self' [Hrun Hth]].
    exists self', {| ThreadList_threads := done |}. auto.
  - intros Hdec.
    destruct (thread_context_loop_all WOW64_CONTEXT_parse ContextWow64 si) with
      (todo := ThreadList_threads tl) (f0 := f) (f := f)
      as [done [f' [Hloop Hall]]]; auto.
    { intros thread f1 Hr c p Hc. rewrite decode_thread_context_at by exact Hr.
      rewrite Harch, Hc. reflexivity. }
    destruct (parse_thread_context_loop self si tl f Hsi Htl Hf _ _ _ Hloop) as [self' [Hrun Hth]].
    exists self', {| ThreadList_threads := done |}. auto.
  - destruct (thread_context_loop_other si _ Harch (ThreadList_threads tl) f Hrva)
      as [f' Hloop].
    destruct (parse_thread_context_loop self si tl f Hsi Htl Hf _ _ _ Hloop) as [self' [Hrun Hth]].
    exists self'. split; [exact Hrun|]. rewrite Hth. destruct tl. reflexivity.
Qed.



(** C9. Take the last entry of its stream type in the directory table, of
    a type that has a decoder.  When [__parse_directories] returns, the
    loop had reached that entry, its decoder had returned a value on the
    file handle as it then was, the model field held that value when the
    loop ended, and it holds it when [__parse_directories] returns: earlier
    entries of the type are overwritten, and nothing is written to the field
    afterwards but the context slots of the threads. *)
Theorem duplicate_streams_last_wins
  (self self' : MinidumpFile) (pre post : list MINIDUMP_DIRECTORY)
  (dir : MINIDUMP_DIRECTORY) (dec : decoder stream_value) :
  directories self = pre ++ dir :: post ->
  stream_decoder dir = Some dec ->
  (forall d, In d post -> StreamType d <> StreamType dir) ->
  __parse_directories self = (Return tt, self') ->
  exists self1 f v p self2,
    directory_loop pre self = (Return tt, self1) /\
    file_handle self1 = Some f /\
    dec f = (Return v, p) /\
    directory_loop (directories self) self = (Return tt, self2) /\
    stream_field (StreamType dir) self2 = Some v /\
    holds_decoded (stream_field (StreamType dir) self') v.
Proof.
  intros Hdirs Hdec Hlast Hrun. unfold __parse_directories in Hrun.
  apply bind_returns in Hrun. destruct Hrun as [[] [self2 [Hloop Hctx]]].
  pose proof Hloop as Hloop'. rewrite Hdirs in Hloop'.
  apply directory_loop_split in Hloop'.
  destruct Hloop' as [self1 [self1' [Hpre [Hdir Hpost]]]].
  destruct (dispatch_stores dir dec self1 self1' Hdec Hdir)
    as [f [v [p [Hf [Hv Hfield]]]]].
  assert (Hfield2 : stream_field (StreamType dir) self2 = Some v).
  { pose proof (directory_loop_frame post (StreamType dir) Hlast self1') as Hfr.
    rewrite Hpost in Hfr. simpl in Hfr. congruence. }
  exists self1, f, v, p, self2. repeat split; auto.
  assert (Hself' : self' = snd (__parse_thread_context self2)).
  { unfold try_except in Hctx.
    destruct (__parse_thread_context self2) as [[u|e|] s3]; simpl;
      congruence. }
  subst self'. clear - Hfield2.
  destruct (StreamType dir); try (simpl in Hfield2; discriminate);
    try (match goal with
         | |- holds_decoded (stream_field ?t _) _ =>
             rewrite (parse_thread_context_frame t ltac:(discriminate) self2)
         end;
         rewrite Hfield2; unfold holds_decoded; destruct v; try reflexivity;
         simpl in Hfield2;
         match type of Hfield2 with
         | option_map _ ?x = _ => destruct x; discriminate
         end).
  simpl in Hfield2 |- *.
  pose proof (parse_thread_context_threads self2) as Hth.
  destruct (threads self2) as [tl|]; [|discriminate].
  injection Hfield2 as <-.
  destruct (threads (snd (__parse_thread_context self2))) as [tl'|];
    [exact Hth | contradiction].
Qed.

(** ** The whole parse *)

Lemma dispatch_keeps_directories dir : preserves directories (dispatch_directory dir).
Proof.
  unfold dispatch_directory.
  destruct (StreamType dir); try apply preserves_ret;
    apply preserves_decode_into; reflexivity.
Qed.

Lemma parse_directories_keeps_directories : preserves directories __parse_directories.
Proof.
  unfold __parse_directories. apply preserves_bind.
  - intros self. unfold directory_loop.
    apply (preserves_for_each directories (directories self) dispatch_directory).
    intros d _. apply dispatch_keeps_directories.
  - intros _. apply preserves_try_except. intros self.
    unfold __parse_thread_context.
    destruct (sysinfo self); [|reflexivity].
    destruct (threads self) as [tl|]; [|reflexivity].
    destruct (ThreadList_threads tl); [reflexivity|].
    destruct (file_handle self); [|reflexivity].
    destruct (thread_context_loop _ _ _) as [[o done] f']. reflexivity.
Qed.

Lemma stream_field_modules self self' :
  stream_field MINIDUMP_STREAM_TYPE.ModuleListStream self' =
  stream_field MINIDUMP_STREAM_TYPE.ModuleListStream self ->
  modules self' = modules self.
Proof.
  simpl. destruct (modules self'), (modules self); simpl; congruence.
Qed.

Lemma stream_field_threads self self' :
  stream_field MINIDUMP_STREAM_TYPE.ThreadListStream self' =
  stream_field MINIDUMP_STREAM_TYPE.ThreadListStream self ->
  threads self' = threads self.
Proof.
  simpl. destruct (threads self'), (threads self); simpl; congruence.
Qed.

(** The three passes of a parse that returns, one after the other. *)
Lemma parse_buff_returns fuel buffer self :
  parse_buff fuel buffer = Return self ->
  exists self1 self2,
    __parse_header (fresh buffer) = (Return tt, self1) /\
    __parse_directories self1 = (Return tt, self2) /\
    __parse_peb fuel self2 = (Return tt, self).
Proof.
  unfold parse_buff, _parse. fold (fresh buffer).
  destruct (bind _ _ (fresh buffer)) as [[[]|e|] s] eqn:Hrun; try discriminate.
  intros H. injection H as <-.
  apply bind_returns in Hrun. destruct Hrun as [[] [self1 [Hh Hrun]]].
  apply bind_returns in Hrun. destruct Hrun as [[] [self2 [Hd Hp]]].
  exists self1, self2. auto.
Qed.

(** Without a [ModuleListStream] entry, [modules] is still [None] after the
    directory pass. *)
Lemma modules_without_entry buffer self1 self2 :
  __parse_header (fresh buffer) = (Return tt, self1) ->
  __parse_directories self1 = (Return tt, self2) ->
  (forall d, In d (directories self1) ->
             StreamType d <> MINIDUMP_STREAM_TYPE.ModuleListStream) ->
  modules self2 = None.
Proof.
  intros Hh Hd Hnone.
  pose proof (f_equal (fun v => snd (fst (fst (fst (fst v)))))
                (parse_header_frame (fresh buffer))) as H1.
  rewrite Hh in H1. simpl in H1.
  unfold __parse_directories in Hd.
  apply bind_returns in Hd. destruct Hd as [[] [s [Hloop Hctx]]].
  pose proof (directory_loop_frame _ _ Hnone self1) as H2.
  rewrite Hloop in H2. apply stream_field_modules in H2.
  pose proof (preserves_try_except _ _
                (parse_thread_context_frame
                   MINIDUMP_STREAM_TYPE.ModuleListStream ltac:(discriminate)) s) as H3.
  rewrite Hctx in H3. apply stream_field_modules in H3.
  simpl in H2, H3. congruence.
Qed.

(** Without a [ThreadListStream] entry, [threads] is still [None] after the
    directory pass. *)
Lemma threads_without_entry buffer self1 self2 :
  __parse_header (fresh buffer) = (Return tt, self1) ->
  __parse_directories self1 = (Return tt, self2) ->
  (forall d, In d (directories self1) ->
             StreamType d <> MINIDUMP_STREAM_TYPE.ThreadListStream) ->
  threads self2 = None.
Proof.
  intros Hh Hd Hnone.
  pose proof (f_equal (fun v => snd (fst (fst (fst (fst (fst v))))))
                (parse_header_frame (fresh buffer))) as H1.
  rewrite Hh in H1. simpl in H1.
  unfold __parse_directories in Hd.
  apply bind_returns in Hd. destruct Hd as [[] [s [Hloop Hctx]]].
  pose proof (directory_loop_frame _ _ Hnone self1) as H2.
  rewrite Hloop in H2. apply stream_field_threads in H2. simpl in H2.
  assert (Hs : threads s = None) by congruence.
  pose proof (parse_thread_context_threads s) as H3. rewrite Hs in H3.
  unfold try_except in Hctx.
  destruct (__parse_thread_context s) as [[[]|e|] s3]; simpl in H3;
    try discriminate; injection Hctx as <-; destruct (threads s3); tauto.
Qed.

(** The walk of a model without a thread list stops at
    [self.threads.threads[0]]. *)
Lemma parse_peb_without_threads fuel self :
  threads self = None -> forall self', __parse_peb fuel self <> (Return tt, self').
Proof.
  intros Hth self'. unfold __parse_peb.
  destruct (get_buffered_reader _) as [rd|e|]; try discriminate.
  unfold peb_walk, first_teb. simpl. rewrite Hth. simpl. discriminate.
Qed.

(** A dump without a thread list gives the caller no model. *)
Lemma parse_without_thread_list fuel buffer self1 :
  __parse_header (fresh buffer) = (Return tt, self1) ->
  (forall d, In d (directories self1) ->
             StreamType d <> MINIDUMP_STREAM_TYPE.ThreadListStream) ->
  forall self, parse_buff fuel buffer <> Return self.
Proof.
  intros Hh Hnone self Hrun.
  apply parse_buff_returns in Hrun.
  destruct Hrun as [s1 [s2 [Hh' [Hd Hp]]]].
  rewrite Hh in Hh'. injection Hh' as <-.
  pose proof (threads_without_entry buffer self1 s2 Hh Hd Hnone) as Hth.
  exact (parse_peb_without_threads fuel s2 Hth self Hp).
Qed.

(** C2 (what the code does). An exception raised by [__parse_peb] is not
    caught: after a header pass and a directory pass that returned,
    [parse_buff] raises it and the caller receives no model. *)
Theorem peb_failure_reaches_the_caller
  (fuel : nat) (buffer : BytesIO) (self1 self2 self3 : MinidumpFile) (e : exn) :
  __parse_header (fresh buffer) = (Return tt, self1) ->
  __parse_directories self1 = (Return tt, self2) ->
  __parse_peb fuel self2 = (Raise e, self3) ->
  parse_buff fuel buffer = Raise e.
Proof.
  intros Hh Hd Hp. unfold parse_buff, _parse, bind. fold (fresh buffer).
  rewrite Hh, Hd, Hp. reflexivity.
Qed.

(** ** The renderer *)

Lemma str_without_modules self :
  modules self = None -> __str__ self = Raise AttributeError.
Proof. unfold __str__. intros ->. reflexivity. Qed.

Lemma str_with_modules self ml :
  modules self = Some ml -> exists t, __str__ self = Return t.
Proof. unfold __str__. intros ->. eexists. reflexivity. Qed.

(** C10. For a file that was parsed successfully: when its directory table
    has no [ModuleListStream] entry, [modules] is [None] and [__str__]
    raises; when [modules] is set, [__str__] returns a summary, whether the
    memory-segment lists are present or [None]. *)
Theorem str_needs_the_module_list (fuel : nat) (buffer : BytesIO) (self : MinidumpFile) :
  parse_buff fuel buffer = Return self ->
  ((forall d, In d (directories self) ->
              StreamType d <> MINIDUMP_STREAM_TYPE.ModuleListStream) ->
   modules self = None /\ __str__ self = Raise AttributeError) /\
  (forall ml, modules self = Some ml -> exists t, __str__ self = Return t).
Proof.
  intros Hrun. split; [|apply str_with_modules].
  intros Hnone.
  apply parse_buff_returns in Hrun. destruct Hrun as [self1 [self2 [Hh [Hd Hp]]]].
  pose proof (parse_peb_frame fuel self2) as Hframe. rewrite Hp in Hframe.
  unfold walk_frame, container_view in Hframe. simpl in Hframe.
  assert (Hdirs : directories self = directories self2) by congruence.
  assert (Hmods : modules self = modules self2) by congruence.
  pose proof (parse_directories_keeps_directories self1) as Hdirs1.
  rewrite Hd in Hdirs1. simpl in Hdirs1.
  assert (Hm2 : modules self2 = None).
  { apply (modules_without_entry buffer self1 self2 Hh Hd).
    intros d Hin. apply Hnone. congruence. }
  assert (Hm : modules self = None) by congruence.
  split; [exact Hm | apply str_without_modules; exact Hm].
Qed.

(** ** Bitness inference *)



(** ** Steps of a walk *)

Lemma run_assign {A : Type} f (k : Walk A) self rd calls :
  run (Assign f k) {| walk_self := self; walk_reader := rd; walk_calls := calls |} =
  run k {| walk_self := f self; walk_reader := rd; walk_calls := calls |}.
Proof. reflexivity. Qed.

Lemma run_move {A : Type} addr (k : Walk A) self rd rd' calls :
  BufferedReader_move addr rd = (Return tt, rd') ->
  run (Move addr k) {| walk_self := self; walk_reader := rd; walk_calls := calls |} =
  run k {| walk_self := self; walk_reader := rd';
           walk_calls := calls ++ [call_move addr] |}.
Proof. intros H. simpl. rewrite H. reflexivity. Qed.

Lemma run_read {A : Type} size (k : bytes -> Walk A) self rd rd' b calls :
  BufferedReader_read size rd = (Return b, rd') ->
  run (Read size k) {| walk_self := self; walk_reader := rd; walk_calls := calls |} =
  run (k b) {| walk_self := self; walk_reader := rd';
               walk_calls := calls ++ [call_read size] |}.
Proof. intros H. simpl. rewrite H. reflexivity. Qed.

(** One turn of the environment loop on a buffer whose first double NUL is
    at [env_len], neither [0] nor [-1]. *)
Lemma environment_loop_entry fuel env_buffer environment_va env_len decoded_env n v :
  bytes_find env_buffer [x00; x00] = env_len ->
  env_len <> 0 -> env_len <> -1 ->
  decode_utf16 (slice_to env_len env_buffer ++ [x00]) = Return decoded_env ->
  getitem (str_split 61 decoded_env) 0 = Return n ->
  getitem (str_split 61 decoded_env) 1 = Return v ->
  environment_loop (S fuel) env_buffer environment_va =
  Assign (fun self =>
            set_environment_variables
              (option_map (fun l => l ++ [{| name := n; value := v |}])
                 (environment_variables self)) self)
    (Move (environment_va + (len decoded_env + 1) * 2)
       (EndAddress (fun end_address =>
        CurrentPosition (fun position =>
        Read (end_address - position) (fun b =>
          environment_loop fuel b
            (environment_va + (len decoded_env + 1) * 2)))))).
Proof.
  intros Hfind H0 H1 Hdec Hn Hv.
  cbn [environment_loop]. rewrite Hfind.
  destruct (Z.eqb_spec env_len 0) as [?|_]; [contradiction|].
  destruct (Z.eqb_spec env_len (-1)) as [?|_]; [contradiction|].
  cbn [negb andb]. rewrite Hdec. cbn [lift walk_bind]. rewrite Hn, Hv.
  reflexivity.
Qed.

(** The loop ends on a buffer that starts with a double NUL. *)
Lemma environment_loop_end fuel env_buffer environment_va :
  bytes_find env_buffer [x00; x00] = 0 ->
  environment_loop fuel env_buffer environment_va = Done tt.
Proof. intros H. destruct fuel; cbn [environment_loop]; rewrite H; reflexivity. Qed.

(** A [move] into a served block and the read of the rest of the
    segment. *)
Lemma run_served {A : Type} (I : BufferedReader -> Prop) va data
  (k : bytes -> Walk A) self rd calls (n : nat) addr :
  serves I va data -> I rd -> (n < List.length data)%nat ->
  addr = va + Z.of_nat n ->
  exists rd' size,
    I rd' /\
    run (Move addr (EndAddress (fun end_address =>
                    CurrentPosition (fun position =>
                    Read (end_address - position) k))))
      {| walk_self := self; walk_reader := rd; walk_calls := calls |} =
    run (k (skipn n data))
      {| walk_self := self; walk_reader := rd';
         walk_calls := calls ++ [call_move addr; call_end_address;
                                 call_current_position; call_read size] |}.
Proof.
  intros Hserves HI Hn ->.
  destruct (Hserves rd n HI Hn) as (rd1 & e & rd2 & Hm & He & Hr & HI2).
  exists rd2, (e - current_position rd1). split; [exact HI2|].
  simpl. rewrite Hm. simpl. rewrite He. simpl. rewrite Hr.
  unfold logged. simpl. repeat rewrite <- app_assoc. reflexivity.
Qed.

(** The scan of the scenario from the [move] to the environment pointer on,
    over any reader that serves the block. *)
Lemma environment_scan_of_served_block
  (I : BufferedReader -> Prop) (fuel : nat) (environment_va : Z)
  (self : MinidumpFile) (rd : BufferedReader) (calls : list reader_call)
  (tail : bytes) :
  (2 <= fuel)%nat ->
  I rd ->
  serves I environment_va (environment_block ++ tail) ->
  exists st',
    run (Move environment_va
           (EndAddress (fun end_address =>
            CurrentPosition (fun position =>
            Read (end_address - position) (fun b =>
              environment_loop fuel b environment_va)))))
      {| walk_self := self; walk_reader := rd; walk_calls := calls |}
    = (Return tt, st') /\
    environment_variables (walk_self st') =
      option_map
        (fun l =>
           (l ++ [ {| name := str_of_string "A"; value := str_of_string "1" |} ])
             ++ [ {| name := str_of_string "B"; value := str_of_string "22" |} ])
        (environment_variables self) /\
    exists size0 size1 size2,
      walk_calls st' =
        calls ++
        [ call_move environment_va; call_end_address; call_current_position;
          call_read size0;
          call_move (environment_va + 8); call_end_address; call_current_position;
          call_read size1;
          call_move (environment_va + 8 + 10); call_end_address;
          call_current_position; call_read size2 ].
Proof.
  intros Hfuel HI Hserves.
  destruct fuel as [|[|fuel]]; try lia. clear Hfuel.
  assert (Hlen : (20 <= List.length (environment_block ++ tail))%nat).
  { rewrite length_app. simpl. lia. }
  (* the block *)
  destruct (run_served I environment_va (environment_block ++ tail)
              (fun b => environment_loop (S (S fuel)) b environment_va)
              self rd calls 0%nat environment_va Hserves HI ltac:(lia) ltac:(lia))
    as (rd3 & size0 & HI3 & ->).
  cbn [skipn].
  (* first entry *)
  rewrite (environment_loop_entry (S fuel)
             (environment_block ++ tail) environment_va
             5 (str_of_string "A=1") (str_of_string "A") (str_of_string "1"))
    by (vm_compute; congruence).
  change (environment_va + (len (str_of_string "A=1") + 1) * 2)
    with (environment_va + 8).
  rewrite run_assign.
  match goal with
  | |- context [run _ {| walk_self := ?s; walk_reader := _; walk_calls := ?c |}] =>
      destruct (run_served I environment_va (environment_block ++ tail)
                  (fun b => environment_loop (S fuel) b (environment_va + 8))
                  s rd3 c 8%nat (environment_va + 8)
                  Hserves HI3 ltac:(lia) ltac:(lia))
        as (rd4 & size1 & HI4 & ->)
  end.
  change (skipn 8 (environment_block ++ tail))
    with (utf16le "B=22" ++ [x00; x00] ++ [x00; x00] ++ tail).
  (* second entry *)
  rewrite (environment_loop_entry fuel
             (utf16le "B=22" ++ [x00; x00] ++ [x00; x00] ++ tail)
             (environment_va + 8)
             7 (str_of_string "B=22") (str_of_string "B") (str_of_string "22"))
    by (vm_compute; congruence).
  change (environment_va + 8 + (len (str_of_string "B=22") + 1) * 2)
    with (environment_va + 8 + 10).
  rewrite run_assign.
  match goal with
  | |- context [run _ {| walk_self := ?s; walk_reader := _; walk_calls := ?c |}] =>
      destruct (run_served I environment_va (environment_block ++ tail)
                  (fun b => environment_loop fuel b (environment_va + 8 + 10))
                  s rd4 c 18%nat (environment_va + 8 + 10)
                  Hserves HI4 ltac:(lia) ltac:(lia))
        as (rd5 & size2 & HI5 & ->)
  end.
  change (skipn 18 (environment_block ++ tail)) with ([x00; x00] ++ tail).
  (* the end of the block *)
  rewrite environment_loop_end by reflexivity.
  eexists. split; [reflexivity|]. split.
  - simpl. destruct (environment_variables self); reflexivity.
  - exists size0, size1, size2.
    cbn [walk_calls]. repeat rewrite <- app_assoc. reflexivity.
Qed.

(** C7. The environment scan over a reader that serves, at the environment
    pointer, the UTF-16 bytes of [A=1] and [B=22], each NUL-terminated, and
    the NUL that ends the block (whatever follows in the region): with fuel
    for two turns of the loop it returns, the environment list is [A=1] then
    [B=22], and after the entries the reader is moved to the end of the
    block, read once more, and left alone. *)
Theorem environment_block_scenario
  (I : BufferedReader -> Prop)
  (fuel : nat) (x64 : bool) (process_parameters environment_va : Z)
  (self : MinidumpFile) (rd rd1 rd2 : BufferedReader) (calls : list reader_call)
  (pointer tail : bytes) :
  (2 <= fuel)%nat ->
  BufferedReader_move (process_parameters + OFFSETS x64 environment_variables_key) rd
    = (Return tt, rd1) ->
  BufferedReader_read (POINTER_SIZE x64) rd1 = (Return pointer, rd2) ->
  int_from_bytes_little pointer = environment_va ->
  I rd2 ->
  serves I environment_va (environment_block ++ tail) ->
  exists st',
    run (parse_environment fuel x64 process_parameters)
      {| walk_self := self; walk_reader := rd; walk_calls := calls |}
    = (Return tt, st') /\
    environment_variables (walk_self st') =
      Some [ {| name := str_of_string "A"; value := str_of_string "1" |};
             {| name := str_of_string "B"; value := str_of_string "22" |} ] /\
    exists size0 size1 size2,
      walk_calls st' =
        calls ++
        [ call_move (process_parameters + OFFSETS x64 environment_variables_key);
          call_read (POINTER_SIZE x64);
          call_move environment_va; call_end_address; call_current_position;
          call_read size0;
          call_move (environment_va + 8); call_end_address; call_current_position;
          call_read size1;
          call_move (environment_va + 8 + 10); call_end_address;
          call_current_position; call_read size2 ].
Proof.
  intros Hfuel Hmove Hread Hva HI Hserves.
  unfold parse_environment.
  cbn [walk_bind self_assign move read_int read_rest_of_segment].
  rewrite run_assign, (run_move _ _ _ _ _ _ Hmove), (run_read _ _ _ _ _ _ _ Hread).
  rewrite Hva.
  destruct (environment_scan_of_served_block I fuel environment_va
              (set_environment_variables (Some []) self) rd2
              ((calls ++ [call_move (process_parameters
                                     + OFFSETS x64 environment_variables_key)])
               ++ [call_read (POINTER_SIZE x64)])
              tail Hfuel HI Hserves)
    as (st' & Hrun & Henv & size0 & size1 & size2 & Hcalls).
  exists st'. split; [exact Hrun|]. split; [exact Henv|].
  exists size0, size1, size2. rewrite Hcalls.
  repeat rewrite <- app_assoc. reflexivity.
Qed.

(** ** What a walk that returns has assigned *)

Lemma establishes_bind {A B : Type} (w : Walk A) (k : A -> Walk B) post self :
  establishes w (fun a s => establishes (k a) post s) self ->
  establishes (walk_bind w k) post self.
Proof.
  revert self. induction w; intros self Hw; simpl in *; auto.
Qed.

Lemma run_establishes {A : Type} (w : Walk A) post :
  forall st a st',
    establishes w post (walk_self st) ->
    run w st = (Return a, st') ->
    post a (walk_self st').
Proof.
  induction w; intros [self rd calls] a0 st' Hw Hrun; simpl in *;
    try discriminate.
  - injection Hrun as <- <-. exact Hw.
  - eapply IHw; [|exact Hrun]. exact Hw.
  - destruct (BufferedReader_move addr rd) as [[u|e|] rd']; try discriminate.
    eapply IHw; [|exact Hrun]. exact Hw.
  - destruct (BufferedReader_read size rd) as [[b|e|] rd']; try discriminate.
    eapply H; [|exact Hrun]. apply Hw.
  - destruct (current_segment_end_address rd) as [e|e|]; try discriminate.
    eapply H; [|exact Hrun]. apply Hw.
  - eapply H; [|exact Hrun]. apply Hw.
Qed.

Lemma establishes_environment_loop (P : MinidumpFile -> Prop) :
  (forall entry self,
     P self ->
     P (set_environment_variables
          (option_map (fun l => l ++ [entry]) (environment_variables self)) self)) ->
  forall fuel env_buffer environment_va self,
    P self ->
    establishes (environment_loop fuel env_buffer environment_va)
      (fun _ s => P s) self.
Proof.
  intros Hstep. induction fuel as [|fuel IH]; intros env_buffer environment_va self HP;
    cbn [environment_loop]; destruct (negb _ && negb _); simpl; auto.
  destruct (decode_utf16 _) as [decoded_env|e|]; simpl; auto.
  destruct (getitem (str_split 61 decoded_env) 0) as [n|e|]; simpl; auto.
  destruct (getitem (str_split 61 decoded_env) 1) as [v|e|]; simpl; auto.
Qed.

Lemma establishes_read_unicode_string addr x64 post self :
  (forall s, post s self) ->
  establishes (__read_unicode_string_property addr x64) post self.
Proof.
  intros Hpost. unfold __read_unicode_string_property. simpl. intros b.
  destruct (int_from_bytes_little b =? 0); simpl; auto.
  intros b1 b2. destruct (decode_utf16 b2); simpl; auto.
Qed.

(** When the walk returns, it has assigned every attribute of the PEB. *)
Lemma peb_walk_defines_attributes fuel self0 offset_index self :
  x64 self <> None ->
  establishes (peb_walk fuel self0 offset_index)
    (fun _ s => peb_attributes_defined s) self.
Proof.
  intros Hx64. unfold peb_walk, parse_environment.
  repeat first
    [ apply establishes_environment_loop
    | apply establishes_read_unicode_string; intros ?
    | apply establishes_bind
    | match goal with
      | |- establishes (lift ?o) _ _ => destruct o; simpl; auto
      end
    | progress (simpl; intros) ].
  - match goal with
    | H : peb_attributes_defined ?s |- _ =>
        unfold peb_attributes_defined in *; simpl;
        destruct H as (? & ? & ? & ? & ? & ? & ? & ? & ? & ? & ? & ? & He);
        repeat split; try assumption;
        destruct (environment_variables s); [discriminate | contradiction]
    end.
  - unfold peb_attributes_defined. simpl. repeat split; try discriminate.
    exact Hx64.
Qed.

(** X16. A parse that returns has created every attribute of the model:
    the thirteen attributes of the PEB pass, which [__init__] does not
    create, have all been assigned in a model that [parse_buff] returns. *)
Theorem parse_defines_peb_attributes fuel buffer self :
  parse_buff fuel buffer = Return self -> peb_attributes_defined self.
Proof.
  intros Hrun. apply parse_buff_returns in Hrun.
  destruct Hrun as [self1 [self2 [_ [_ Hp]]]].
  unfold __parse_peb in Hp.
  destruct (get_buffered_reader _) as [rd|e|]; try discriminate.
  match type of Hp with
  | context [run ?w ?st] => destruct (run w st) as [o st'] eqn:Hwalk
  end.
  injection Hp as -> <-.
  eapply (run_establishes _ (fun _ s => peb_attributes_defined s));
    [|exact Hwalk].
  apply peb_walk_defines_attributes. simpl. discriminate.
Qed.

(** ** Length-prefixed strings *)

(** C5. When the two bytes at the field address read as length zero, the
    string decoder returns the empty string, and the calls it has made on
    the reader are the [move] to the field address and the [read] of the two
    bytes: there is no [move] to the buffer pointer and no further [read]. *)
Theorem empty_string_reads_nothing_more
  (addr : Z) (x64 : bool) (st : walk_state) (rd1 rd2 : BufferedReader) (b : bytes) :
  BufferedReader_move addr (walk_reader st) = (Return tt, rd1) ->
  BufferedReader_read 2 rd1 = (Return b, rd2) ->
  int_from_bytes_little b = 0 ->
  run (__read_unicode_string_property addr x64) st =
  (Return [],
   {| walk_self := walk_self st; walk_reader := rd2;
      walk_calls := walk_calls st ++ [call_move addr; call_read 2] |}).
Proof.
  intros Hmove Hread Hzero. destruct st as [self rd calls]. simpl in *.
  rewrite Hmove. simpl. rewrite Hread. simpl. rewrite Hzero. simpl.
  unfold logged. simpl. rewrite <- app_assoc. reflexivity.
Qed.

End Properties.

(** * Properties of the reference reader *)

Section ReferenceReader.

Import Reference.
#[local] Existing Instance Reference.shapes.
#[local] Existing Instance Reference.package.

Lemma run_bind {A B : Type} (w : Walk A) (k : A -> Walk B) st :
  run (walk_bind w k) st = bind (run w) (fun a => run (k a)) st.
Proof.
  revert st. induction w; intros [self rd calls]; simpl; try reflexivity.
  - apply IHw.
  - unfold bind. simpl.
    destruct (reader_move addr rd) as [[u|e|] rd']; try reflexivity.
    rewrite IHw. reflexivity.
  - unfold bind. simpl.
    destruct (reader_read size rd) as [[b|e|] rd']; try reflexivity.
    rewrite H. reflexivity.
  - unfold bind. simpl.
    destruct (reader_end_address rd) as [e|e|]; try reflexivity.
    rewrite H. reflexivity.
  - rewrite H. reflexivity.
Qed.

Lemma region_holds_skip file r va d1 d2 :
  region_holds file r va (d1 ++ d2) ->
  region_holds file r (va + len d1) d2.
Proof.
  unfold region_holds, len. intros [Hs [Ho [He Hd]]].
  rewrite length_app in *. rewrite Nat2Z.inj_add in He.
  repeat split; try lia.
  replace (Z.to_nat (region_file_offset r + (va + Z.of_nat (List.length d1) - region_start r)))
    with (List.length d1 + Z.to_nat (region_file_offset r + (va - region_start r)))%nat
    by lia.
  rewrite <- skipn_skipn.
  apply (f_equal (skipn (List.length d1))) in Hd.
  rewrite skipn_firstn_comm in Hd.
  rewrite skipn_app, skipn_all, Nat.sub_diag in Hd. simpl in Hd.
  replace (List.length d1 + List.length d2 - List.length d1)%nat
    with (List.length d2) in Hd by lia.
  exact Hd.
Qed.

Lemma reader_move_same addr rd o rd' :
  reader_move addr rd = (o, rd') ->
  reader_regions rd' = reader_regions rd /\ reader_file rd' = reader_file rd.
Proof.
  unfold reader_move. destruct (lookup _ _); intros H; injection H as _ <-; auto.
Qed.

Lemma reader_read_same size rd o rd' :
  reader_read size rd = (o, rd') ->
  reader_regions rd' = reader_regions rd /\ reader_file rd' = reader_file rd.
Proof.
  unfold reader_read.
  destruct (current_segment rd); [|intros H; injection H as _ <-; auto].
  destruct (_ =? _); intros H; injection H as _ <-; auto.
Qed.

(** The reader of the design serves the bytes of a region: the contract
    of the scan holds for every region that the address space gives for its
    own addresses. *)
Lemma reference_reader_serves regions file r va data :
  (forall a, va <= a < region_end r -> lookup regions a = Some r) ->
  region_holds file r va data ->
  serves (fun rd => reader_regions rd = regions /\ reader_file rd = file) va data.
Proof.
  intros Hlookup Hholds rd k [Hregions Hfile] Hk. subst regions file.
  assert (Hsplit : data = firstn k data ++ skipn k data)
    by (symmetry; apply firstn_skipn).
  rewrite Hsplit in Hholds.
  apply region_holds_skip in Hholds.
  assert (Hlenk : len (firstn k data) = Z.of_nat k).
  { unfold len. rewrite length_firstn. lia. }
  rewrite Hlenk in Hholds.
  destruct Hholds as [Hs [Ho [He Hd]]].
  assert (Hpos : 0 < len (skipn k data)).
  { unfold len. rewrite length_skipn. lia. }
  exists (moved_to rd r (va + Z.of_nat k)), (region_end r),
         (moved_to rd r (region_end r)).
  simpl. unfold reader_move, reader_read, reader_end_address. simpl.
  rewrite (Hlookup (va + Z.of_nat k)) by lia.
  split; [reflexivity|].
  split; [reflexivity|].
  split; [|auto].
  assert (Hn : Z.max 0 (Z.min (region_end r - (va + Z.of_nat k))
                          (region_end r - (va + Z.of_nat k)))
               = len (skipn k data)) by lia.
  rewrite Hn.
  replace (Z.to_nat (len (skipn k data))) with (List.length (skipn k data))
    by (unfold len; lia).
  rewrite Hd, Z.eqb_refl. unfold moved_to.
  replace (va + Z.of_nat k + len (skipn k data)) with (region_end r) by lia.
  reflexivity.
Qed.

(** The scenario over the reader of the design: a region that holds the
    block from the environment pointer on. *)
Corollary environment_block_in_region
  (fuel : nat) (x64 : bool) (process_parameters environment_va : Z)
  (self : MinidumpFile) (rd rd1 rd2 : reader) (calls : list reader_call)
  (pointer tail : bytes) (r : region) :
  (2 <= fuel)%nat ->
  reader_move (process_parameters + OFFSETS x64 environment_variables_key) rd
    = (Return tt, rd1) ->
  reader_read (POINTER_SIZE x64) rd1 = (Return pointer, rd2) ->
  int_from_bytes_little pointer = environment_va ->
  (forall a, environment_va <= a < region_end r ->
             lookup (reader_regions rd) a = Some r) ->
  region_holds (reader_file rd) r environment_va (environment_block ++ tail) ->
  exists st',
    run (parse_environment fuel x64 process_parameters)
      {| walk_self := self; walk_reader := rd; walk_calls := calls |}
    = (Return tt, st') /\
    environment_variables (walk_self st') =
      Some [ {| name := str_of_string "A"; value := str_of_string "1" |};
             {| name := str_of_string "B"; value := str_of_string "22" |} ].
Proof.
  intros Hfuel Hmove Hread Hva Hlookup Hholds.
  destruct (reader_move_same _ _ _ _ Hmove) as [Hr1 Hf1].
  destruct (reader_read_same _ _ _ _ Hread) as [Hr2 Hf2].
  unfold parse_environment.
  cbn [walk_bind self_assign move read_int read_rest_of_segment].
  rewrite run_assign.
  rewrite (run_move (package := Reference.package) _ _ _ _ _ _ Hmove).
  rewrite (run_read (package := Reference.package) _ _ _ _ _ _ _ Hread).
  rewrite Hva.
  destruct (environment_scan_of_served_block (package := Reference.package)
              (fun rd' => reader_regions rd' = reader_regions rd /\
                          reader_file rd' = reader_file rd)
              fuel environment_va (set_environment_variables (Some []) self) rd2
              ((calls ++ [call_move (process_parameters
                                     + OFFSETS x64 environment_variables_key)])
               ++ [call_read (POINTER_SIZE x64)])
              tail Hfuel)
    as (st' & Hrun & Henv & _).
  - split; congruence.
  - apply (reference_reader_serves _ _ r); assumption.
  - exists st'. split; [exact Hrun | exact Henv].
Qed.

(** The scenario in a whole dump: the parse of [dump32], whose captured
    memory holds that block, returns the two entries. *)
Example environment_of_dump32 (fuel : nat) :
  exists self,
    parse_bytes (S (S fuel)) Dumps.dump32 = Return self /\
    environment_variables self =
      Some [ {| name := str_of_string "A"; value := str_of_string "1" |};
             {| name := str_of_string "B"; value := str_of_string "22" |} ].
Proof.
  exists (Dumps.model_of (S (S fuel)) Dumps.dump32).
  destruct fuel; split; vm_compute; reflexivity.
Qed.

(** C6 (what the code does). On an environment block whose entry is
    [A=b=c], the parse stores the value [b]: [split("=")[1]] is the text
    between the first and the second [=], not the remainder [b=c] of the
    entry. *)
Theorem value_cut_at_second_equals (fuel : nat) :
  exists self,
    parse_bytes (S fuel) Dumps.dump_two_equals = Return self /\
    environment_variables self =
      Some [ {| name := str_of_string "A"; value := str_of_string "b" |} ].
Proof.
  exists (Dumps.model_of (S fuel) Dumps.dump_two_equals).
  destruct fuel; split; vm_compute; reflexivity.
Qed.


(** The example of the claim: the TEB of the only thread of
    [dump_unmapped_teb] is outside the captured memory, and the parse
    raises the reader's error. *)
Example unmapped_teb_aborts_parse (fuel : nat) :
  parse_bytes fuel Dumps.dump_unmapped_teb = Raise UnmappedAddressError.
Proof. vm_compute. reflexivity. Qed.

(** ** The statements at concrete inputs *)

Lemma peb_failure_reaches_the_caller_witness :
  parse_buff 0 (mkBytesIO Dumps.dump_no_streams 0) = Raise AttributeError.
Proof.
  apply (peb_failure_reaches_the_caller 0 (mkBytesIO Dumps.dump_no_streams 0)
           (Dumps.after_header Dumps.dump_no_streams)
           (snd (__parse_directories (Dumps.after_header Dumps.dump_no_streams)))
           (snd (__parse_peb 0
                   (snd (__parse_directories
                           (Dumps.after_header Dumps.dump_no_streams)))))
           AttributeError);
    vm_compute; reflexivity.
Defined.


Lemma context_dispatch_witness :
  exists self' tl',
    __parse_thread_context (Dumps.after_directory_loop Dumps.dump32)
      = (Return tt, self') /\
    threads self' = Some tl' /\
    Forall2 (decoded_with WOW64_CONTEXT_parse ContextWow64
               (mkBytesIO Dumps.dump32 0xe7))
      [ {| Teb := 0x1000; ThreadContext := {| DataSize := 716; Rva := 0x228 |};
           ContextObject := None |} ]
      (ThreadList_threads tl').
Proof.
  refine (context_dispatch
            (Dumps.after_directory_loop Dumps.dump32)
            {| ProcessorArchitecture := PROCESSOR_ARCHITECTURE.INTEL |}
            {| ThreadList_threads :=
                 [ {| Teb := 0x1000;
                      ThreadContext := {| DataSize := 716; Rva := 0x228 |};
                      ContextObject := None |} ] |}
            (mkBytesIO Dumps.dump32 0xe7) _ _ _ _ _).
  - vm_compute; reflexivity.
  - vm_compute; reflexivity.
  - vm_compute; reflexivity.
  - intros t [<-|[]]. simpl. lia.
  - intros t [<-|[]].
    exists (repeat x00 716), (0x228 + 716). vm_compute. reflexivity.
Defined.

(** After the whole parse of [dump32], whose system info has the INTEL tag,
    the thread holds the 32-bit context decoded at its record. *)
Example context_of_dump32 :
  option_map (fun tl => map ContextObject (ThreadList_threads tl))
    (threads (Dumps.model_of 2 Dumps.dump32))
  = Some [Some (ContextWow64 (repeat x00 716))].
Proof. vm_compute. reflexivity. Qed.

Lemma empty_string_reads_nothing_more_witness :
  run (__read_unicode_string_property 0x10d0 false)
    (Dumps.dump32_walk Dumps.dump32_reader [])
  = (Return [],
     Dumps.dump32_walk (moved_to Dumps.dump32_reader Dumps.dump32_region 0x10d2)
       ([] ++ [call_move 0x10d0; call_read 2])).
Proof.
  apply (empty_string_reads_nothing_more (package := Reference.package)
           0x10d0 false
           (Dumps.dump32_walk Dumps.dump32_reader [])
           (moved_to Dumps.dump32_reader Dumps.dump32_region 0x10d0)
           (moved_to Dumps.dump32_reader Dumps.dump32_region 0x10d2)
           [x00; x00]);
    vm_compute; reflexivity.
Defined.

Lemma environment_block_scenario_witness :
  exists st',
    run (parse_environment 2 false 0x1060)
      (Dumps.dump32_walk Dumps.dump32_reader [])
    = (Return tt, st') /\
    environment_variables (walk_self st') =
      Some [ {| name := str_of_string "A"; value := str_of_string "1" |};
             {| name := str_of_string "B"; value := str_of_string "22" |} ] /\
    exists size0 size1 size2,
      walk_calls st' =
        [] ++
        [ call_move (0x1060 + OFFSETS false environment_variables_key);
          call_read (POINTER_SIZE false);
          call_move 0x1110; call_end_address; call_current_position;
          call_read size0;
          call_move (0x1110 + 8); call_end_address; call_current_position;
          call_read size1;
          call_move (0x1110 + 8 + 10); call_end_address; call_current_position;
          call_read size2 ].
Proof.
  refine (environment_block_scenario (package := Reference.package)
            (fun rd => reader_regions rd = [Dumps.dump32_region] /\
                       reader_file rd = Dumps.dump32)
            2 false 0x1060 0x1110 MinidumpFile__init__
            Dumps.dump32_reader
            (moved_to Dumps.dump32_reader Dumps.dump32_region 0x10a8)
            (moved_to Dumps.dump32_reader Dumps.dump32_region 0x10ac)
            [] (Dumps.le 4 0x1110) (repeat x00 28)
            _ _ _ _ _ _).
  - lia.
  - vm_compute; reflexivity.
  - vm_compute; reflexivity.
  - vm_compute; reflexivity.
  - split; reflexivity.
  - apply (reference_reader_serves _ _ Dumps.dump32_region).
    + intros a Ha. unfold region_end in Ha. simpl in Ha.
      unfold lookup, region_end. simpl.
      replace (4096 <=? a) with true by (symmetry; apply Z.leb_le; lia).
      replace (a <? 4416) with true by (symmetry; apply Z.ltb_lt; lia).
      reflexivity.
    + unfold region_holds. repeat split; try (vm_compute; congruence).
Defined.

Lemma parse_defines_peb_attributes_witness :
  peb_attributes_defined (Dumps.model_of 2 Dumps.dump32).
Proof.
  apply (parse_defines_peb_attributes (package := Reference.package)
           2 (mkBytesIO Dumps.dump32 0) (Dumps.model_of 2 Dumps.dump32)).
  vm_compute; reflexivity.
Defined.

Lemma duplicate_streams_last_wins_witness :
  exists self1 f v p self2,
    directory_loop Dumps.dump32_first_entries (Dumps.after_header Dumps.dump32)
      = (Return tt, self1) /\
    file_handle self1 = Some f /\
    decoder_map comment_a_value (CommentStreamA_parse Dumps.dump32_last_entry) f
      = (Return v, p) /\
    directory_loop (directories (Dumps.after_header Dumps.dump32))
      (Dumps.after_header Dumps.dump32) = (Return tt, self2) /\
    stream_field (StreamType Dumps.dump32_last_entry) self2 = Some v /\
    holds_decoded
      (stream_field (StreamType Dumps.dump32_last_entry)
         (snd (__parse_directories (Dumps.after_header Dumps.dump32)))) v.
Proof.
  apply (duplicate_streams_last_wins
           (Dumps.after_header Dumps.dump32)
           (snd (__parse_directories (Dumps.after_header Dumps.dump32)))
           Dumps.dump32_first_entries [] Dumps.dump32_last_entry
           (decoder_map comment_a_value
              (CommentStreamA_parse Dumps.dump32_last_entry))).
  - vm_compute; reflexivity.
  - reflexivity.
  - intros d [].
  - vm_compute; reflexivity.
Defined.

(** The two comment streams of [dump32] hold [one] and [two], in this
    order: the model has the second. *)
Example second_comment_wins :
  comment_a (Dumps.model_of 2 Dumps.dump32) = Some (Dumps.ascii_bytes "two").
Proof. vm_compute. reflexivity. Qed.

Lemma str_needs_the_module_list_witness :
  modules (Dumps.model_of 2 Dumps.dump32) = None /\
  __str__ (Dumps.model_of 2 Dumps.dump32) = Raise AttributeError.
Proof.
  apply (str_needs_the_module_list 2 (mkBytesIO Dumps.dump32 0)
           (Dumps.model_of 2 Dumps.dump32)).
  - vm_compute; reflexivity.
  - intros d Hin. vm_compute in Hin.
    repeat (destruct Hin as [<-|Hin]; [discriminate|]). destruct Hin.
Defined.

(** [dump32] has no module list: its summary cannot be rendered.  With a
    module list, the summary is rendered, although the dump has no 64-bit
    memory list. *)
Example str_of_dump32 :
  __str__ (Dumps.model_of 2 Dumps.dump32) = Raise AttributeError.
Proof. vm_compute. reflexivity. Qed.

Example str_of_dump_with_modules :
  memory_segments_64 (Dumps.model_of 2 Dumps.dump_with_modules) = None /\
  exists t, __str__ (Dumps.model_of 2 Dumps.dump_with_modules) = Return t.
Proof.
  split; [vm_compute; reflexivity|].
  apply (str_with_modules _ {| ModuleList_modules := [] |}).
  vm_compute; reflexivity.
Qed.

End ReferenceReader.

(** * Further properties *)

(** ** Text and its UTF-16 bytes *)

Lemma to_N_byte_of_ascii (c : ascii) : Byte.to_N (byte_of_ascii c) = N_of_ascii c.
Proof. apply Byte.to_of_N. symmetry. apply byte_of_ascii_via_N. Qed.

Lemma eqb_x00 (b : byte) : Byte.eqb x00 b = true -> b = x00.
Proof. destruct b; simpl; intros H; try discriminate; reflexivity. Qed.

Lemma byte_of_ascii_not_nul (c : ascii) :
  Ascii.eqb c zero = false -> Byte.eqb x00 (byte_of_ascii c) = false.
Proof.
  intros Hc. destruct (Byte.eqb x00 (byte_of_ascii c)) eqn:Hb; [|reflexivity].
  apply eqb_x00 in Hb.
  apply (f_equal ascii_of_byte) in Hb. rewrite ascii_of_byte_of_ascii in Hb.
  subst c. discriminate.
Qed.

Lemma utf16le_cons (c : ascii) (s : string) :
  utf16le (String c s) = byte_of_ascii c :: x00 :: utf16le s.
Proof. reflexivity. Qed.

Lemma utf16le_length (s : string) :
  List.length (utf16le s) = (2 * String.length s)%nat.
Proof.
  induction s as [|c s IH]; [reflexivity|].
  rewrite utf16le_cons. simpl. rewrite IH. lia.
Qed.

Lemma str_of_string_length (s : string) :
  List.length (str_of_string s) = String.length s.
Proof.
  unfold str_of_string. rewrite length_map.
  induction s as [|c s IH]; simpl; congruence.
Qed.

Lemma utf16le_app (a b : string) :
  utf16le (a ++ b) = utf16le a ++ utf16le b.
Proof.
  induction a as [|c a IH]; [reflexivity|].
  simpl String.append. rewrite !utf16le_cons, IH. reflexivity.
Qed.

Lemma utf16_units_utf16le (s : string) :
  utf16_units false (utf16le s) = Return (str_of_string s).
Proof.
  induction s as [|c s IH]; [reflexivity|].
  rewrite utf16le_cons. cbn [utf16_units]. rewrite IH.
  rewrite to_N_byte_of_ascii. simpl Byte.to_N.
  rewrite N.mul_0_l, N.add_0_r. reflexivity.
Qed.

Lemma utf16_code_points_latin (s : string) :
  utf16_code_points (str_of_string s) = Return (str_of_string s).
Proof.
  induction s as [|c s IH]; [reflexivity|].
  change (str_of_string (String c s)) with (N_of_ascii c :: str_of_string s).
  cbn [utf16_code_points].
  pose proof (N_ascii_bounded c) as Hc.
  unfold is_high_surrogate, is_low_surrogate.
  replace (0xD800 <=? N_of_ascii c)%N with false by (symmetry; apply N.leb_gt; lia).
  replace (0xDC00 <=? N_of_ascii c)%N with false by (symmetry; apply N.leb_gt; lia).
  simpl. rewrite IH. reflexivity.
Qed.

Lemma decode_utf16_no_mark (b : byte) (rest : bytes) :
  decode_utf16 (b :: x00 :: rest) =
  match utf16_units false (b :: x00 :: rest) with
  | Return us => utf16_code_points us
  | Raise e => Raise e
  | OutOfFuel => OutOfFuel
  end.
Proof. unfold decode_utf16. destruct b; reflexivity. Qed.

(** Decoding the UTF-16 bytes of a text gives the text back. *)
Lemma decode_utf16_utf16le (s : string) :
  decode_utf16 (utf16le s) = Return (str_of_string s).
Proof.
  destruct s as [|c s]; [reflexivity|].
  rewrite utf16le_cons, decode_utf16_no_mark, <- utf16le_cons.
  rewrite utf16_units_utf16le. apply utf16_code_points_latin.
Qed.

Lemma lacks_cons (c x : ascii) (s : string) :
  lacks c (String x s) = true -> Ascii.eqb x c = false /\ lacks c s = true.
Proof.
  unfold lacks. simpl. intros H. apply andb_true_iff in H. destruct H as [H1 H2].
  split; [|exact H2]. destruct (Ascii.eqb x c); [discriminate | reflexivity].
Qed.

Lemma lacks_app (c : ascii) (a b : string) :
  lacks c a = true -> lacks c b = true -> lacks c (a ++ b) = true.
Proof.
  induction a as [|x a IH]; simpl; intros Ha Hb; [exact Hb|].
  apply lacks_cons in Ha. destruct Ha as [Hx Ha].
  unfold lacks in *. simpl. rewrite Hx. simpl. apply IH; assumption.
Qed.

Lemma find_from_cons (sub : bytes) (b : byte) (bs : bytes) (i : Z) :
  find_from sub (b :: bs) i =
  if startswith sub (b :: bs) then i else find_from sub bs (i + 1).
Proof. reflexivity. Qed.

(** The first double NUL of the UTF-16 bytes of a non-empty text without NUL
    characters, followed by a NUL terminator, is at the high byte of the
    last character. *)
Lemma find_double_nul (s : string) :
  s <> EmptyString -> lacks zero s = true ->
  forall (rest : bytes) (i : Z),
    find_from [x00; x00] (utf16le s ++ x00 :: x00 :: rest) i
    = i + 2 * Z.of_nat (String.length s) - 1.
Proof.
  induction s as [|c s IH]; intros Hne Hnul rest i; [contradiction|].
  apply lacks_cons in Hnul. destruct Hnul as [Hc Hs].
  rewrite utf16le_cons. cbn [app].
  rewrite find_from_cons. cbn [startswith].
  rewrite (byte_of_ascii_not_nul c Hc). cbn [andb].
  rewrite find_from_cons.
  destruct s as [|c' s'].
  - reflexivity || (simpl; lia).
  - pose proof Hs as Hs'. apply lacks_cons in Hs'. destruct Hs' as [Hc' _].
    replace (startswith [x00; x00] (x00 :: utf16le (String c' s') ++ x00 :: x00 :: rest))
      with false.
    + rewrite IH by (auto; discriminate).
      cbn [String.length]. lia.
    + rewrite utf16le_cons. cbn [app startswith].
      rewrite (byte_of_ascii_not_nul c' Hc'). rewrite andb_false_r. reflexivity.
Qed.

(** The bytes before that double NUL, completed by one NUL, are the bytes
    of the text. *)
Lemma slice_to_double_nul (s : string) (rest : bytes) :
  s <> EmptyString ->
  slice_to (2 * Z.of_nat (String.length s) - 1) (utf16le s ++ x00 :: x00 :: rest)
    ++ [x00]
  = utf16le s.
Proof.
  intros Hne. unfold slice_to.
  assert (Hlen : (1 <= String.length s)%nat).
  { destruct s; [contradiction | simpl; lia]. }
  destruct (Z.ltb_spec (2 * Z.of_nat (String.length s) - 1) 0) as [?|_]; [lia|].
  replace (Z.to_nat (2 * Z.of_nat (String.length s) - 1))
    with (2 * String.length s - 1)%nat by lia.
  rewrite firstn_app, utf16le_length.
  replace (2 * String.length s - 1 - 2 * String.length s)%nat with 0%nat by lia.
  cbn [firstn]. rewrite app_nil_r.
  clear rest. induction s as [|c s IH]; [contradiction|].
  destruct s as [|c' s'].
  - reflexivity.
  - rewrite utf16le_cons.
    replace (2 * String.length (String c (String c' s')) - 1)%nat
      with (S (S (2 * String.length (String c' s') - 1))) by (simpl; lia).
    cbn [firstn app]. rewrite IH by (try discriminate; simpl; lia).
    reflexivity.
Qed.

Lemma str_split_lacks (c : ascii) (s : string) :
  lacks c s = true -> str_split (N_of_ascii c) (str_of_string s) = [str_of_string s].
Proof.
  induction s as [|x s IH]; intros H; [reflexivity|].
  apply lacks_cons in H. destruct H as [Hx Hs].
  change (str_of_string (String x s)) with (N_of_ascii x :: str_of_string s).
  cbn [str_split]. rewrite (IH Hs).
  destruct (N.eqb_spec (N_of_ascii x) (N_of_ascii c)) as [Heq|_]; [|reflexivity].
  apply (f_equal ascii_of_N) in Heq. rewrite !ascii_N_embedding in Heq.
  subst x. rewrite Ascii.eqb_refl in Hx. discriminate.
Qed.

Lemma str_of_string_app (a b : string) :
  str_of_string (a ++ b) = str_of_string a ++ str_of_string b.
Proof.
  induction a as [|x a IH]; [reflexivity|].
  simpl String.append.
  change (str_of_string (String x (a ++ b)))
    with (N_of_ascii x :: str_of_string (a ++ b)).
  rewrite IH. reflexivity.
Qed.

(** [KEY=VALUE] splits into the key and the value, when neither has a
    [=]. *)
Lemma str_split_entry (p : string * string) :
  lacks "=" (fst p) = true -> lacks "=" (snd p) = true ->
  str_split 61 (str_of_string (entry_text p))
  = [str_of_string (fst p); str_of_string (snd p)].
Proof.
  destruct p as [k v]. unfold entry_text. cbn [fst snd]. intros Hk Hv.
  pose proof (str_split_lacks "=" v Hv) as Hsplit.
  change (N_of_ascii "=") with 61%N in Hsplit.
  induction k as [|x k IH]; cbn [String.append] in *.
  - change (str_of_string (String "=" v)) with (61%N :: str_of_string v).
    cbn [str_split]. rewrite N.eqb_refl, Hsplit. reflexivity.
  - apply lacks_cons in Hk. destruct Hk as [Hx Hk].
    change (str_of_string (String x (k ++ String "=" v)))
      with (N_of_ascii x :: str_of_string (k ++ String "=" v)).
    cbn [str_split]. rewrite (IH Hk).
    destruct (N.eqb_spec (N_of_ascii x) 61) as [Heq|_]; [|reflexivity].
    apply (f_equal ascii_of_N) in Heq. rewrite ascii_N_embedding in Heq.
    subst x. discriminate.
Qed.

(** ** Text of any Unicode characters *)

Lemma byte_of_N_to_N (n : N) : (n < 256)%N -> Byte.to_N (byte_of_N n) = n.
Proof.
  intros Hn. unfold byte_of_N. destruct (Byte.of_N n) as [b|] eqn:E.
  - apply Byte.to_of_N. exact E.
  - apply Byte.of_N_None_iff in E. lia.
Qed.

Lemma utf16_unit_of_bytes (u : N) :
  (u < 0x10000)%N ->
  (Byte.to_N (byte_of_N (u mod 256)) + Byte.to_N (byte_of_N (u / 256)) * 256)%N = u.
Proof.
  intros Hu.
  rewrite !byte_of_N_to_N.
  - rewrite (N.div_mod u 256) at 3 by discriminate. lia.
  - apply N.Div0.div_lt_upper_bound; exact Hu.
  - apply N.mod_upper_bound. discriminate.
Qed.

Lemma utf16_units_encode (us : list N) :
  Forall (fun u => (u < 0x10000)%N) us ->
  utf16_units false (flat_map utf16_unit_bytes us) = Return us.
Proof.
  induction 1 as [|u us Hu _ IH]; [reflexivity|].
  cbn [flat_map utf16_unit_bytes app utf16_units]. rewrite IH.
  rewrite (utf16_unit_of_bytes u Hu). reflexivity.
Qed.

(** The two halves of a code point above the basic plane. *)
Lemma surrogate_pair (c : N) :
  (0x10000 <= c < 0x110000)%N ->
  let hi := (0xD800 + (c - 0x10000) / 0x400)%N in
  let lo := (0xDC00 + (c - 0x10000) mod 0x400)%N in
  (0xD800 <= hi <= 0xDBFF)%N /\ (0xDC00 <= lo <= 0xDFFF)%N /\
  (0x10000 + (hi - 0xD800) * 0x400 + (lo - 0xDC00))%N = c.
Proof.
  intros Hc hi lo. subst hi lo.
  pose proof (N.div_mod (c - 0x10000) 0x400 ltac:(discriminate)) as Hdm.
  pose proof (N.mod_upper_bound (c - 0x10000) 0x400 ltac:(discriminate)) as Hr.
  assert (Hq : ((c - 0x10000) / 0x400 < 0x400)%N).
  { apply N.Div0.div_lt_upper_bound; lia. }
  set (q := ((c - 0x10000) / 0x400)%N) in *.
  set (r := ((c - 0x10000) mod 0x400)%N) in *.
  repeat split; lia.
Qed.

Lemma scalar_facts (c : N) :
  is_scalar c = true ->
  (c < 0x110000)%N /\ is_high_surrogate c = false /\ is_low_surrogate c = false.
Proof.
  unfold is_scalar. intros H.
  apply andb_true_iff in H. destruct H as [H Hlo].
  apply andb_true_iff in H. destruct H as [Hc Hhi].
  apply N.ltb_lt in Hc.
  destruct (is_high_surrogate c), (is_low_surrogate c); try discriminate. auto.
Qed.

Lemma code_units_in_range (s : str) :
  forallb is_scalar s = true ->
  Forall (fun u => (u < 0x10000)%N) (flat_map utf16_code_units s).
Proof.
  induction s as [|c s IH]; intros Hs; [constructor|].
  cbn [forallb] in Hs. apply andb_true_iff in Hs. destruct Hs as [Hc Hs].
  cbn [flat_map]. apply Forall_app. split; [|exact (IH Hs)].
  apply scalar_facts in Hc. destruct Hc as (Hc & _ & _).
  unfold utf16_code_units. destruct (N.ltb_spec c 0x10000) as [Hlt|Hge].
  - repeat constructor. exact Hlt.
  - destruct (surrogate_pair c ltac:(lia)) as (Hhi & Hlo & _).
    repeat constructor; lia.
Qed.

Lemma utf16_code_points_encode (s : str) :
  forallb is_scalar s = true ->
  utf16_code_points (flat_map utf16_code_units s) = Return s.
Proof.
  induction s as [|c s IH]; intros Hs; [reflexivity|].
  cbn [forallb] in Hs. apply andb_true_iff in Hs. destruct Hs as [Hc Hs].
  apply scalar_facts in Hc. destruct Hc as (Hc & Hnh & Hnl).
  cbn [flat_map]. unfold utf16_code_units at 1.
  destruct (N.ltb_spec c 0x10000) as [Hlt|Hge].
  - cbn [app utf16_code_points]. rewrite Hnh, Hnl, (IH Hs). reflexivity.
  - destruct (surrogate_pair c ltac:(lia)) as (Hhi & Hlo & Hval).
    cbn [app utf16_code_points].
    set (hi := (0xD800 + (c - 0x10000) / 0x400)%N) in *.
    set (lo := (0xDC00 + (c - 0x10000) mod 0x400)%N) in *.
    replace (is_high_surrogate hi) with true
      by (symmetry; unfold is_high_surrogate; apply andb_true_iff;
          split; apply N.leb_le; lia).
    replace (is_low_surrogate lo) with true
      by (symmetry; unfold is_low_surrogate; apply andb_true_iff;
          split; apply N.leb_le; lia).
    rewrite (IH Hs), Hval. reflexivity.
Qed.

(** Without a byte-order mark in its first two bytes, the payload is the
    whole input, read low byte first. *)
Lemma decode_utf16_plain (b0 b1 : byte) (rest : bytes) :
  (b0 = xff -> b1 = xfe -> False) ->
  (b0 = xfe -> b1 = xff -> False) ->
  decode_utf16 (b0 :: b1 :: rest) =
  match utf16_units false (b0 :: b1 :: rest) with
  | Return us => utf16_code_points us
  | Raise e => Raise e
  | OutOfFuel => OutOfFuel
  end.
Proof.
  intros Hle Hbe. unfold decode_utf16.
  destruct b0; try reflexivity; destruct b1; try reflexivity;
    exfalso; auto.
Qed.

Lemma first_unit_not_a_mark (c : N) :
  is_scalar c = true -> ((c =? 0xFEFF) || (c =? 0xFFFE))%N = false ->
  exists u us,
    utf16_code_units c = u :: us /\ (u < 0x10000)%N /\ u <> 0xFEFF%N /\ u <> 0xFFFE%N.
Proof.
  intros Hc Hm. apply scalar_facts in Hc. destruct Hc as (Hc & _ & _).
  apply orb_false_iff in Hm. destruct Hm as [H1 H2].
  apply N.eqb_neq in H1. apply N.eqb_neq in H2.
  unfold utf16_code_units. destruct (N.ltb_spec c 0x10000) as [Hlt|Hge].
  - exists c, []. auto.
  - destruct (surrogate_pair c ltac:(lia)) as (Hhi & _ & _).
    eexists _, _. split; [reflexivity|]. repeat split; lia.
Qed.

(** Decoding the UTF-16 bytes of a text that does not start with a mark
    gives the text back. *)
Lemma decode_utf16_encode (s : str) :
  forallb is_scalar s = true ->
  starts_with_mark s = false ->
  decode_utf16 (encode_utf16le s) = Return s.
Proof.
  intros Hs Hm. unfold encode_utf16le.
  pose proof (utf16_units_encode _ (code_units_in_range s Hs)) as Hunits.
  pose proof (utf16_code_points_encode s Hs) as Hpoints.
  destruct s as [|c s]; [reflexivity|].
  cbn [forallb] in Hs. apply andb_true_iff in Hs. destruct Hs as [Hc _].
  cbn [starts_with_mark] in Hm.
  destruct (first_unit_not_a_mark c Hc Hm) as (u & us & Hu & Hlt & Hn1 & Hn2).
  cbn [flat_map] in *. rewrite Hu in *.
  cbn [app flat_map utf16_unit_bytes] in *.
  rewrite decode_utf16_plain, Hunits; [exact Hpoints| |].
  - intros H0 H1. apply Hn1.
    rewrite <- (utf16_unit_of_bytes u Hlt), H0, H1. reflexivity.
  - intros H0 H1. apply Hn2.
    rewrite <- (utf16_unit_of_bytes u Hlt), H0, H1. reflexivity.
Qed.

Lemma encode_utf16le_nonempty (s : str) :
  s <> [] -> len (encode_utf16le s) <> 0.
Proof.
  destruct s as [|c s]; [contradiction|]. intros _.
  unfold encode_utf16le, len. cbn [flat_map].
  unfold utf16_code_units. destruct (c <? 0x10000)%N;
    cbn [app flat_map utf16_unit_bytes List.length]; lia.
Qed.

(** ** Entries that end outside Latin-1 *)








Section FurtherProperties.

Context {shapes : Shapes} {package : Package}.

(** ** The environment scan on a block of entries *)

(** A reader that serves a block serves what follows its first bytes. *)
Lemma serves_after (I : BufferedReader -> Prop) (va : Z) (d1 d2 : bytes) :
  serves I va (d1 ++ d2) -> serves I (va + len d1) d2.
Proof.
  intros Hserves rd k HI Hk.
  destruct (Hserves rd (List.length d1 + k)%nat HI) as (rd1 & e & rd2 & Hm & He & Hr & HI2).
  { rewrite length_app. lia. }
  exists rd1, e, rd2.
  replace (va + len d1 + Z.of_nat k) with (va + Z.of_nat (List.length d1 + k))
    by (unfold len; lia).
  rewrite skipn_app, skipn_all2 in Hr by lia.
  replace (List.length d1 + k - List.length d1)%nat with k in Hr by lia.
  auto.
Qed.

Lemma environment_block_of_length (pairs : list (string * string)) :
  (2 <= List.length (environment_block_of pairs))%nat.
Proof.
  destruct pairs; cbn [environment_block_of]; [simpl; lia|].
  rewrite !length_app. simpl. lia.
Qed.

Lemma entry_text_facts (p : string * string) :
  plain_pair p = true ->
  entry_text p <> EmptyString /\ lacks zero (entry_text p) = true /\
  lacks "=" (fst p) = true /\ lacks "=" (snd p) = true.
Proof.
  unfold plain_pair. intros H.
  apply andb_true_iff in H. destruct H as [H Hv2].
  apply andb_true_iff in H. destruct H as [H Hv1].
  apply andb_true_iff in H. destruct H as [Hk1 Hk2].
  repeat split; auto.
  - unfold entry_text. destruct (fst p); discriminate.
  - unfold entry_text. apply lacks_app; [exact Hk1|].
    apply (lacks_app zero "=" (snd p)); [reflexivity | exact Hv1].
Qed.

(** One turn of the loop on a buffer that starts with an entry: its key and
    value are appended, and the cursor moves past the entry and its
    terminator. *)
Lemma environment_loop_on_entry (p : string * string) (rest : bytes) fuel environment_va :
  plain_pair p = true ->
  environment_loop (S fuel)
    (utf16le (entry_text p) ++ x00 :: x00 :: rest) environment_va =
  Assign (fun self =>
            set_environment_variables
              (option_map (fun l => l ++ [environment_entry p])
                 (environment_variables self)) self)
    (Move (environment_va + len (utf16le (entry_text p) ++ [x00; x00]))
       (EndAddress (fun end_address =>
        CurrentPosition (fun position =>
        Read (end_address - position) (fun b =>
          environment_loop fuel b
            (environment_va + len (utf16le (entry_text p) ++ [x00; x00]))))))).
Proof.
  intros Hp. destruct (entry_text_facts p Hp) as (Hne & Hnul & Hk & Hv).
  assert (Hlen : (1 <= String.length (entry_text p))%nat).
  { destruct (entry_text p); [contradiction | simpl; lia]. }
  rewrite (environment_loop_entry fuel _ environment_va
             (2 * Z.of_nat (String.length (entry_text p)) - 1)
             (str_of_string (entry_text p))
             (str_of_string (fst p)) (str_of_string (snd p))).
  - replace (len (str_of_string (entry_text p)) + 1)
      with (Z.of_nat (String.length (entry_text p)) + 1)
      by (unfold len; rewrite str_of_string_length; reflexivity).
    replace (len (utf16le (entry_text p) ++ [x00; x00]))
      with ((Z.of_nat (String.length (entry_text p)) + 1) * 2)
      by (unfold len; rewrite length_app, utf16le_length; simpl; lia).
    reflexivity.
  - unfold bytes_find. rewrite (find_double_nul _ Hne Hnul). lia.
  - lia.
  - lia.
  - rewrite (slice_to_double_nul _ rest Hne). apply decode_utf16_utf16le.
  - rewrite (str_split_entry p Hk Hv). reflexivity.
  - rewrite (str_split_entry p Hk Hv). reflexivity.
Qed.

Lemma environment_loop_round_trip (I : BufferedReader -> Prop)
  (pairs : list (string * string)) :
  forall fuel environment_va self rd calls tail,
    (List.length pairs <= fuel)%nat ->
    forallb plain_pair pairs = true ->
    I rd ->
    serves I environment_va (environment_block_of pairs ++ tail) ->
    exists st',
      run (environment_loop fuel (environment_block_of pairs ++ tail) environment_va)
        {| walk_self := self; walk_reader := rd; walk_calls := calls |}
      = (Return tt, st') /\
      environment_variables (walk_self st') =
        option_map (fun l => l ++ map environment_entry pairs)
          (environment_variables self).
Proof.
  induction pairs as [|p pairs IH];
    intros fuel environment_va self rd calls tail Hfuel Hplain HI Hserves.
  - cbn [environment_block_of].
    rewrite environment_loop_end by reflexivity.
    eexists. split; [reflexivity|]. simpl.
    destruct (environment_variables self); simpl; [rewrite app_nil_r|]; reflexivity.
  - destruct fuel as [|fuel]; [simpl in Hfuel; lia|].
    cbn [forallb] in Hplain. apply andb_true_iff in Hplain.
    destruct Hplain as [Hp Hplain].
    cbn [environment_block_of] in *.
    assert (Hbuf : (utf16le (entry_text p) ++ [x00; x00] ++ environment_block_of pairs)
                     ++ tail
                   = utf16le (entry_text p)
                       ++ x00 :: x00 :: (environment_block_of pairs ++ tail)).
    { rewrite <- !app_assoc. reflexivity. }
    rewrite Hbuf in *. clear Hbuf.
    assert (Hsplit : utf16le (entry_text p)
                       ++ x00 :: x00 :: (environment_block_of pairs ++ tail)
                     = (utf16le (entry_text p) ++ [x00; x00])
                         ++ (environment_block_of pairs ++ tail)).
    { rewrite <- app_assoc. reflexivity. }
    rewrite (environment_loop_on_entry p _ fuel environment_va Hp).
    rewrite run_assign.
    match goal with
    | |- context [run (Move ?a (EndAddress _))
                    {| walk_self := ?s; walk_reader := _; walk_calls := ?c |}] =>
        destruct (run_served I environment_va
                    (utf16le (entry_text p)
                       ++ x00 :: x00 :: (environment_block_of pairs ++ tail))
                    (fun b => environment_loop fuel b a)
                    s rd c (List.length (utf16le (entry_text p) ++ [x00; x00])) a
                    Hserves HI)
          as (rd' & size & HI' & Hrun)
    end.
    { pose proof (environment_block_of_length pairs).
      rewrite Hsplit, !length_app. simpl. lia. }
    { reflexivity. }
    cbn beta in Hrun. rewrite Hrun. clear Hrun.
    rewrite Hsplit in *.
    rewrite skipn_app, skipn_all, Nat.sub_diag. cbn [skipn app].
    apply serves_after in Hserves.
    match goal with
    | |- context [run _ {| walk_self := ?s; walk_reader := _; walk_calls := ?c |}] =>
        destruct (IH fuel _ s rd' c tail ltac:(simpl in Hfuel; lia) Hplain HI' Hserves)
          as (st' & Hrun & Henv)
    end.
    exists st'. split; [exact Hrun|]. rewrite Henv. simpl.
    destruct (environment_variables self); simpl; [|reflexivity].
    rewrite <- app_assoc. reflexivity.
Qed.

(** X8. The environment scan gives back the keys and values of a block of
    Latin-1 text: for every list of pairs whose keys and values are made of
    the characters [U+0001] to [U+00FF] other than [=], over a reader that
    serves, at the environment pointer, the entries [KEY=VALUE] of the
    pairs, each NUL-terminated, and the NUL that ends the block, the scan
    returns with one turn of fuel per entry, and the environment list is the
    list of the pairs, in order.  (Outside this range the scan can fail, as
    shown after it.) *)
Theorem environment_scan_round_trip
  (I : BufferedReader -> Prop) (pairs : list (string * string))
  (fuel : nat) (x64 : bool) (process_parameters environment_va : Z)
  (self : MinidumpFile) (rd rd1 rd2 : BufferedReader) (calls : list reader_call)
  (pointer tail : bytes) :
  (List.length pairs <= fuel)%nat ->
  forallb plain_pair pairs = true ->
  BufferedReader_move (process_parameters + OFFSETS x64 environment_variables_key) rd
    = (Return tt, rd1) ->
  BufferedReader_read (POINTER_SIZE x64) rd1 = (Return pointer, rd2) ->
  int_from_bytes_little pointer = environment_va ->
  I rd2 ->
  serves I environment_va (environment_block_of pairs ++ tail) ->
  exists st',
    run (parse_environment fuel x64 process_parameters)
      {| walk_self := self; walk_reader := rd; walk_calls := calls |}
    = (Return tt, st') /\
    environment_variables (walk_self st') = Some (map environment_entry pairs).
Proof.
  intros Hfuel Hplain Hmove Hread Hva HI Hserves.
  unfold parse_environment.
  cbn [walk_bind self_assign move read_int read_rest_of_segment].
  rewrite run_assign, (run_move _ _ _ _ _ _ Hmove), (run_read _ _ _ _ _ _ _ Hread).
  rewrite Hva.
  assert (Hpos : (0 < List.length (environment_block_of pairs ++ tail))%nat).
  { pose proof (environment_block_of_length pairs). rewrite length_app. lia. }
  match goal with
  | |- context [run _ {| walk_self := ?s; walk_reader := _; walk_calls := ?c |}] =>
      destruct (run_served I environment_va (environment_block_of pairs ++ tail)
                  (fun b => environment_loop fuel b environment_va)
                  s rd2 c 0%nat environment_va Hserves HI Hpos ltac:(lia))
        as (rd3 & size & HI3 & Hrun)
  end.
  rewrite Hrun. clear Hrun. cbn [skipn].
  match goal with
  | |- context [run _ {| walk_self := ?s; walk_reader := _; walk_calls := ?c |}] =>
      destruct (environment_loop_round_trip I pairs fuel environment_va s rd3 c tail
                  Hfuel Hplain HI3 Hserves)
        as (st' & Hrun & Henv)
  end.
  exists st'. split; [exact Hrun|]. rewrite Henv. reflexivity.
Qed.

(** X9. An entry of Latin-1 text without [=] stops the scan: on a buffer
    that starts with a non-empty text of the characters [U+0001] to [U+00FF]
    other than [=], NUL-terminated, the loop raises [IndexError] at
    [split("=")[1]], before any assignment and any call on the reader. *)
Theorem entry_without_equals_raises
  (entry : string) (rest : bytes) (fuel : nat) (environment_va : Z) (st : walk_state) :
  entry <> EmptyString ->
  lacks zero entry = true ->
  lacks "=" entry = true ->
  run (environment_loop (S fuel) (utf16le entry ++ [x00; x00] ++ rest) environment_va) st
  = (Raise IndexError, st).
Proof.
  intros Hne Hnul Heq.
  assert (Hlen : (1 <= String.length entry)%nat).
  { destruct entry; [contradiction | simpl; lia]. }
  cbn [environment_loop app]. unfold bytes_find.
  rewrite (find_double_nul _ Hne Hnul).
  destruct (Z.eqb_spec (0 + 2 * Z.of_nat (String.length entry) - 1) 0) as [?|_]; [lia|].
  destruct (Z.eqb_spec (0 + 2 * Z.of_nat (String.length entry) - 1) (-1)) as [?|_]; [lia|].
  cbn [negb andb].
  replace (0 + 2 * Z.of_nat (String.length entry) - 1)
    with (2 * Z.of_nat (String.length entry) - 1) by lia.
  rewrite (slice_to_double_nul _ rest Hne), decode_utf16_utf16le.
  cbn [lift walk_bind].
  pose proof (str_split_lacks "=" entry Heq) as Hsplit.
  change (N_of_ascii "=") with 61%N in Hsplit. rewrite Hsplit.
  destruct st as [self rd calls]. reflexivity.
Qed.


End FurtherProperties.

Section Passes.

Context {shapes : Shapes} {package : Package}.

(** ** Reading a string property *)

(** X7. A string property is read back as written: for every non-empty
    text of Unicode scalar values that does not start with [U+FEFF] or
    [U+FFFE], when the descriptor at [addr] gives the byte length of its
    UTF-16-LE encoding and a pointer to these bytes, the method returns the
    text, after exactly six calls on the reader. *)
Theorem string_property_round_trip
  (addr : Z) (x64 : bool) (s : str) (self : MinidumpFile)
  (rd rd1 rd2 rd3 rd4 rd5 rd6 : BufferedReader) (calls : list reader_call)
  (prefix pointer : bytes) :
  s <> [] ->
  forallb is_scalar s = true ->
  starts_with_mark s = false ->
  BufferedReader_move addr rd = (Return tt, rd1) ->
  BufferedReader_read 2 rd1 = (Return prefix, rd2) ->
  int_from_bytes_little prefix = len (encode_utf16le s) ->
  BufferedReader_move (addr + OFFSETS x64 buffer) rd2 = (Return tt, rd3) ->
  BufferedReader_read (POINTER_SIZE x64) rd3 = (Return pointer, rd4) ->
  BufferedReader_move (int_from_bytes_little pointer) rd4 = (Return tt, rd5) ->
  BufferedReader_read (len (encode_utf16le s)) rd5 = (Return (encode_utf16le s), rd6) ->
  run (__read_unicode_string_property addr x64)
    {| walk_self := self; walk_reader := rd; walk_calls := calls |}
  = (Return s,
     {| walk_self := self; walk_reader := rd6;
        walk_calls := calls ++
          [ call_move addr; call_read 2;
            call_move (addr + OFFSETS x64 buffer); call_read (POINTER_SIZE x64);
            call_move (int_from_bytes_little pointer);
            call_read (len (encode_utf16le s)) ] |}).
Proof.
  intros Hne Hs Hmark Hm1 Hr1 Hlen Hm2 Hr2 Hm3 Hr3.
  unfold __read_unicode_string_property.
  cbn [walk_bind move read_int].
  rewrite (run_move _ _ _ _ _ _ Hm1), (run_read _ _ _ _ _ _ _ Hr1), Hlen.
  destruct (Z.eqb_spec (len (encode_utf16le s)) 0) as [Hz|_].
  { destruct (encode_utf16le_nonempty s Hne Hz). }
  cbn [walk_bind move read_int read_bytes].
  rewrite (run_move _ _ _ _ _ _ Hm2), (run_read _ _ _ _ _ _ _ Hr2).
  rewrite (run_move _ _ _ _ _ _ Hm3), (run_read _ _ _ _ _ _ _ Hr3).
  cbn [walk_bind]. rewrite (decode_utf16_encode s Hs Hmark). cbn [lift run].
  repeat rewrite <- app_assoc. reflexivity.
Qed.

(** ** The directory table *)

Lemma on_file_handle_returns {A : Type} (op : M BytesIO A) self a self' :
  on_file_handle op self = (Return a, self') ->
  exists f f', file_handle self = Some f /\ op f = (Return a, f') /\
               self' = set_file_handle (Some f') self.
Proof.
  unfold on_file_handle. destruct (file_handle self) as [f|]; [|discriminate].
  destruct (op f) as [o f'] eqn:E. intros H. injection H as -> <-.
  exists f, f'. auto.
Qed.

Lemma seek_returns offset f p f' :
  seek offset f = (Return p, f') -> f' = mkBytesIO (getvalue f) offset.
Proof.
  unfold seek. destruct (offset <? 0); [discriminate|]. intros H. injection H as _ <-.
  reflexivity.
Qed.

Lemma call_decoder_getvalue {A : Type} (d : decoder A) f o f' :
  call_decoder d f = (o, f') -> getvalue f' = getvalue f.
Proof.
  unfold call_decoder. destruct (d f) as [o' p]. intros H. injection H as _ <-.
  reflexivity.
Qed.

(** One turn of the loop of [__parse_header] that returns: the entry decoded
    at its place in the table is appended when the decoder knows its stream
    type, and nothing else of the table changes. *)
Lemma parse_header_entry_returns h i self self' f :
  file_handle self = Some f ->
  parse_header_entry h i self = (Return tt, self') ->
  (exists f', file_handle self' = Some f' /\ getvalue f' = getvalue f) /\
  filename self' = filename self /\ header self' = header self /\
  directories self' = directories self ++ directory_entry_at (getvalue f) h i.
Proof.
  intros Hf Hrun. unfold parse_header_entry in Hrun.
  apply bind_returns in Hrun. destruct Hrun as (p & s1 & Hseek & Hrun).
  apply on_file_handle_returns in Hseek.
  destruct Hseek as (f0 & f1 & Hf0 & Hseek & ->).
  rewrite Hf in Hf0. injection Hf0 as <-.
  apply seek_returns in Hseek. subst f1.
  apply bind_returns in Hrun. destruct Hrun as (d & s2 & Hdec & Hrun).
  apply on_file_handle_returns in Hdec.
  destruct Hdec as (f1 & f2 & Hf1 & Hdec & ->).
  cbn in Hf1. injection Hf1 as <-.
  unfold directory_entry_at. cbn [getvalue].
  unfold call_decoder in Hdec.
  destruct (MINIDUMP_DIRECTORY_parse _) as [o q] eqn:E.
  injection Hdec as -> <-.
  destruct d as [d|].
  - unfold assign in Hrun. injection Hrun as <-. cbn.
    repeat split. eexists. split; reflexivity.
  - apply bind_returns in Hrun. destruct Hrun as (p2 & s3 & Hseek & Hrun).
    apply on_file_handle_returns in Hseek.
    destruct Hseek as (f3 & f4 & Hf3 & Hseek & ->).
    cbn in Hf3. injection Hf3 as <-.
    apply seek_returns in Hseek. subst f4.
    apply bind_returns in Hrun. destruct Hrun as (v & s4 & Hval & Hrun).
    apply on_file_handle_returns in Hval.
    destruct Hval as (f5 & f6 & Hf5 & Hval & ->).
    cbn in Hf5. injection Hf5 as <-.
    apply call_decoder_getvalue in Hval. cbn in Hval.
    unfold ret in Hrun. injection Hrun as <-. cbn.
    rewrite app_nil_r. repeat split. eexists. split; [reflexivity | exact Hval].
Qed.

Lemma parse_header_loop_returns h (indices : list Z) :
  forall self self' f,
    file_handle self = Some f ->
    for_each indices (parse_header_entry h) self = (Return tt, self') ->
    (exists f', file_handle self' = Some f' /\ getvalue f' = getvalue f) /\
    filename self' = filename self /\ header self' = header self /\
    directories self' =
      directories self ++ flat_map (directory_entry_at (getvalue f) h) indices.
Proof.
  induction indices as [|i indices IH]; intros self self' f Hf Hrun.
  - cbn in Hrun. unfold ret in Hrun. injection Hrun as <-.
    cbn. rewrite app_nil_r. repeat split. exists f. auto.
  - cbn [for_each] in Hrun. apply bind_returns in Hrun.
    destruct Hrun as ([] & s1 & Hentry & Hrest).
    destruct (parse_header_entry_returns h i self s1 f Hf Hentry)
      as ((f1 & Hf1 & Hv1) & Hn1 & Hh1 & Hd1).
    destruct (IH s1 self' f1 Hf1 Hrest) as ((f2 & Hf2 & Hv2) & Hn2 & Hh2 & Hd2).
    repeat split.
    + exists f2. split; [exact Hf2 | congruence].
    + congruence.
    + congruence.
    + rewrite Hd2, Hd1, Hv1. cbn [flat_map]. rewrite app_assoc. reflexivity.
Qed.

(** The header pass that returns, on a model with an empty table. *)
Lemma parse_header_returns self self' f :
  file_handle self = Some f ->
  directories self = [] ->
  __parse_header self = (Return tt, self') ->
  exists h p,
    MinidumpHeader_parse f = (Return h, p) /\
    filename self' = filename self /\ header self' = Some h /\
    directories self' = recorded_entries (getvalue f) h.
Proof.
  intros Hf Hdirs Hrun. unfold __parse_header in Hrun.
  apply bind_returns in Hrun. destruct Hrun as (h & s1 & Hdec & Hrun).
  apply on_file_handle_returns in Hdec.
  destruct Hdec as (f0 & f1 & Hf0 & Hdec & ->).
  rewrite Hf in Hf0. injection Hf0 as <-.
  unfold call_decoder in Hdec.
  destruct (MinidumpHeader_parse f) as [o p] eqn:E. injection Hdec as -> <-.
  apply bind_returns in Hrun. destruct Hrun as ([] & s2 & Hassign & Hrun).
  unfold assign in Hassign. injection Hassign as <-.
  eapply (parse_header_loop_returns h _ _ _ (mkBytesIO (getvalue f) p)) in Hrun;
    [|reflexivity].
  destruct Hrun as (_ & Hn & Hh & Hd).
  exists h, p. cbn in Hn, Hh, Hd. rewrite Hdirs in Hd. cbn in Hd.
  repeat split; assumption.
Qed.

Lemma parse_directories_table : preserves table_view __parse_directories.
Proof.
  unfold __parse_directories. apply preserves_bind.
  - intros self. unfold directory_loop.
    apply (preserves_for_each table_view (directories self) dispatch_directory).
    intros d _. unfold dispatch_directory.
    destruct (StreamType d); try apply preserves_ret;
      apply preserves_decode_into; reflexivity.
  - intros _. apply preserves_try_except. intros self.
    unfold __parse_thread_context.
    destruct (sysinfo self); [|reflexivity].
    destruct (threads self) as [tl|]; [|reflexivity].
    destruct (ThreadList_threads tl); [reflexivity|].
    destruct (file_handle self); [|reflexivity].
    destruct (thread_context_loop _ _ _) as [[o done] f']. reflexivity.
Qed.

(** The table of a parse that returns. *)
Lemma parse_returns_table fuel mf self f :
  file_handle mf = Some f ->
  directories mf = [] ->
  _parse fuel mf = (Return tt, self) ->
  exists h p,
    MinidumpHeader_parse f = (Return h, p) /\
    filename self = filename mf /\ header self = Some h /\
    directories self = recorded_entries (getvalue f) h.
Proof.
  intros Hf Hdirs Hrun. unfold _parse in Hrun.
  apply bind_returns in Hrun. destruct Hrun as ([] & self1 & Hh & Hrun).
  apply bind_returns in Hrun. destruct Hrun as ([] & self2 & Hd & Hp).
  destruct (parse_header_returns mf self1 f Hf Hdirs Hh) as (h & p & Hdec & Hn1 & Hh1 & Hd1).
  pose proof (parse_directories_table self1) as H2. rewrite Hd in H2. cbn [snd] in H2.
  pose proof (f_equal (fun v => fst (fst (snd (fst v))))
                (parse_peb_frame fuel self2)) as H3.
  rewrite Hp in H3. cbn in H3.
  unfold table_view in H2.
  exists h, p. split; [exact Hdec|].
  inversion H2 as [[E1 E2 E3]]. inversion H3 as [[F1 F2 F3]].
  repeat split; congruence.
Qed.

(** X1. The model returned by [parse_buff] holds the header the header
    decoder returned on the buffer, and its directory table is the list of
    the entries the directory decoder knows, decoded at
    [StreamDirectoryRva + i * 12] for [i] from 0 to [NumberOfStreams - 1], in
    this order; no file name is recorded. *)
Theorem parse_buff_records_the_table (fuel : nat) (buffer : BytesIO) (self : MinidumpFile) :
  parse_buff fuel buffer = Return self ->
  exists h p,
    MinidumpHeader_parse buffer = (Return h, p) /\
    header self = Some h /\
    directories self = recorded_entries (getvalue buffer) h /\
    filename self = None.
Proof.
  unfold parse_buff. intros Hrun.
  destruct (_parse fuel _) as [[[]|e|] s] eqn:E; try discriminate.
  injection Hrun as ->.
  apply (parse_returns_table fuel _ self buffer) in E; [|reflexivity..].
  destruct E as (h & p & Hdec & Hn & Hh & Hd).
  exists h, p. auto.
Qed.

(** X2. [parse_external] records the file name it is given, beside the same
    header and directory table. *)
Theorem parse_external_records_the_name
  (fuel : nat) (handle : BytesIO) (file_name : str) (self : MinidumpFile) :
  parse_external fuel handle file_name = Return self ->
  filename self = Some file_name /\
  exists h p,
    MinidumpHeader_parse handle = (Return h, p) /\
    header self = Some h /\
    directories self = recorded_entries (getvalue handle) h.
Proof.
  unfold parse_external. intros Hrun.
  destruct (_parse fuel _) as [[[]|e|] s] eqn:E; try discriminate.
  injection Hrun as ->.
  apply (parse_returns_table fuel _ self handle) in E; [|reflexivity..].
  destruct E as (h & p & Hdec & Hn & Hh & Hd).
  split; [exact Hn|]. exists h, p. auto.
Qed.

(** ** Entries without a decoder *)

Lemma dispatch_without_decoder dir :
  stream_decoder dir = None -> dispatch_directory dir = ret tt.
Proof.
  unfold stream_decoder, dispatch_directory.
  destruct (StreamType dir); try discriminate; reflexivity.
Qed.

(** X3. The directory loop does nothing on the entries of a stream type
    without decoder (unused, reserved, function table, system memory info,
    JavaScript data, process VM counters, token and the other types the
    loop only logs): the loop over a table is the loop over its entries
    with a decoder. *)
Theorem entries_without_decoder_are_skipped
  (dirs : list MINIDUMP_DIRECTORY) (self : MinidumpFile) :
  directory_loop dirs self = directory_loop (filter has_decoder dirs) self.
Proof.
  unfold directory_loop. revert self.
  induction dirs as [|d dirs IH]; intros self; [reflexivity|].
  cbn [filter]. unfold has_decoder at 1.
  destruct (stream_decoder d) as [dec|] eqn:E.
  - cbn [for_each]. unfold bind.
    destruct (dispatch_directory d self) as [[[]|e|] s]; [apply IH | reflexivity..].
  - cbn [for_each]. rewrite (dispatch_without_decoder d E). unfold bind, ret.
    apply IH.
Qed.

(** ** A stream that cannot be decoded *)

Lemma dispatch_raises (dir : MINIDUMP_DIRECTORY) (dec : decoder stream_value)
  self f e p :
  stream_decoder dir = Some dec ->
  file_handle self = Some f ->
  dec f = (Raise e, p) ->
  dispatch_directory dir self =
  (Raise e, set_file_handle (Some (mkBytesIO (getvalue f) p)) self).
Proof.
  unfold stream_decoder, dispatch_directory, decode_into, bind, on_file_handle,
    call_decoder, assign, decoder_map.
  destruct (StreamType dir); try discriminate;
    intros Hdec Hf; injection Hdec as <-; rewrite Hf;
    match goal with
    | |- context [?parse dir f] => destruct (parse dir f) as [[v|e'|] q]
    end; try discriminate;
    intros Hrun; injection Hrun as -> ->; reflexivity.
Qed.

(** X4. A stream that cannot be decoded aborts the parse: the exception of a
    stream decoder in the directory loop is not caught, the entries after it
    are not visited (the stream attributes are those stored before it), and
    [parse_buff] raises it. *)
Theorem stream_failure_reaches_the_caller
  (fuel : nat) (buffer : BytesIO) (self self1 : MinidumpFile)
  (pre post : list MINIDUMP_DIRECTORY) (dir : MINIDUMP_DIRECTORY)
  (dec : decoder stream_value) (f : BytesIO) (e : exn) (p : Z) :
  __parse_header (fresh buffer) = (Return tt, self) ->
  directories self = pre ++ dir :: post ->
  directory_loop pre self = (Return tt, self1) ->
  file_handle self1 = Some f ->
  stream_decoder dir = Some dec ->
  dec f = (Raise e, p) ->
  (exists self',
     __parse_directories self = (Raise e, self') /\
     streams_view self' = streams_view self1) /\
  parse_buff fuel buffer = Raise e.
Proof.
  intros Hh Hdirs Hpre Hf Hdec Hraise.
  assert (Hd : __parse_directories self =
               (Raise e, set_file_handle (Some (mkBytesIO (getvalue f) p)) self1)).
  { unfold __parse_directories. apply bind_raises.
    rewrite Hdirs. unfold directory_loop. rewrite for_each_app.
    unfold bind at 1. unfold directory_loop in Hpre. rewrite Hpre.
    cbn [for_each]. apply bind_raises.
    exact (dispatch_raises dir dec self1 f e p Hdec Hf Hraise). }
  split.
  - eexists. split; [exact Hd | reflexivity].
  - unfold parse_buff, _parse. fold (fresh buffer).
    unfold bind at 1. rewrite Hh. unfold bind. rewrite Hd. reflexivity.
Qed.

(** ** The thread-context pass *)

(** X5. Without a system-info stream no thread context is decoded: when the
    table has no [SystemInfoStream] entry, the directory pass is the
    directory loop alone, whatever its outcome. *)
Theorem no_system_info_no_context_pass (self : MinidumpFile) :
  sysinfo self = None ->
  (forall d, In d (directories self) ->
             StreamType d <> MINIDUMP_STREAM_TYPE.SystemInfoStream) ->
  __parse_directories self = directory_loop (directories self) self.
Proof.
  intros Hsi Hnone. unfold __parse_directories, bind.
  pose proof (directory_loop_frame _ _ Hnone self) as Hframe.
  destruct (directory_loop (directories self) self) as [[[]|e|] s]; try reflexivity.
  cbn [snd] in Hframe. cbn [stream_field] in Hframe. rewrite Hsi in Hframe.
  unfold try_except, __parse_thread_context.
  destruct (sysinfo s); [discriminate|]. reflexivity.
Qed.

(** X6. The thread-context pass changes contexts only: whatever its outcome,
    every stream attribute other than the thread list is as before, and the
    thread list has the same threads with the same TEB addresses and context
    locations. *)
Theorem context_pass_changes_contexts_only (self : MinidumpFile) (tl : MinidumpThreadList) :
  threads self = Some tl ->
  (forall t, t <> MINIDUMP_STREAM_TYPE.ThreadListStream ->
     stream_field t (snd (__parse_thread_context self)) = stream_field t self) /\
  table_view (snd (__parse_thread_context self)) = table_view self /\
  exists tl',
    threads (snd (__parse_thread_context self)) = Some tl' /\
    Forall2 same_descriptor (ThreadList_threads tl) (ThreadList_threads tl').
Proof.
  intros Hth. split; [|split].
  - intros t Ht. apply (parse_thread_context_frame t Ht).
  - unfold __parse_thread_context.
    destruct (sysinfo self); [|reflexivity]. rewrite Hth.
    destruct (ThreadList_threads tl); [reflexivity|].
    destruct (file_handle self); [|reflexivity].
    destruct (thread_context_loop _ _ _) as [[o done] f']. reflexivity.
  - pose proof (parse_thread_context_threads self) as H. rewrite Hth in H.
    destruct (threads (snd (__parse_thread_context self))) as [tl'|]; [|contradiction].
    exists tl'. auto.
Qed.

(** ** The PEB pass *)

(** X11. The PEB pass never touches what the first two passes stored:
    whatever its outcome, the file name, the header, the directory table and
    every stream attribute are as before, and [x64] is set. *)
Theorem peb_pass_keeps_the_streams (fuel : nat) (self : MinidumpFile) :
  container_view (snd (__parse_peb fuel self)) = container_view self /\
  x64 (snd (__parse_peb fuel self)) = Some (infer_x64 self).
Proof.
  pose proof (parse_peb_frame fuel self) as H. unfold walk_frame in H.
  split.
  - exact (f_equal (fun v => snd (fst v)) H).
  - exact (f_equal snd H).
Qed.

Lemma parse_peb_needs_a_thread fuel self e :
  first_teb self = Raise e -> forall self', __parse_peb fuel self <> (Return tt, self').
Proof.
  intros Hteb self'. unfold __parse_peb.
  destruct (get_buffered_reader _) as [rd|e'|]; try discriminate.
  unfold peb_walk.
  replace (first_teb (set_x64 (Some (infer_x64 self)) self)) with (first_teb self)
    by reflexivity.
  rewrite Hteb. cbn. discriminate.
Qed.

(** X10. A returned model has a thread: when [parse_buff] returns, the thread
    list of the model is there and is not empty. *)
Theorem returned_model_has_a_thread (fuel : nat) (buffer : BytesIO) (self : MinidumpFile) :
  parse_buff fuel buffer = Return self ->
  exists tl thread rest,
    threads self = Some tl /\ ThreadList_threads tl = thread :: rest.
Proof.
  intros Hrun.
  destruct (parse_buff_returns fuel buffer self Hrun) as (self1 & self2 & Hh & Hd & Hp).
  pose proof (f_equal (fun v => snd (fst v)) (parse_peb_frame fuel self2)) as Hview.
  rewrite Hp in Hview. cbn [fst snd walk_frame] in Hview.
  assert (Hthreads : threads self = threads self2).
  { exact (f_equal (fun v => snd (fst (fst (fst (fst (snd (fst v))))))) Hview). }
  rewrite Hthreads.
  destruct (first_teb self2) as [teb|e|] eqn:Hteb.
  - unfold first_teb in Hteb. destruct (threads self2) as [tl|]; [|discriminate].
    destruct (ThreadList_threads tl) as [|thread rest] eqn:Htl.
    + unfold getitem in Hteb. cbn in Hteb. discriminate.
    + exists tl, thread, rest. auto.
  - exfalso. exact (parse_peb_needs_a_thread fuel self2 e Hteb self Hp).
  - exfalso. unfold first_teb, getitem in Hteb.
    destruct (threads self2) as [tl|]; [|discriminate].
    destruct (nth_error _ _); discriminate.
Qed.

(** ** Stream attributes and table entries *)

Lemma stream_type_eq_dec (a b : MINIDUMP_STREAM_TYPE.t) : {a = b} + {a <> b}.
Proof. decide equality. apply Z.eq_dec. Qed.

Lemma entry_of_type_dec (t : MINIDUMP_STREAM_TYPE.t) (dirs : list MINIDUMP_DIRECTORY) :
  (exists d, In d dirs /\ StreamType d = t) \/
  (forall d, In d dirs -> StreamType d <> t).
Proof.
  induction dirs as [|d dirs [(d' & Hin & Heq)|IH]].
  - right. intros d [].
  - left. exists d'. split; [right; exact Hin | exact Heq].
  - destruct (stream_type_eq_dec (StreamType d) t) as [Heq|Hne].
    + left. exists d. split; [left; reflexivity | exact Heq].
    + right. intros d' [<-|Hin]; auto.
Qed.

Lemma stream_field_of_view a b :
  streams_view a = streams_view b -> forall t, stream_field t a = stream_field t b.
Proof.
  unfold streams_view. intros H t. injection H as ? ? ? ? ? ? ? ? ? ? ? ? ? ?.
  destruct t; cbn [stream_field]; congruence.
Qed.

Lemma stream_field_without_decoder d self :
  stream_decoder d = None -> stream_field (StreamType d) self = None.
Proof.
  unfold stream_decoder. destruct (StreamType d); try discriminate; reflexivity.
Qed.

(** A field that is set stays set through a dispatch, whatever its
    outcome. *)
Lemma dispatch_keeps_defined d t self :
  stream_field t self <> None ->
  stream_field t (snd (dispatch_directory d self)) <> None.
Proof.
  intros Hset.
  destruct (stream_type_eq_dec (StreamType d) t) as [<-|Hne].
  - revert Hset.
    unfold dispatch_directory, decode_into, bind, on_file_handle, call_decoder,
      assign, ret.
    destruct (StreamType d); intros Hset; try exact Hset;
      (destruct (file_handle self) as [f|]; [|exact Hset]);
      match goal with
      | |- context [?parse d f] => destruct (parse d f) as [[v|e|] q]
      end; cbn; try discriminate; exact Hset.
  - rewrite (dispatch_frame d t Hne self). exact Hset.
Qed.

Lemma directory_loop_keeps_defined t dirs :
  forall self,
    stream_field t self <> None ->
    stream_field t (snd (directory_loop dirs self)) <> None.
Proof.
  unfold directory_loop.
  induction dirs as [|d dirs IH]; intros self Hset; [exact Hset|].
  cbn [for_each]. unfold bind.
  pose proof (dispatch_keeps_defined d t self Hset) as H.
  destruct (dispatch_directory d self) as [[[]|e|] s]; cbn [snd] in *; auto.
Qed.

Lemma directory_loop_defines dirs self self' d :
  directory_loop dirs self = (Return tt, self') ->
  In d dirs -> has_decoder d = true ->
  stream_field (StreamType d) self' <> None.
Proof.
  intros Hrun Hin Hdec.
  apply in_split in Hin. destruct Hin as (pre & post & ->).
  apply directory_loop_split in Hrun.
  destruct Hrun as (s1 & s2 & _ & Hd & Hpost).
  unfold has_decoder in Hdec.
  destruct (stream_decoder d) as [dec|] eqn:E; [|discriminate].
  destruct (dispatch_stores d dec s1 s2 E Hd) as (f & v & p & _ & _ & Hv).
  pose proof (directory_loop_keeps_defined (StreamType d) post s2) as H.
  rewrite Hpost in H. apply H. rewrite Hv. discriminate.
Qed.

Lemma context_pass_keeps_defined t self :
  stream_field t (snd (try_except __parse_thread_context self)) = None <->
  stream_field t self = None.
Proof.
  destruct (stream_type_eq_dec t MINIDUMP_STREAM_TYPE.ThreadListStream) as [->|Hne].
  - pose proof (parse_thread_context_threads self) as H.
    replace (snd (try_except __parse_thread_context self))
      with (snd (__parse_thread_context self))
      by (unfold try_except; destruct (__parse_thread_context self) as [[[]|e|] s];
          reflexivity).
    cbn [stream_field].
    destruct (threads self), (threads (snd (__parse_thread_context self)));
      cbn; try contradiction; split; congruence.
  - rewrite (preserves_try_except _ _ (parse_thread_context_frame t Hne) self).
    reflexivity.
Qed.

(** A stream attribute of a returned model and the entries of the table. *)
Lemma stream_field_set_iff_entry
  (fuel : nat) (buffer : BytesIO) (self : MinidumpFile) (t : MINIDUMP_STREAM_TYPE.t) :
  parse_buff fuel buffer = Return self ->
  stream_field t self <> None <->
  exists d, In d (directories self) /\ StreamType d = t /\ has_decoder d = true.
Proof.
  intros Hrun.
  destruct (parse_buff_returns fuel buffer self Hrun) as (self1 & self2 & Hh & Hd & Hp).
  pose proof (f_equal (fun v => snd (fst v)) (parse_peb_frame fuel self2)) as Hview.
  rewrite Hp in Hview. cbn [fst snd walk_frame] in Hview.
  assert (Hfield : stream_field t self = stream_field t self2).
  { apply stream_field_of_view. unfold container_view in Hview. unfold streams_view.
    injection Hview as ? ? ? ? ? ? ? ? ? ? ? ? ? ? ? ? ?. congruence. }
  assert (Hdirs : directories self = directories self1).
  { pose proof (parse_directories_keeps_directories self1) as H. rewrite Hd in H.
    cbn [snd] in H.
    pose proof (f_equal (fun v => snd (fst (fst v))) Hview) as H'. cbn in H'.
    congruence. }
  assert (Hinit : stream_field t self1 = None).
  { pose proof (parse_header_frame (fresh buffer)) as H. rewrite Hh in H. cbn [snd] in H.
    rewrite (stream_field_of_view _ _ H t). destruct t; reflexivity. }
  rewrite Hfield, Hdirs. clear Hfield Hdirs Hview Hp Hrun self.
  unfold __parse_directories in Hd.
  apply bind_returns in Hd. destruct Hd as ([] & s & Hloop & Hctx).
  pose proof (context_pass_keeps_defined t s) as Hpass. rewrite Hctx in Hpass.
  cbn [snd] in Hpass.
  split.
  - intros Hset.
    destruct (entry_of_type_dec t (directories self1)) as [(d & Hin & Heq)|Hnone].
    + exists d. repeat split; auto. unfold has_decoder.
      destruct (stream_decoder d) eqn:E; [reflexivity|].
      exfalso. apply Hset. rewrite <- Heq. apply stream_field_without_decoder. exact E.
    + exfalso. apply Hset. apply Hpass.
      pose proof (directory_loop_frame _ _ Hnone self1) as H. rewrite Hloop in H.
      cbn [snd] in H. congruence.
  - intros (d & Hin & <- & Hdec) Hnone. apply Hpass in Hnone.
    exact (directory_loop_defines _ _ _ d Hloop Hin Hdec Hnone).
Qed.

(** X12. A stream attribute of a returned model is set exactly when the
    directory table has an entry of its stream type (a type with a
    decoder). *)
Theorem stream_attribute_iff_entry
  (fuel : nat) (buffer : BytesIO) (self : MinidumpFile) (t : MINIDUMP_STREAM_TYPE.t) :
  parse_buff fuel buffer = Return self ->
  stream_field t self <> None <->
  exists d, In d (directories self) /\ StreamType d = t /\ has_decoder d = true.
Proof. exact (stream_field_set_iff_entry fuel buffer self t). Qed.

(** X13. The text of a returned model: [__str__] returns exactly when the
    directory table has a [ModuleListStream] entry, and raises
    [AttributeError] otherwise. *)
Theorem str_returns_iff_module_entry (fuel : nat) (buffer : BytesIO) (self : MinidumpFile) :
  parse_buff fuel buffer = Return self ->
  ((exists t, __str__ self = Return t) <->
   exists d, In d (directories self) /\
             StreamType d = MINIDUMP_STREAM_TYPE.ModuleListStream) /\
  ((forall t, __str__ self <> Return t) -> __str__ self = Raise AttributeError).
Proof.
  intros Hrun.
  pose proof (stream_field_set_iff_entry fuel buffer self
                MINIDUMP_STREAM_TYPE.ModuleListStream Hrun) as Hiff.
  cbn [stream_field] in Hiff.
  split; [split|].
  - intros (t & Ht).
    destruct (modules self) as [ml|] eqn:Hm.
    + destruct (proj1 Hiff ltac:(discriminate)) as (d & Hin & Heq & _).
      exists d. auto.
    + rewrite (str_without_modules self Hm) in Ht. discriminate.
  - intros (d & Hin & Heq).
    destruct (modules self) as [ml|] eqn:Hm.
    + exact (str_with_modules self ml Hm).
    + exfalso. apply Hiff; [|reflexivity].
      exists d. repeat split; auto.
      unfold has_decoder, stream_decoder. rewrite Heq. reflexivity.
  - intros Hnot. destruct (modules self) as [ml|] eqn:Hm.
    + destruct (str_with_modules self ml Hm) as (t & Ht). destruct (Hnot t Ht).
    + exact (str_without_modules self Hm).
Qed.

(** ** The context pass and the position of the file handle *)

Lemma decode_thread_context_position si thread f g :
  getvalue g = getvalue f ->
  fst (decode_thread_context si thread g) = fst (decode_thread_context si thread f) /\
  getvalue (snd (decode_thread_context si thread g))
    = getvalue (snd (decode_thread_context si thread f)).
Proof.
  intros Hv. unfold decode_thread_context, bind, seek, call_decoder, ret.
  rewrite Hv.
  destruct (Rva (ThreadContext thread) <? 0); [cbn; auto|].
  destruct (ProcessorArchitecture si); cbn [getvalue];
    try match goal with
        | |- context [?parse (mkBytesIO ?v ?p)] =>
            destruct (parse (mkBytesIO v p)) as [[c|e|] q]
        end; cbn; auto.
Qed.

Lemma thread_context_loop_position si todo :
  forall f g,
    getvalue g = getvalue f ->
    fst (thread_context_loop si todo g) = fst (thread_context_loop si todo f).
Proof.
  induction todo as [|thread rest IH]; intros f g Hv; [reflexivity|].
  cbn [thread_context_loop].
  destruct (decode_thread_context_position si thread f g Hv) as [Ho Hv'].
  destruct (decode_thread_context si thread g) as [[t1|e1|] g1];
    destruct (decode_thread_context si thread f) as [[t2|e2|] f1];
    cbn [fst snd] in Ho, Hv'; try discriminate.
  - injection Ho as ->. specialize (IH f1 g1 Hv').
    destruct (thread_context_loop si rest g1) as [[o1 d1] g2].
    destruct (thread_context_loop si rest f1) as [[o2 d2] f2].
    cbn [fst] in *. injection IH as -> ->. reflexivity.
  - injection Ho as ->. reflexivity.
  - reflexivity.
Qed.

(** X14. The thread contexts do not depend on where the stream decoders left
    the file handle: each context is decoded after a [seek] to its own
    location, so the outcome of the pass and the thread list it leaves are
    the same from any position of the same content. *)
Theorem context_pass_ignores_the_position (self : MinidumpFile) (f g : BytesIO) :
  file_handle self = Some f ->
  getvalue g = getvalue f ->
  fst (__parse_thread_context (set_file_handle (Some g) self))
    = fst (__parse_thread_context self) /\
  threads (snd (__parse_thread_context (set_file_handle (Some g) self)))
    = threads (snd (__parse_thread_context self)).
Proof.
  intros Hf Hv. unfold __parse_thread_context.
  replace (sysinfo (set_file_handle (Some g) self)) with (sysinfo self) by reflexivity.
  replace (threads (set_file_handle (Some g) self)) with (threads self) by reflexivity.
  replace (file_handle (set_file_handle (Some g) self)) with (Some g) by reflexivity.
  rewrite Hf.
  destruct (sysinfo self) as [si|]; [|auto].
  destruct (threads self) as [tl|] eqn:Hth; [|auto].
  destruct (ThreadList_threads tl) as [|thread rest] eqn:Htl; [auto|].
  pose proof (thread_context_loop_position si (thread :: rest) f g Hv) as H.
  destruct (thread_context_loop si (thread :: rest) g) as [[o1 d1] g1].
  destruct (thread_context_loop si (thread :: rest) f) as [[o2 d2] f1].
  cbn [fst] in H. injection H as -> ->. cbn. auto.
Qed.

End Passes.

(** * Further properties at concrete inputs *)

Section ReferenceInputs.

Import Reference.
#[local] Existing Instance Reference.shapes.
#[local] Existing Instance Reference.package.

Lemma parse_buff_records_the_table_witness :
  exists h p,
    MinidumpHeader_parse (mkBytesIO Dumps.dump32 0) = (Return h, p) /\
    header (Dumps.model_of 2 Dumps.dump32) = Some h /\
    directories (Dumps.model_of 2 Dumps.dump32) = recorded_entries Dumps.dump32 h /\
    filename (Dumps.model_of 2 Dumps.dump32) = None.
Proof.
  apply (parse_buff_records_the_table (package := Reference.package)
           2 (mkBytesIO Dumps.dump32 0) (Dumps.model_of 2 Dumps.dump32)).
  vm_compute; reflexivity.
Defined.

Lemma parse_external_records_the_name_witness :
  filename (set_filename (Some (str_of_string "a.dmp")) (Dumps.model_of 2 Dumps.dump32))
    = Some (str_of_string "a.dmp") /\
  exists h p,
    MinidumpHeader_parse (mkBytesIO Dumps.dump32 0) = (Return h, p) /\
    header (set_filename (Some (str_of_string "a.dmp")) (Dumps.model_of 2 Dumps.dump32))
      = Some h /\
    directories (set_filename (Some (str_of_string "a.dmp"))
                   (Dumps.model_of 2 Dumps.dump32))
      = recorded_entries Dumps.dump32 h.
Proof.
  apply (parse_external_records_the_name (package := Reference.package)
           2 (mkBytesIO Dumps.dump32 0) (str_of_string "a.dmp")
           (set_filename (Some (str_of_string "a.dmp")) (Dumps.model_of 2 Dumps.dump32))).
  vm_compute; reflexivity.
Defined.

(** The table of [dump_without_sysinfo] has an unused entry; the loop over it
    is the loop over the other four. *)
Example unused_entry_is_skipped :
  filter has_decoder (directories (Dumps.after_header Dumps.dump_without_sysinfo))
  = [ {| StreamType := MINIDUMP_STREAM_TYPE.ThreadListStream;
         Location := {| DataSize := 52; Rva := 0x60 |} |};
      {| StreamType := MINIDUMP_STREAM_TYPE.MemoryListStream;
         Location := {| DataSize := 20; Rva := 0x94 |} |};
      {| StreamType := MINIDUMP_STREAM_TYPE.CommentStreamA;
         Location := {| DataSize := 3; Rva := 0xe0 |} |};
      {| StreamType := MINIDUMP_STREAM_TYPE.CommentStreamA;
         Location := {| DataSize := 3; Rva := 0xe4 |} |} ].
Proof. vm_compute. reflexivity. Qed.

Lemma stream_failure_reaches_the_caller_witness :
  (exists self',
     __parse_directories (Dumps.after_header Dumps.dump_truncated_stream)
       = (Raise TruncatedReadError, self') /\
     streams_view self' = streams_view (Dumps.after_header Dumps.dump_truncated_stream)) /\
  parse_buff 2 (mkBytesIO Dumps.dump_truncated_stream 0) = Raise TruncatedReadError.
Proof.
  apply (stream_failure_reaches_the_caller (package := Reference.package)
           2 (mkBytesIO Dumps.dump_truncated_stream 0)
           (Dumps.after_header Dumps.dump_truncated_stream)
           (Dumps.after_header Dumps.dump_truncated_stream)
           []
           (tl (directories (Dumps.after_header Dumps.dump_truncated_stream)))
           {| StreamType := MINIDUMP_STREAM_TYPE.ThreadListStream;
              Location := {| DataSize := 52; Rva := 0x10000 |} |}
           (decoder_map threads_value
              (MinidumpThreadList_parse
                 {| StreamType := MINIDUMP_STREAM_TYPE.ThreadListStream;
                    Location := {| DataSize := 52; Rva := 0x10000 |} |}))
           (mkBytesIO Dumps.dump_truncated_stream 92)
           TruncatedReadError 0x10000).
  - vm_compute; reflexivity.
  - vm_compute; reflexivity.
  - vm_compute; reflexivity.
  - vm_compute; reflexivity.
  - reflexivity.
  - vm_compute; reflexivity.
Defined.

Lemma no_system_info_no_context_pass_witness :
  __parse_directories (Dumps.after_header Dumps.dump_without_sysinfo) =
  directory_loop (directories (Dumps.after_header Dumps.dump_without_sysinfo))
    (Dumps.after_header Dumps.dump_without_sysinfo).
Proof.
  apply (no_system_info_no_context_pass (package := Reference.package)
           (Dumps.after_header Dumps.dump_without_sysinfo)).
  - vm_compute; reflexivity.
  - intros d Hin. vm_compute in Hin.
    repeat (destruct Hin as [<-|Hin]; [discriminate|]). destruct Hin.
Defined.

(** Without system info the thread of [dump_without_sysinfo] keeps an empty
    context, and the parse returns. *)
Example threads_without_system_info :
  threads (Dumps.model_of 2 Dumps.dump_without_sysinfo) =
  Some {| ThreadList_threads :=
            [ {| Teb := 0x1000; ThreadContext := {| DataSize := 716; Rva := 0x228 |};
                 ContextObject := None |} ] |}.
Proof. vm_compute. reflexivity. Qed.

Lemma context_pass_changes_contexts_only_witness :
  (forall t, t <> MINIDUMP_STREAM_TYPE.ThreadListStream ->
     stream_field t
       (snd (__parse_thread_context (Dumps.after_directory_loop Dumps.dump_bad_context)))
     = stream_field t (Dumps.after_directory_loop Dumps.dump_bad_context)) /\
  table_view
    (snd (__parse_thread_context (Dumps.after_directory_loop Dumps.dump_bad_context)))
    = table_view (Dumps.after_directory_loop Dumps.dump_bad_context) /\
  exists tl',
    threads
      (snd (__parse_thread_context (Dumps.after_directory_loop Dumps.dump_bad_context)))
      = Some tl' /\
    Forall2 same_descriptor
      (ThreadList_threads
         {| ThreadList_threads := [Dumps.bad_thread; Dumps.good_thread] |})
      (ThreadList_threads tl').
Proof.
  apply (context_pass_changes_contexts_only (package := Reference.package)
           (Dumps.after_directory_loop Dumps.dump_bad_context)
           {| ThreadList_threads := [Dumps.bad_thread; Dumps.good_thread] |}).
  vm_compute; reflexivity.
Defined.

Lemma string_property_round_trip_witness :
  run (__read_unicode_string_property 0x1098 false)
    (Dumps.dump32_walk Dumps.unicode_reader [])
  = (Return Dumps.unicode_path,
     Dumps.dump32_walk (moved_to Dumps.unicode_reader Dumps.dump32_region 0x10ea)
       ([] ++ [ call_move 0x1098; call_read 2;
                call_move (0x1098 + OFFSETS false buffer);
                call_read (POINTER_SIZE false);
                call_move (int_from_bytes_little (Dumps.le 4 0x10e0));
                call_read (len (encode_utf16le Dumps.unicode_path)) ])).
Proof.
  apply (string_property_round_trip (package := Reference.package)
           0x1098 false Dumps.unicode_path MinidumpFile__init__
           Dumps.unicode_reader
           (moved_to Dumps.unicode_reader Dumps.dump32_region 0x1098)
           (moved_to Dumps.unicode_reader Dumps.dump32_region 0x109a)
           (moved_to Dumps.unicode_reader Dumps.dump32_region 0x109c)
           (moved_to Dumps.unicode_reader Dumps.dump32_region 0x10a0)
           (moved_to Dumps.unicode_reader Dumps.dump32_region 0x10e0)
           (moved_to Dumps.unicode_reader Dumps.dump32_region 0x10ea)
           [] (Dumps.le 2 10) (Dumps.le 4 0x10e0));
    try (vm_compute; reflexivity).
  discriminate.
Defined.

(** A text that starts with [U+FEFF] is not read back: [decode] takes its
    first two bytes for a byte-order mark and drops them. *)
Example leading_mark_is_dropped :
  decode_utf16 (encode_utf16le [0xFEFF; 0x41]%N) = Return [0x41%N].
Proof. vm_compute. reflexivity. Qed.

(** The whole parse of [dump_unicode_path] returns that image path. *)
Example image_path_of_dump_unicode_path :
  image_path (Dumps.model_of 2 Dumps.dump_unicode_path) = Some Dumps.unicode_path.
Proof. vm_compute. reflexivity. Qed.

Lemma environment_scan_round_trip_witness :
  exists st',
    run (parse_environment 2 false 0x1060)
      (Dumps.dump32_walk Dumps.dump32_reader [])
    = (Return tt, st') /\
    environment_variables (walk_self st') =
      Some (map environment_entry [("A", "1"); ("B", "22")]%string).
Proof.
  refine (environment_scan_round_trip (package := Reference.package)
            (fun rd => reader_regions rd = [Dumps.dump32_region] /\
                       reader_file rd = Dumps.dump32)
            [("A", "1"); ("B", "22")]%string
            2 false 0x1060 0x1110 MinidumpFile__init__
            Dumps.dump32_reader
            (moved_to Dumps.dump32_reader Dumps.dump32_region 0x10a8)
            (moved_to Dumps.dump32_reader Dumps.dump32_region 0x10ac)
            [] (Dumps.le 4 0x1110) (repeat x00 28)
            _ _ _ _ _ _ _).
  - simpl. lia.
  - vm_compute; reflexivity.
  - vm_compute; reflexivity.
  - vm_compute; reflexivity.
  - vm_compute; reflexivity.
  - split; reflexivity.
  - apply (reference_reader_serves _ _ Dumps.dump32_region).
    + intros a Ha. unfold region_end in Ha. simpl in Ha.
      unfold lookup, region_end. simpl.
      replace (4096 <=? a) with true by (symmetry; apply Z.leb_le; lia).
      replace (a <? 4416) with true by (symmetry; apply Z.ltb_lt; lia).
      reflexivity.
    + unfold region_holds. repeat split; try (vm_compute; congruence).
Defined.

Lemma entry_without_equals_raises_witness :
  run (environment_loop 1 (utf16le "PATH" ++ [x00; x00] ++ [x00; x00]) 0x1110)
    (Dumps.dump32_walk Dumps.dump32_reader [])
  = (Raise IndexError, Dumps.dump32_walk Dumps.dump32_reader []).
Proof.
  apply (entry_without_equals_raises (package := Reference.package)
           "PATH" [x00; x00] 0 0x1110 (Dumps.dump32_walk Dumps.dump32_reader [])).
  - discriminate.
  - vm_compute; reflexivity.
  - vm_compute; reflexivity.
Defined.

(** The dump whose environment holds the entry [PATH] gives the caller no
    model. *)
Example entry_without_equals_aborts_parse (fuel : nat) :
  parse_bytes (S fuel) Dumps.dump_no_equals = Raise IndexError.
Proof. vm_compute. reflexivity. Qed.


(** The dump whose environment holds that entry gives the caller no
    model. *)
Example entry_ending_outside_latin1_aborts_parse (fuel : nat) :
  parse_bytes (S fuel) Dumps.dump_unicode_environment = Raise UnicodeDecodeError.
Proof. vm_compute. reflexivity. Qed.

(** A character whose low byte is zero after a Latin-1 character makes two
    NUL bytes inside the entry: the scan cuts the entry there. *)
Example entry_with_misaligned_zeros (st : walk_state) :
  run (environment_loop 1
         (encode_utf16le [0x78; 0x4E00; 0x3D; 0x31]%N ++ [x00; x00; x00; x00]) 0x1110) st
  = (Raise IndexError, st).
Proof. destruct st. vm_compute. reflexivity. Qed.

Lemma returned_model_has_a_thread_witness :
  exists tl thread rest,
    threads (Dumps.model_of 2 Dumps.dump32) = Some tl /\
    ThreadList_threads tl = thread :: rest.
Proof.
  apply (returned_model_has_a_thread (package := Reference.package)
           2 (mkBytesIO Dumps.dump32 0) (Dumps.model_of 2 Dumps.dump32)).
  vm_compute; reflexivity.
Defined.

Lemma stream_attribute_iff_entry_witness :
  stream_field MINIDUMP_STREAM_TYPE.ModuleListStream (Dumps.model_of 2 Dumps.dump32)
    <> None <->
  exists d, In d (directories (Dumps.model_of 2 Dumps.dump32)) /\
            StreamType d = MINIDUMP_STREAM_TYPE.ModuleListStream /\
            has_decoder d = true.
Proof.
  apply (stream_attribute_iff_entry (package := Reference.package)
           2 (mkBytesIO Dumps.dump32 0) (Dumps.model_of 2 Dumps.dump32)
           MINIDUMP_STREAM_TYPE.ModuleListStream).
  vm_compute; reflexivity.
Defined.

Lemma str_returns_iff_module_entry_witness :
  ((exists t, __str__ (Dumps.model_of 2 Dumps.dump_with_modules) = Return t) <->
   exists d, In d (directories (Dumps.model_of 2 Dumps.dump_with_modules)) /\
             StreamType d = MINIDUMP_STREAM_TYPE.ModuleListStream) /\
  ((forall t, __str__ (Dumps.model_of 2 Dumps.dump_with_modules) <> Return t) ->
   __str__ (Dumps.model_of 2 Dumps.dump_with_modules) = Raise AttributeError).
Proof.
  apply (str_returns_iff_module_entry (package := Reference.package)
           2 (mkBytesIO Dumps.dump_with_modules 0)
           (Dumps.model_of 2 Dumps.dump_with_modules)).
  vm_compute; reflexivity.
Defined.

Lemma context_pass_ignores_the_position_witness :
  fst (__parse_thread_context
         (set_file_handle (Some (mkBytesIO Dumps.dump32 0))
            (Dumps.after_directory_loop Dumps.dump32)))
    = fst (__parse_thread_context (Dumps.after_directory_loop Dumps.dump32)) /\
  threads (snd (__parse_thread_context
                  (set_file_handle (Some (mkBytesIO Dumps.dump32 0))
                     (Dumps.after_directory_loop Dumps.dump32))))
    = threads (snd (__parse_thread_context (Dumps.after_directory_loop Dumps.dump32))).
Proof.
  apply (context_pass_ignores_the_position (package := Reference.package)
           (Dumps.after_directory_loop Dumps.dump32)
           (mkBytesIO Dumps.dump32 0xe7) (mkBytesIO Dumps.dump32 0));
    vm_compute; reflexivity.
Defined.

End ReferenceInputs.
